(** * InterServer relay bot: a shallow embedding and its properties

    The development follows the Python sources:
    - [config.py]            -> [Module Config]
    - [database.py]          -> [Module Database]
    - [utils/filters.py]     -> [Module Re] (the part of Python's [re] the
                                filters use) and [Module ContentFilter]
    - [cogs/interserver.py]  -> [Module InterServer], [Module Commands]
    - [main.py]              -> [Module Bot]

    [Module DatabaseQueries] has the reading methods of [database.py],
    [Module ReSub] and [Module TextTools] the text tools of
    [utils/filters.py].

    Python [str] values are sequences of Unicode code points and are
    modelled as [list N]; integers (ids, counters, timestamps in seconds)
    are [Z].  The SQLite file behind [Database] is a record of four tables,
    each a list of rows kept in rowid order. *)

From Stdlib Require Import List ZArith NArith Bool String Ascii Lia.
From Stdlib Require Import Sorted Permutation.
Import ListNotations.
Local Open Scope Z_scope.

(* ================================================================= *)
(** * Text: Python [str] as a list of code points                      *)
(* ================================================================= *)

Definition text := list N.

(** A literal of the source, given by its ASCII characters. *)
Definition cp (s : string) : text :=
  map N_of_ascii (list_ascii_of_string s).

Fixpoint text_eqb (a b : text) : bool :=
  match a, b with
  | [], [] => true
  | x :: a', y :: b' => N.eqb x y && text_eqb a' b'
  | _, _ => false
  end.

(** [s.startswith(p)] *)
Fixpoint startswith (s p : text) : bool :=
  match p, s with
  | [], _ => true
  | _ :: _, [] => false
  | y :: p', x :: s' => N.eqb x y && startswith s' p'
  end.

(** [s.endswith(p)] *)
Definition endswith (s p : text) : bool :=
  startswith (rev s) (rev p).

(** [p in s] for strings: [p] occurs as a contiguous substring of [s]. *)
Fixpoint contains (s p : text) : bool :=
  startswith s p ||
  match s with
  | [] => false
  | _ :: s' => contains s' p
  end.

(** [c in s] for a single character. *)
Definition has_char (c : N) (s : text) : bool :=
  existsb (N.eqb c) s.

(** [s.find(c)]: index of the first occurrence, [None] for Python's -1. *)
Fixpoint find_char (c : N) (s : text) : option nat :=
  match s with
  | [] => None
  | x :: s' => if N.eqb x c then Some O
               else option_map S (find_char c s')
  end.

(** [x in l]: membership of a string in a list or set of strings. *)
Definition text_in (x : text) (l : list text) : bool :=
  existsb (text_eqb x) l.

Definition in_range (lo hi c : N) : bool :=
  (N.leb lo c && N.leb c hi)%N.

(** [str.lower()], code point by code point, on Basic Latin, Latin-1 and
    the Cyrillic block (the scripts of the word lists and patterns of
    [filters.py]); other code points are left as they are. *)
Definition lower_char (c : N) : N :=
  if in_range 65 90 c then (c + 32)%N
  else if in_range 192 222 c && negb (N.eqb c 215) then (c + 32)%N
  else if in_range 1040 1071 c then (c + 32)%N
  else if in_range 1024 1039 c then (c + 80)%N
  else c.

Definition lower (s : text) : text := map lower_char s.

Definition upper_char (c : N) : N :=
  if in_range 97 122 c then (c - 32)%N
  else if in_range 224 254 c && negb (N.eqb c 247) then (c - 32)%N
  else if in_range 1072 1103 c then (c - 32)%N
  else if in_range 1104 1119 c then (c - 80)%N
  else c.

(** [char.isdigit()] on the ASCII digits. *)
Definition isdigit (c : N) : bool := in_range 48 57 c.

(** A word character of [re] ([\w], and the two sides of [\b]): letters of
    the scripts above, digits and the underscore. *)
Definition is_word (c : N) : bool :=
  in_range 48 57 c || in_range 65 90 c || in_range 97 122 c || N.eqb c 95
  || (in_range 192 255 c && negb (N.eqb c 215) && negb (N.eqb c 247))
  || in_range 1024 1119 c.

(* ================================================================= *)
(** * config.py                                                        *)
(* ================================================================= *)

Module Config.

(** The attributes of [class Config] the relay, the registry and the
    filters read.  Each is set from the environment when the module is
    imported, so a configuration is a value of this record. *)
Record t := mk {
  PREFIX : text;
  SPAM_THRESHOLD : Z;
  SPAM_TIME_WINDOW : Z;
  MAX_CONNECTIONS_PER_SERVER : Z;
  MAX_FILE_SIZE : Z;
  BLOCKED_DOMAINS : list text;
  PROFANITY_WORDS : list text
}.

(** The values [config.py] takes when no environment variable is set. *)
Definition default : t := {|
  PREFIX := cp "!";
  SPAM_THRESHOLD := 5;
  SPAM_TIME_WINDOW := 10;
  MAX_CONNECTIONS_PER_SERVER := 10;
  MAX_FILE_SIZE := 8388608;
  BLOCKED_DOMAINS :=
    [ cp "bit.ly"; cp "tinyurl.com"; cp "grabify.link"; cp "iplogger.org";
      cp "2no.co"; cp "cutt.ly"; cp "discord.gift"; cp "discordnitro.info" ];
  PROFANITY_WORDS := []
|}.

End Config.

(* ================================================================= *)
(** * database.py                                                      *)
(* ================================================================= *)

Module Database.

(** ** The four tables of [_create_tables] *)

Record connection_row := mk_connection {
  id : Z;
  server1_id : Z;
  channel1_id : Z;
  server2_id : Z;
  channel2_id : Z;
  connection_name : text;
  created_at : Z;
  created_by : Z;
  is_active : bool;
  description : option text
}.

Record message_history_row := mk_message_history {
  mh_id : Z;
  original_message_id : Z;
  forwarded_message_id : Z;
  author_id : Z;
  connection_id : Z;
  timestamp : Z;
  content_hash : option string
}.

Record server_settings_row := mk_server_settings {
  server_id : Z;
  prefix : text;
  enabled : bool;
  mod_role_id : option Z;
  log_channel_id : option Z;
  spam_protection : bool;
  profanity_filter : bool;
  auto_delete_commands : bool;
  webhook_notifications : bool;
  ss_created_at : Z;
  ss_updated_at : Z
}.

Record spam_tracking_row := mk_spam_tracking {
  st_id : Z;
  user_id : Z;
  st_server_id : Z;
  st_channel_id : Z;
  message_count : Z;
  first_message_time : Z;
  last_message_time : Z;
  is_blocked : bool
}.

(** The database file.  Rows are kept in rowid order, the order in which
    SQLite visits them when it scans a table or one of the indexes of
    [_create_tables] for rows with equal keys; [fetchone] is the first
    row of a result.  The [*_seq] fields are the [sqlite_sequence]
    entries behind [AUTOINCREMENT]. *)
Record db := mk_db {
  connections : list connection_row;
  connections_seq : Z;
  message_history : list message_history_row;
  message_history_seq : Z;
  server_settings : list server_settings_row;
  spam_tracking : list spam_tracking_row;
  spam_tracking_seq : Z
}.

(** The state [init_db] leaves on a new file. *)
Definition init_db : db :=
  mk_db [] 0 [] 0 [] [] 0.

(** The rowid [AUTOINCREMENT] gives the next row: one more than the
    largest rowid the table has ever held. *)
Definition next_rowid (seq : Z) (ids : list Z) : Z :=
  fold_left Z.max ids seq + 1.

Definition set_connections (d : db) (l : list connection_row) (seq : Z) : db :=
  mk_db l seq (message_history d) (message_history_seq d)
        (server_settings d) (spam_tracking d) (spam_tracking_seq d).

Definition set_message_history (d : db) (l : list message_history_row)
           (seq : Z) : db :=
  mk_db (connections d) (connections_seq d) l seq
        (server_settings d) (spam_tracking d) (spam_tracking_seq d).

Definition set_server_settings (d : db) (l : list server_settings_row) : db :=
  mk_db (connections d) (connections_seq d)
        (message_history d) (message_history_seq d)
        l (spam_tracking d) (spam_tracking_seq d).

Definition set_spam_tracking (d : db) (l : list spam_tracking_row)
           (seq : Z) : db :=
  mk_db (connections d) (connections_seq d)
        (message_history d) (message_history_seq d)
        (server_settings d) l seq.

(** ** Connections *)

(** [create_connection]: one INSERT; [is_active] takes its default TRUE
    and [created_at] the current time.  Returns [cursor.lastrowid]. *)
Definition create_connection (now : Z) (server1 channel1 server2 channel2 : Z)
           (name : text) (creator : Z) (descr : option text) (d : db)
  : db * Z :=
  let rowid := next_rowid (connections_seq d) (map id (connections d)) in
  let row := mk_connection rowid server1 channel1 server2 channel2
                           name now creator true descr in
  (set_connections d (connections d ++ [row]) rowid, rowid).

(** [get_connection_by_id]: [WHERE id = ? AND is_active = TRUE]. *)
Definition get_connection_by_id (connection_id : Z) (d : db)
  : option connection_row :=
  find (fun r => (id r =? connection_id) && is_active r) (connections d).

(** [get_connections_by_channel]:
    [WHERE (channel1_id = ? OR channel2_id = ?) AND is_active = TRUE]. *)
Definition get_connections_by_channel (channel : Z) (d : db)
  : list connection_row :=
  filter (fun r => ((channel1_id r =? channel) || (channel2_id r =? channel))
                   && is_active r)
         (connections d).

(** [delete_connection]: [UPDATE connections SET is_active = FALSE
    WHERE id = ?]; the result is [cursor.rowcount > 0], and SQLite counts
    every row the WHERE clause selects, whatever its old value. *)
Definition deactivate (r : connection_row) : connection_row :=
  mk_connection (id r) (server1_id r) (channel1_id r) (server2_id r)
                (channel2_id r) (connection_name r) (created_at r)
                (created_by r) false (description r).

Definition delete_connection (connection_id : Z) (d : db) : db * bool :=
  let hit := fun r => id r =? connection_id in
  let rowcount := Z.of_nat (List.length (filter hit (connections d))) in
  (set_connections d
     (map (fun r => if hit r then deactivate r else r) (connections d))
     (connections_seq d),
   0 <? rowcount).

(** [get_server_connection_count]: [SELECT COUNT( * ) ... WHERE
    (server1_id = ? OR server2_id = ?) AND is_active = TRUE]. *)
Definition get_server_connection_count (server : Z) (d : db) : Z :=
  Z.of_nat (List.length (filter
    (fun r => ((server1_id r =? server) || (server2_id r =? server))
              && is_active r)
    (connections d))).

(** [deactivate_server_connections]: [UPDATE connections SET is_active =
    FALSE WHERE server1_id = ? OR server2_id = ?]. *)
Definition deactivate_server_connections (server : Z) (d : db) : db :=
  set_connections d
    (map (fun r => if (server1_id r =? server) || (server2_id r =? server)
                   then deactivate r else r)
         (connections d))
    (connections_seq d).

(** ** Message history *)

(** [log_message]: one INSERT.  [PRAGMA foreign_keys = ON] makes SQLite
    refuse a [connection_id] that names no row of [connections]
    ([None] stands for the [IntegrityError]). *)
Definition log_message (now : Z) (original_msg forwarded_msg author conn : Z)
           (hash : option string) (d : db) : option db :=
  if existsb (fun r => id r =? conn) (connections d) then
    let rowid := next_rowid (message_history_seq d)
                            (map mh_id (message_history d)) in
    let row := mk_message_history rowid original_msg forwarded_msg author
                                  conn now hash in
    Some (set_message_history d (message_history d ++ [row]) rowid)
  else None.

(** ** Server settings *)

(** The row [INSERT OR IGNORE INTO server_settings (server_id)] creates:
    every other column takes its declared default. *)
Definition default_settings (now : Z) (server : Z) : server_settings_row :=
  mk_server_settings server (cp "!") true None None true true false false
                     now now.

Definition find_settings (server : Z) (d : db) : option server_settings_row :=
  find (fun r => server_id r =? server) (server_settings d).

Definition create_server_settings (now : Z) (server : Z) (d : db) : db :=
  match find_settings server d with
  | Some _ => d
  | None => set_server_settings d
              (server_settings d ++ [default_settings now server])
  end.

(** [get_server_settings]: the row of the server; when there is none it
    is created and the SELECT is run again. *)
Definition get_server_settings (now : Z) (server : Z) (d : db)
  : db * server_settings_row :=
  match find_settings server d with
  | Some r => (d, r)
  | None => (create_server_settings now server d, default_settings now server)
  end.

(** ** Spam tracking *)

Definition same_key (user server channel : Z) (r : spam_tracking_row) : bool :=
  (user_id r =? user) && (st_server_id r =? server)
  && (st_channel_id r =? channel).

(** [datetime(last_message_time, '+W seconds') > datetime('now')], for a
    window [W] that is not negative and ends inside SQLite's calendar
    (before the year 10000); outside of that the date is NULL and SQLite
    finds no row live. *)
Definition live (window now : Z) (r : spam_tracking_row) : bool :=
  now <? last_message_time r + window.

(** [track_message_spam].  The first SELECT looks for a live row of the
    key.  When there is one, the UPDATE rewrites every row of the key
    (its WHERE clause has no time condition).  When there is none, a row
    is inserted: [spam_tracking] has no UNIQUE constraint besides its
    rowid, so [INSERT OR REPLACE] never finds a row to replace.  The last
    SELECT returns the first row of the key. *)
Definition track_message_spam (cfg : Config.t) (now : Z)
           (user server channel : Z) (d : db) : db * (Z * bool) :=
  let existing :=
    find (fun r => same_key user server channel r
                   && live (Config.SPAM_TIME_WINDOW cfg) now r)
         (spam_tracking d) in
  let d' :=
    match existing with
    | Some row =>
        let new_count := message_count row + 1 in
        set_spam_tracking d
          (map (fun r =>
                  if same_key user server channel r then
                    mk_spam_tracking (st_id r) (user_id r) (st_server_id r)
                      (st_channel_id r) new_count (first_message_time r) now
                      (Config.SPAM_THRESHOLD cfg <=? new_count)
                  else r)
               (spam_tracking d))
          (spam_tracking_seq d)
    | None =>
        let rowid := next_rowid (spam_tracking_seq d)
                                (map st_id (spam_tracking d)) in
        set_spam_tracking d
          (spam_tracking d ++
             [mk_spam_tracking rowid user server channel 1 now now false])
          rowid
    end in
  let result := find (same_key user server channel) (spam_tracking d') in
  (d', match result with
       | Some r => (message_count r, is_blocked r)
       | None => (1, false)
       end).

(** [is_user_spam_blocked] *)
Definition is_user_spam_blocked (cfg : Config.t) (now : Z)
           (user server channel : Z) (d : db) : bool :=
  match find (fun r => same_key user server channel r
                       && live (Config.SPAM_TIME_WINDOW cfg) now r)
             (spam_tracking d) with
  | Some r => is_blocked r
  | None => false
  end.

(** ** Service methods *)

(** [cleanup_old_data]: the only DELETE of the module, on
    [spam_tracking]; the DELETE on [message_history] is commented out in
    the source.  The condition is
    [datetime(last_message_time, '+N days') < datetime('now')], read here
    for a number of days that is not negative: for a negative one the
    modifier is ['+-5 days'], the date is NULL and SQLite deletes
    nothing. *)
Definition cleanup_old_data (now : Z) (days : Z) (d : db) : db :=
  set_spam_tracking d
    (filter (fun r => negb (last_message_time r + days * 86400 <? now))
            (spam_tracking d))
    (spam_tracking_seq d).

(** [update_server_setting], for the six settings [admin set] accepts. *)
Inductive setting :=
| set_prefix (v : text)
| set_enabled (v : bool)
| set_spam_protection (v : bool)
| set_profanity_filter (v : bool)
| set_auto_delete_commands (v : bool)
| set_webhook_notifications (v : bool).

Definition apply_setting (now : Z) (s : setting) (r : server_settings_row)
  : server_settings_row :=
  match s with
  | set_prefix v =>
      mk_server_settings (server_id r) v (enabled r) (mod_role_id r)
        (log_channel_id r) (spam_protection r) (profanity_filter r)
        (auto_delete_commands r) (webhook_notifications r) (ss_created_at r) now
  | set_enabled v =>
      mk_server_settings (server_id r) (prefix r) v (mod_role_id r)
        (log_channel_id r) (spam_protection r) (profanity_filter r)
        (auto_delete_commands r) (webhook_notifications r) (ss_created_at r) now
  | set_spam_protection v =>
      mk_server_settings (server_id r) (prefix r) (enabled r) (mod_role_id r)
        (log_channel_id r) v (profanity_filter r)
        (auto_delete_commands r) (webhook_notifications r) (ss_created_at r) now
  | set_profanity_filter v =>
      mk_server_settings (server_id r) (prefix r) (enabled r) (mod_role_id r)
        (log_channel_id r) (spam_protection r) v
        (auto_delete_commands r) (webhook_notifications r) (ss_created_at r) now
  | set_auto_delete_commands v =>
      mk_server_settings (server_id r) (prefix r) (enabled r) (mod_role_id r)
        (log_channel_id r) (spam_protection r) (profanity_filter r)
        v (webhook_notifications r) (ss_created_at r) now
  | set_webhook_notifications v =>
      mk_server_settings (server_id r) (prefix r) (enabled r) (mod_role_id r)
        (log_channel_id r) (spam_protection r) (profanity_filter r)
        (auto_delete_commands r) v (ss_created_at r) now
  end.

Definition update_server_setting (now : Z) (server : Z) (s : setting)
           (d : db) : db :=
  set_server_settings d
    (map (fun r => if server_id r =? server then apply_setting now s r else r)
         (server_settings d)).

(** Every method of [class Database] that writes, as one operation. *)
Inductive op :=
| OpCreateConnection (server1 channel1 server2 channel2 : Z) (name : text)
                     (creator : Z) (descr : option text)
| OpDeleteConnection (connection_id : Z)
| OpLogMessage (original_msg forwarded_msg author conn : Z)
               (hash : option string)
| OpCreateServerSettings (server : Z)
| OpGetServerSettings (server : Z)
| OpUpdateServerSetting (server : Z) (s : setting)
| OpTrackMessageSpam (user server channel : Z)
| OpDeactivateServerConnections (server : Z)
| OpCleanupOldData (days : Z).

Definition run (cfg : Config.t) (now : Z) (o : op) (d : db) : db :=
  match o with
  | OpCreateConnection s1 c1 s2 c2 n u ds =>
      fst (create_connection now s1 c1 s2 c2 n u ds d)
  | OpDeleteConnection i => fst (delete_connection i d)
  | OpLogMessage o f a c h =>
      match log_message now o f a c h d with
      | Some d' => d'
      | None => d
      end
  | OpCreateServerSettings s => create_server_settings now s d
  | OpGetServerSettings s => fst (get_server_settings now s d)
  | OpUpdateServerSetting s st => update_server_setting now s st d
  | OpTrackMessageSpam u s c => fst (track_message_spam cfg now u s c d)
  | OpDeactivateServerConnections s => deactivate_server_connections s d
  | OpCleanupOldData days => cleanup_old_data now days d
  end.

End Database.

(* ================================================================= *)
(** * The part of Python's [re] that filters.py uses                   *)
(* ================================================================= *)

Module Re.

(** Members of a character set [[...]]. *)
Inductive item :=
| IChar (c : N)
| IRange (lo hi : N)
| IDigit                      (* \d *)
| IWord.                      (* \w *)

Inductive regex :=
| Eps
| Chr (c : N)                                 (* a literal character *)
| Dot                                         (* .  (not a newline) *)
| CharSet (items : list item)                 (* [...] *)
| Cat (r1 r2 : regex)
| Alt (r1 r2 : regex)                         (* r1|r2 *)
| Rep (r : regex) (lo : nat) (hi : option nat) (* greedy r{lo,hi} *)
| Group (n : nat) (r : regex)                 (* capturing group n *)
| Backref (n : nat)                           (* \n *)
| WordBoundary.                               (* \b *)

(** A literal string. *)
Fixpoint lit (s : text) : regex :=
  match s with
  | [] => Eps
  | [c] => Chr c
  | c :: s' => Cat (Chr c) (lit s')
  end.

Definition star (r : regex) : regex := Rep r 0 None.
Definition plus (r : regex) : regex := Rep r 1 None.
Definition opt (r : regex) : regex := Rep r 0 (Some 1%nat).
Definition times (n : nat) (r : regex) : regex := Rep r n (Some n).

(** ** IGNORECASE

    [re] lowers the character read and the pattern; on top of the
    simple lower-case mapping, dotted capital I (U+0130) lowers to [i],
    the Kelvin sign (U+212A) to [k], and [i]/dotless i (U+0131) and
    [s]/long s (U+017F) count as equal. *)
Definition sre_lower (c : N) : N :=
  if N.eqb c 304 then 105
  else if N.eqb c 8490 then 107
  else lower_char c.

Definition equivalents (l : N) : list N :=
  if N.eqb l 105 then [305%N]
  else if N.eqb l 305 then [105%N]
  else if N.eqb l 115 then [383%N]
  else if N.eqb l 383 then [115%N]
  else [].

Definition unlower (l : N) : list N :=
  l :: upper_char l ::
    (if N.eqb l 105 then [304%N] else if N.eqb l 107 then [8490%N] else []).

(** Every character that matches wherever [c] does under IGNORECASE. *)
Definition variants (c : N) : list N :=
  let l := sre_lower c in
  flat_map unlower (l :: equivalents l).

Definition item_has (i : item) (c : N) : bool :=
  match i with
  | IChar x => N.eqb x c
  | IRange lo hi => in_range lo hi c
  | IDigit => isdigit c
  | IWord => is_word c
  end.

Definition chr_matches (ic : bool) (x c : N) : bool :=
  if ic then existsb (N.eqb x) (variants c) else N.eqb x c.

Definition set_matches (ic : bool) (items : list item) (c : N) : bool :=
  if ic then existsb (fun v => existsb (fun i => item_has i v) items)
                     (c :: variants c)
  else existsb (fun i => item_has i c) items.

(** ** Backtracking matcher *)

(** Where a match attempt stands: the character before the position
    (for [\b]), the input still to read, the groups closed so far. *)
Record mstate := mk_mstate {
  prev : option N;
  rest : text;
  groups : list (nat * text)
}.

Definition step (s : mstate) (x : N) (t : text) : mstate :=
  mk_mstate (Some x) t (groups s).

Definition consumed (s s' : mstate) : text :=
  firstn (List.length (rest s) - List.length (rest s')) (rest s).

Definition set_group (n : nat) (g : text) (s : mstate) : mstate :=
  mk_mstate (prev s) (rest s) ((n, g) :: groups s).

Fixpoint get_group (n : nat) (gs : list (nat * text)) : option text :=
  match gs with
  | [] => None
  | (k, g) :: gs' => if Nat.eqb k n then Some g else get_group n gs'
  end.

(** Reads [g] at the position, for a back-reference. *)
Fixpoint read (ic : bool) (g : text) (s : mstate) : option mstate :=
  match g with
  | [] => Some s
  | c :: g' =>
      match rest s with
      | x :: t =>
          if (if ic then N.eqb (sre_lower x) (sre_lower c) else N.eqb x c)
          then read ic g' (step s x t)
          else None
      | [] => None
      end
  end.

Definition word_before (s : mstate) : bool :=
  match prev s with Some c => is_word c | None => false end.

Definition word_after (s : mstate) : bool :=
  match rest s with c :: _ => is_word c | [] => false end.

Definition below (n : nat) (hi : option nat) : bool :=
  match hi with Some h => Nat.ltb n h | None => true end.

Definition or_else {A} (a : option A) (b : option A) : option A :=
  match a with Some _ => a | None => b end.

(** [run ic r k s]: the first way, in the order Python tries them
    (alternatives left to right, repetitions longest first), to match [r]
    at [s] so that the continuation [k] accepts what follows. *)
Fixpoint run (ic : bool) (r : regex) (k : mstate -> option mstate)
         (s : mstate) {struct r} : option mstate :=
  match r with
  | Eps => k s
  | Chr c =>
      match rest s with
      | x :: t => if chr_matches ic c x then k (step s x t) else None
      | [] => None
      end
  | Dot =>
      match rest s with
      | x :: t => if N.eqb x 10 then None else k (step s x t)
      | [] => None
      end
  | CharSet items =>
      match rest s with
      | x :: t => if set_matches ic items x then k (step s x t) else None
      | [] => None
      end
  | Cat r1 r2 => run ic r1 (run ic r2 k) s
  | Alt r1 r2 => or_else (run ic r1 k s) (run ic r2 k s)
  | Rep r' lo hi =>
      (fix loop (fuel n : nat) (s0 : mstate) {struct fuel} : option mstate :=
         let stop := if Nat.leb lo n then k s0 else None in
         match fuel with
         | O => stop
         | S fuel' =>
             if below n hi then
               or_else
                 (run ic r'
                    (fun s1 =>
                       if Nat.ltb (List.length (rest s1))
                                  (List.length (rest s0))
                       then loop fuel' (S n) s1
                       else if Nat.leb lo (S n) then k s1 else None)
                    s0)
                 stop
             else stop
         end) (S (List.length (rest s))) O s
  | Group n r' => run ic r' (fun s1 => k (set_group n (consumed s s1) s1)) s
  | Backref n =>
      match get_group n (groups s) with
      | Some g => match read ic g s with
                  | Some s1 => k s1
                  | None => None
                  end
      | None => None
      end
  | WordBoundary => if xorb (word_before s) (word_after s) then k s else None
  end.

(** One match: where it starts, its text and its groups. *)
Record found := mk_found {
  whole : text;
  captured : list (nat * text);
  after : mstate
}.

(** [pattern.match] at a given position. *)
Definition match_at (ic : bool) (r : regex) (p : option N) (s : text)
  : option found :=
  let s0 := mk_mstate p s [] in
  match run ic r Some s0 with
  | Some s1 => Some (mk_found (consumed s0 s1) (groups s1) s1)
  | None => None
  end.

(** [pattern.search(s)], from the position after [p]. *)
Fixpoint search_from (ic : bool) (r : regex) (p : option N) (s : text)
  : option found :=
  match match_at ic r p s with
  | Some f => Some f
  | None => match s with
            | [] => None
            | x :: t => search_from ic r (Some x) t
            end
  end.

Definition search (ic : bool) (r : regex) (s : text) : option found :=
  search_from ic r None s.

(** [bool(pattern.search(s))] *)
Definition matches (ic : bool) (r : regex) (s : text) : bool :=
  match search ic r s with Some _ => true | None => false end.

(** [pattern.findall(s)]: the matches that do not overlap, left to
    right; after an empty match the scan moves one character on.  Python
    returns the whole text of each match when the pattern has no group
    and the group when it has one: [whole] and [captured] of each
    [found]. *)
Fixpoint findall_from (fuel : nat) (ic : bool) (r : regex) (p : option N)
         (s : text) : list found :=
  match fuel with
  | O => []
  | S fuel' =>
      match match_at ic r p s with
      | Some f =>
          f :: match whole f, s with
               | [], [] => []
               | [], x :: t => findall_from fuel' ic r (Some x) t
               | _ :: _, _ =>
                   findall_from fuel' ic r (prev (after f)) (rest (after f))
               end
      | None =>
          match s with
          | [] => []
          | x :: t => findall_from fuel' ic r (Some x) t
          end
      end
  end.

Definition findall (ic : bool) (r : regex) (s : text) : list found :=
  findall_from (S (List.length s)) ic r None s.

End Re.

(* ================================================================= *)
(** * urllib.parse.urlparse, as far as filters.py reads its result     *)
(* ================================================================= *)

Module UrlParse.

(** [s.find(c, start)] *)
Definition find_from (c : N) (start : nat) (s : text) : option nat :=
  option_map (Nat.add start) (find_char c (skipn start s)).

(** [s.rfind(c)] *)
Definition rfind_char (c : N) (s : text) : option nat :=
  option_map (fun i => (List.length s - 1 - i)%nat) (find_char c (rev s)).

Definition scheme_char (c : N) : bool :=
  in_range 97 122 c || in_range 65 90 c || in_range 48 57 c
  || N.eqb c 43 || N.eqb c 45 || N.eqb c 46.

Definition ascii_alpha (c : N) : bool :=
  in_range 97 122 c || in_range 65 90 c.

Definition uses_params : list text :=
  [ []; cp "ftp"; cp "hdl"; cp "prospero"; cp "http"; cp "imap";
    cp "https"; cp "shttp"; cp "rtsp"; cp "rtspu"; cp "sip"; cp "sips";
    cp "mms"; cp "sftp"; cp "tel" ].

Fixpoint lstrip_c0_space (s : text) : text :=
  match s with
  | c :: s' => if N.leb c 32 then lstrip_c0_space s' else s
  | [] => []
  end.

Definition remove_unsafe (s : text) : text :=
  filter (fun c => negb (N.eqb c 9 || N.eqb c 10 || N.eqb c 13)) s.

(** The scheme, when the text before the first colon is one. *)
Definition split_scheme (url : text) : text * text :=
  match find_char 58 url, url with
  | Some (S i), c0 :: _ =>
      if ascii_alpha c0 && forallb scheme_char (firstn (S i) url)
      then (lower (firstn (S i) url), skipn (S (S i)) url)
      else ([], url)
  | _, _ => ([], url)
  end.

Definition min_opt (a : nat) (b : option nat) : nat :=
  match b with Some x => Nat.min a x | None => a end.

(** [_splitnetloc(url, 2)] *)
Definition splitnetloc (url : text) : text * text :=
  let delim := List.length url in
  let delim := min_opt delim (find_from 47 2 url) in
  let delim := min_opt delim (find_from 63 2 url) in
  let delim := min_opt delim (find_from 35 2 url) in
  (firstn (delim - 2) (skipn 2 url), skipn delim url).

(** [url.split(c, 1)[0]] *)
Definition before (c : N) (url : text) : text :=
  match find_char c url with
  | Some i => firstn i url
  | None => url
  end.

(** [_splitparams(url)[0]] *)
Definition splitparams (url : text) : text :=
  match rfind_char 47 url with
  | Some j =>
      match find_from 59 j url with
      | Some i => firstn i url
      | None => url
      end
  | None => before 59 url
  end.

Record parsed := mk_parsed { scheme : text; netloc : text; path : text }.

(** [urlparse(url)]; [None] is the [ValueError] ("Invalid IPv6 URL") of a
    netloc with one square bracket and not the other.  Two later checks of
    [urlsplit] are not modelled: the validation of a host written between
    both brackets, and [_checknetloc], which looks at netlocs with
    characters outside ASCII. *)
Definition urlparse (url : text) : option parsed :=
  let url := remove_unsafe (lstrip_c0_space url) in
  let '(scheme, url) := split_scheme url in
  let '(netloc, url) :=
    if startswith url (cp "//") then splitnetloc url else ([], url) in
  if xorb (has_char 91 netloc) (has_char 93 netloc) then None
  else
    let url := before 35 url in
    let url := before 63 url in
    let url := if text_in scheme uses_params && has_char 59 url
               then splitparams url else url in
    Some (mk_parsed scheme netloc url).

End UrlParse.

(* ================================================================= *)
(** * utils/filters.py                                                 *)
(* ================================================================= *)

Module ContentFilter.
Import Re.

(** ** The patterns compiled in [__init__] *)

Definition letters : item := IRange 97 122.
Definition capitals : item := IRange 65 90.
Definition digits : item := IRange 48 57.
Definition hexdigit : regex :=
  CharSet [digits; IRange 97 102; IRange 65 70].

(** [http[s]?://(?:[a-zA-Z]|[0-9]|[$-_@.&+]|[!*\\(\\),]|
                 (?:%[0-9a-fA-F][0-9a-fA-F]))+], IGNORECASE *)
Definition url_pattern : regex :=
  Cat (lit (cp "http"))
 (Cat (opt (CharSet [IChar 115]))
 (Cat (lit (cp "://"))
      (plus (Alt (CharSet [letters; capitals])
            (Alt (CharSet [digits])
            (Alt (CharSet [IRange 36 95; IChar 64; IChar 46; IChar 38;
                           IChar 43])
            (Alt (CharSet [IChar 33; IChar 42; IChar 92; IChar 40;
                           IChar 92; IChar 41; IChar 44])
                 (Cat (Chr 37) (Cat hexdigit hexdigit))))))))).

(** [@(everyone|here)], IGNORECASE *)
Definition mention_pattern : regex :=
  Cat (Chr 64) (Group 1 (Alt (lit (cp "everyone")) (lit (cp "here")))).

(** [[MN][A-Za-z\d]{23}\.[\w-]{6}\.[\w-]{27}|mfa\.[\w-]{84}], IGNORECASE *)
Definition token_pattern : regex :=
  Alt (Cat (CharSet [IChar 77; IChar 78])
      (Cat (times 23 (CharSet [capitals; letters; IDigit]))
      (Cat (Chr 46)
      (Cat (times 6 (CharSet [IWord; IChar 45]))
      (Cat (Chr 46)
           (times 27 (CharSet [IWord; IChar 45])))))))
      (Cat (lit (cp "mfa"))
      (Cat (Chr 46)
           (times 84 (CharSet [IWord; IChar 45])))).

(** [discord(?:\.(?:gift|nitro|app)|app\.com/gifts?)], IGNORECASE *)
Definition fake_nitro_pattern : regex :=
  Cat (lit (cp "discord"))
      (Alt (Cat (Chr 46)
                (Alt (lit (cp "gift"))
                     (Alt (lit (cp "nitro")) (lit (cp "app")))))
           (Cat (lit (cp "app.com/gift")) (opt (Chr 115)))).

(** [\b(?:[0-9]{1,3}\.){3}[0-9]{1,3}\b] *)
Definition ip_pattern : regex :=
  Cat WordBoundary
 (Cat (times 3 (Cat (Rep (CharSet [digits]) 1 (Some 3%nat)) (Chr 46)))
 (Cat (Rep (CharSet [digits]) 1 (Some 3%nat))
      WordBoundary)).

(** The domains [__init__] adds to [Config.BLOCKED_DOMAINS]. *)
Definition extra_domains : list text :=
  [ cp "discordnitro.info"; cp "discord-nitro.org"; cp "discordgift.site";
    cp "steamcommunity-net.org"; cp "steemcommunity.org";
    cp "stemcommunity.org";
    cp "grabify.link"; cp "iplogger.org"; cp "iplogger.com";
    cp "iplogger.net";
    cp "2no.co"; cp "yip.su"; cp "iplis.ru"; cp "iplogger.co"; cp "ip-api.io";
    cp "bmwforum.co"; cp "leancoding.co"; cp "quickmessage.io";
    cp "spottyfly.com" ].

Definition suspicious_domains (cfg : Config.t) : list text :=
  Config.BLOCKED_DOMAINS cfg ++ extra_domains.

(** Python's truth value of a string: [not text] is [text == '']. *)
Definition nonempty (s : text) : bool :=
  match s with [] => false | _ :: _ => true end.

(** ** [contains_profanity] *)
Definition contains_profanity (cfg : Config.t) (s : text) : bool :=
  if negb (nonempty s) || negb (match Config.PROFANITY_WORDS cfg with
                                | [] => false | _ :: _ => true end)
  then false
  else
    let text_lower := lower s in
    existsb (fun word => contains text_lower (lower word))
            (Config.PROFANITY_WORDS cfg).

(** ** [_is_suspicious_url] *)
Definition _is_suspicious_url (cfg : Config.t) (url : text) : bool :=
  match UrlParse.urlparse (lower url) with
  | None => false               (* except Exception: return False *)
  | Some parsed =>
      let domain := lower (UrlParse.netloc parsed) in
      let domain := if startswith domain (cp "www.") then skipn 4 domain
                    else domain in
      if text_in domain (suspicious_domains cfg) then true
      else if existsb (fun blocked_domain =>
                         endswith domain (46%N :: blocked_domain))
                      (suspicious_domains cfg) then true
      else
        let full_url := lower url in
        if matches true fake_nitro_pattern full_url then true
        else if matches false ip_pattern domain then true
        else if Nat.ltb (List.length domain) 6 && existsb isdigit domain
             then true
        else
          let path := lower (UrlParse.path parsed) in
          existsb (fun pattern => contains path pattern)
                  [cp "/logger"; cp "/grab"; cp "/track"; cp "/ip"]
  end.

(** ** [contains_blocked_links] *)
Definition contains_blocked_links (cfg : Config.t) (s : text) : bool :=
  if negb (nonempty s) then false
  else
    let urls := map whole (findall true url_pattern s) in
    existsb (_is_suspicious_url cfg) urls.

(** ** [contains_mass_mentions] *)
Definition contains_mass_mentions (s : text) (threshold : Z) : bool :=
  if negb (nonempty s) then false
  else
    let mentions := findall true mention_pattern s in
    threshold <=? Z.of_nat (List.length mentions).

(** ** [contains_discord_token] *)
Definition contains_discord_token (s : text) : bool :=
  if negb (nonempty s) then false
  else matches true token_pattern s.

(** ** [is_spam_pattern] *)
Definition spam_patterns : list regex :=
  [ (* (.)\1{10,} *)
    Cat (Group 1 Dot) (Rep (Backref 1) 10 None);
    (* (.{1,5})\1{5,} *)
    Cat (Group 1 (Rep Dot 1 (Some 5%nat))) (Rep (Backref 1) 5 None);
    (* \b(free|бесплатн).*(nitro|discord) *)
    Cat WordBoundary
   (Cat (Group 1 (Alt (lit (cp "free"))
                      (lit [1073; 1077; 1089; 1087; 1083; 1072; 1090;
                            1085]%N)))
   (Cat (star Dot)
        (Group 2 (Alt (lit (cp "nitro")) (lit (cp "discord"))))));
    (* \b(win|выигра).*(money|деньг|приз) *)
    Cat WordBoundary
   (Cat (Group 1 (Alt (lit (cp "win"))
                      (lit [1074; 1099; 1080; 1075; 1088; 1072]%N)))
   (Cat (star Dot)
        (Group 2 (Alt (lit (cp "money"))
                 (Alt (lit [1076; 1077; 1085; 1100; 1075]%N)
                      (lit [1087; 1088; 1080; 1079]%N))))));
    (* \b(click|кликн|переход).*(link|ссылк) *)
    Cat WordBoundary
   (Cat (Group 1 (Alt (lit (cp "click"))
                 (Alt (lit [1082; 1083; 1080; 1082; 1085]%N)
                      (lit [1087; 1077; 1088; 1077; 1093; 1086; 1076]%N))))
   (Cat (star Dot)
        (Group 2 (Alt (lit (cp "link"))
                      (lit [1089; 1089; 1099; 1083; 1082]%N))))) ].

Definition is_spam_pattern (s : text) : bool :=
  if negb (nonempty s) then false
  else
    let text_lower := lower s in
    existsb (fun pattern => matches false pattern text_lower) spam_patterns.

(** ** [filter_message] *)

(** The five strings [filter_message] appends to [reasons]. *)
Inductive reason :=
| Profanity           (* "Нецензурная лексика" *)
| SuspiciousLinks     (* "Подозрительные ссылки" *)
| SpamPattern         (* "Спам-паттерн" *)
| MassMentions        (* "Массовые упоминания" *)
| DiscordToken.       (* "Discord токен" *)

Definition append_if (b : bool) (r : reason) (reasons : list reason)
  : list reason :=
  if b then reasons ++ [r] else reasons.

Definition filter_message (cfg : Config.t) (s : text)
           (check_profanity check_links check_spam check_tokens : bool)
  : bool * list reason :=
  if negb (nonempty s) then (true, [])
  else
    let reasons := [] in
    let reasons :=
      append_if (check_profanity && contains_profanity cfg s)
                Profanity reasons in
    let reasons :=
      append_if (check_links && contains_blocked_links cfg s)
                SuspiciousLinks reasons in
    let reasons :=
      append_if (check_spam && is_spam_pattern s) SpamPattern reasons in
    let reasons :=
      append_if (contains_mass_mentions s 3) MassMentions reasons in
    let reasons :=
      append_if (check_tokens && contains_discord_token s)
                DiscordToken reasons in
    let is_allowed := Nat.eqb (List.length reasons) 0 in
    (is_allowed, reasons).

End ContentFilter.


(* ================================================================= *)
(** * [str.encode()] and [hashlib.md5(...).hexdigest()]                *)
(* ================================================================= *)

Module Hashlib.

Local Open Scope N_scope.

(** UTF-8; [None] is the [UnicodeEncodeError] of a surrogate. *)
Definition encode_char (c : N) : option (list N) :=
  if c <? 128 then Some [c]
  else if c <? 2048 then Some [192 + c / 64; 128 + c mod 64]
  else if c <? 65536 then
    if (55296 <=? c) && (c <=? 57343) then None
    else Some [224 + c / 4096; 128 + (c / 64) mod 64; 128 + c mod 64]
  else if c <? 1114112 then
    Some [240 + c / 262144; 128 + (c / 4096) mod 64; 128 + (c / 64) mod 64;
          128 + c mod 64]
  else None.

Fixpoint encode (s : text) : option (list N) :=
  match s with
  | [] => Some []
  | c :: s' =>
      match encode_char c, encode s' with
      | Some b, Some bs => Some (b ++ bs)
      | _, _ => None
      end
  end.

Definition mask32 : N := 4294967295.

Definition add32 (a b : N) : N := N.land (a + b) mask32.

Definition rotl32 (x s : N) : N :=
  N.land (N.lor (N.shiftl x s) (N.shiftr x (32 - s))) mask32.

Definition not32 (x : N) : N := N.lxor x mask32.

Definition shifts : list N :=
  [7; 12; 17; 22; 7; 12; 17; 22; 7; 12; 17; 22; 7; 12; 17; 22;
   5; 9; 14; 20; 5; 9; 14; 20; 5; 9; 14; 20; 5; 9; 14; 20;
   4; 11; 16; 23; 4; 11; 16; 23; 4; 11; 16; 23; 4; 11; 16; 23;
   6; 10; 15; 21; 6; 10; 15; 21; 6; 10; 15; 21; 6; 10; 15; 21].

(** [floor(abs(sin(i + 1)) * 2^32)] for i = 0 .. 63. *)
Definition sines : list N :=
  [3614090360; 3905402710; 606105819; 3250441966; 4118548399; 1200080426;
   2821735955; 4249261313; 1770035416; 2336552879; 4294925233; 2304563134;
   1804603682; 4254626195; 2792965006; 1236535329; 4129170786; 3225465664;
   643717713; 3921069994; 3593408605; 38016083; 3634488961; 3889429448;
   568446438; 3275163606; 4107603335; 1163531501; 2850285829; 4243563512;
   1735328473; 2368359562; 4294588738; 2272392833; 1839030562; 4259657740;
   2763975236; 1272893353; 4139469664; 3200236656; 681279174; 3936430074;
   3572445317; 76029189; 3654602809; 3873151461; 530742520; 3299628645;
   4096336452; 1126891415; 2878612391; 4237533241; 1700485571; 2399980690;
   4293915773; 2240044497; 1873313359; 4264355552; 2734768916; 1309151649;
   4149444226; 3174756917; 718787259; 3951481745].

Record state := mk_state { sa : N; sb : N; sc : N; sd : N }.

Definition initial : state :=
  mk_state 1732584193 4023233417 2562383102 271733878.

(** One of the 64 operations on a block of sixteen words. *)
Definition operation (block : list N) (st : state) (i : nat) : state :=
  let '(mk_state a b c d) := st in
  let '(f, g) :=
    if Nat.ltb i 16 then
      (N.lor (N.land b c) (N.land (not32 b) d), i)
    else if Nat.ltb i 32 then
      (N.lor (N.land d b) (N.land (not32 d) c), Nat.modulo (5 * i + 1) 16)
    else if Nat.ltb i 48 then
      (N.lxor b (N.lxor c d), Nat.modulo (3 * i + 5) 16)
    else
      (N.lxor c (N.lor b (not32 d)), Nat.modulo (7 * i) 16) in
  let f := add32 (add32 (add32 f a) (nth i sines 0)) (nth g block 0) in
  mk_state d (add32 b (rotl32 f (nth i shifts 0))) b c.

Definition compress (st : state) (block : list N) : state :=
  let st' := fold_left (operation block) (seq 0 64) st in
  mk_state (add32 (sa st) (sa st')) (add32 (sb st) (sb st'))
           (add32 (sc st) (sc st')) (add32 (sd st) (sd st')).

(** Little-endian bytes of a word, and back. *)
Definition le_bytes (n : nat) (x : N) : list N :=
  map (fun k => N.land (N.shiftr x (8 * N.of_nat k)) 255) (seq 0 n).

Fixpoint words (fuel : nat) (bytes : list N) : list N :=
  match fuel, bytes with
  | S fuel', b0 :: b1 :: b2 :: b3 :: bytes' =>
      (b0 + 256 * b1 + 65536 * b2 + 16777216 * b3) :: words fuel' bytes'
  | _, _ => []
  end.

Fixpoint blocks (fuel : nat) (ws : list N) : list (list N) :=
  match fuel, ws with
  | S fuel', _ :: _ => firstn 16 ws :: blocks fuel' (skipn 16 ws)
  | _, _ => []
  end.

Definition pad (bytes : list N) : list N :=
  let len := N.of_nat (List.length bytes) in
  let zeros := N.to_nat ((55 + 64 - len mod 64) mod 64) in
  bytes ++ [128] ++ repeat 0 zeros ++ le_bytes 8 (N.land (8 * len) 18446744073709551615).

Definition hex_digit (x : N) : ascii :=
  ascii_of_N (if x <? 10 then 48 + x else 87 + x).

Fixpoint hex (bytes : list N) : string :=
  match bytes with
  | [] => EmptyString
  | b :: bytes' =>
      String (hex_digit (b / 16)) (String (hex_digit (b mod 16)) (hex bytes'))
  end.

Definition md5_hexdigest (bytes : list N) : string :=
  let padded := pad bytes in
  let ws := words (List.length padded) padded in
  let st := fold_left compress (blocks (List.length ws) ws) initial in
  hex (le_bytes 4 (sa st) ++ le_bytes 4 (sb st) ++ le_bytes 4 (sc st)
       ++ le_bytes 4 (sd st)).

End Hashlib.

(* ================================================================= *)
(** * cogs/interserver.py                                              *)
(* ================================================================= *)

Module InterServer.

(** ** The discord.py objects the cog reads *)

Inductive MessageType :=
| default
| reply
| pins_add
| new_member
| other_type (value : Z).

Definition is_default (t : MessageType) : bool :=
  match t with default => true | _ => false end.

Record Attachment := mk_attachment {
  filename : text;
  size : Z;
  url : text
}.

Record Message := mk_message {
  message_id : Z;
  author_id : Z;
  author_bot : bool;
  author_display_name : text;
  content : text;
  attachments : list Attachment;
  channel_id : Z;
  guild_id : Z;
  guild_name : text;
  created_at : Z;
  type : MessageType
}.

(** A channel the bot can see, with the permissions
    [permissions_for(guild.me)] gives the bot there. *)
Record TextChannel := mk_channel {
  tc_id : Z;
  tc_guild_id : Z;
  tc_guild_name : text;
  send_messages : bool;
  embed_links : bool;
  attach_files : bool;
  read_message_history : bool
}.

Record File := mk_file {
  fp : list Byte.byte;
  file_name : text
}.

(** The embed [_forward_message] builds.  The footer is
    ["Соединение: <name> • ID: <id>"], kept as its two arguments. *)
Record Embed := mk_embed {
  embed_description : text;
  embed_timestamp : Z;
  embed_author_name : text;
  embed_footer_name : text;
  embed_footer_id : Z
}.

(** ** Exceptions *)

Inductive exn :=
| Forbidden                   (* discord.Forbidden, an HTTPException *)
| NotFound                    (* discord.NotFound, an HTTPException *)
| HTTPException               (* discord.HTTPException *)
| NameError (name : string)
| UnicodeEncodeError
| IntegrityError              (* sqlite3.IntegrityError *)
| OtherException.

Inductive result (A : Type) :=
| Ok (a : A)
| Raise (e : exn).
Arguments Ok {A} a.
Arguments Raise {A} e.

(** ** The world outside the cog *)

(** What the Discord side answers.  [channel_send c n] is the outcome of
    [send] on channel [c] when [n] sends have been attempted before. *)
Record Platform := mk_platform {
  get_channel : Z -> option TextChannel;
  attachment_read : Attachment -> result (list Byte.byte);
  channel_send : Z -> nat -> result Z
}.

(** One call of [target_channel.send(embed=..., files=...)]. *)
Record SendCall := mk_send {
  to_channel : Z;
  sent_embed : Embed;
  sent_files : list File;
  outcome : result Z           (* the id of the message, or the error *)
}.

(** The records [_forward_message] writes through the logger of the cog.
    utils/filters.py has a logger of its own: the INFO record of a check
    that answers [True] and the warning for a URL that cannot be parsed
    go there and are not part of [logged]. *)
Inductive LogRecord :=
| WarnChannelUnavailable (target_channel_id connection_id : Z)
| WarnFileUnreadable (name : text) (e : exn)
| WarnForbidden (target_channel_id : Z)
| ErrorHTTP (e : exn)
| ErrorUnexpected (e : exn).

Record World := mk_world {
  database : Database.db;
  sends : list SendCall;       (* oldest first *)
  logged : list LogRecord;     (* of the cog's logger, oldest first *)
  clock : Z                    (* CURRENT_TIMESTAMP, in seconds *)
}.

(** ** A state and exception monad for the coroutines *)

Definition M (A : Type) : Type := World -> result A * World.

Definition ret {A} (a : A) : M A := fun w => (Ok a, w).

Definition bind {A B} (c : M A) (f : A -> M B) : M B :=
  fun w => match c w with
           | (Ok a, w') => f a w'
           | (Raise e, w') => (Raise e, w')
           end.

Definition raise {A} (e : exn) : M A := fun w => (Raise e, w).

(** [try: body  except ...: handler] *)
Definition try_except {A} (body : M A) (handler : exn -> M A) : M A :=
  fun w => match body w with
           | (Ok a, w') => (Ok a, w')
           | (Raise e, w') => handler e w'
           end.

Notation "x <- c ;; k" := (bind c (fun x => k))
  (at level 61, c at next level, right associativity).
Notation "c ;;; k" := (bind c (fun _ => k))
  (at level 61, right associativity).

Definition log (r : LogRecord) : M unit :=
  fun w => (Ok tt, mk_world (database w) (sends w) (logged w ++ [r]) (clock w)).

Definition with_db {A} (f : Z -> Database.db -> Database.db * A) : M A :=
  fun w => let '(d, a) := f (clock w) (database w) in
           (Ok a, mk_world d (sends w) (logged w) (clock w)).

(** The names bound at module level in interserver.py: its imports
    (lines 1-9), [logger], the class and [setup]. *)
Definition module_globals : list string :=
  [ "discord"; "commands"; "asyncio"; "hashlib"; "logging"; "Optional";
    "List"; "Config"; "ContentFilter"; "format_embed";
    "get_webhook_for_channel"; "safe_send_message"; "logger";
    "InterServer"; "setup" ]%string.

(** Reading a global name: [NameError] when the module does not bind it. *)
Definition global_name (name : string) : M unit :=
  if existsb (String.eqb name) module_globals then ret tt
  else raise (NameError name).

Section Cog.

Variable cfg : Config.t.
Variable platform : Platform.

(** [await attachment.read()] *)
Definition read (a : Attachment) : M (list Byte.byte) :=
  fun w => (attachment_read platform a, w).

(** [await target_channel.send(embed=embed, files=files)]: the call is
    recorded with its outcome. *)
Definition send (target : TextChannel) (e : Embed) (files : list File)
  : M Z :=
  fun w =>
    let r := channel_send platform (tc_id target) (List.length (sends w)) in
    (r, mk_world (database w)
                 (sends w ++ [mk_send (tc_id target) e files r])
                 (logged w) (clock w)).

(** [await self.bot.db.log_message(...)] *)
Definition db_log_message (original forwarded author conn : Z)
           (hash : option string) : M unit :=
  fun w =>
    match Database.log_message (clock w) original forwarded author conn
                               hash (database w) with
    | Some d => (Ok tt, mk_world d (sends w) (logged w) (clock w))
    | None => (Raise IntegrityError, w)
    end.

(** [hashlib.md5(s.encode()).hexdigest()] *)
Definition md5_of (s : text) : M string :=
  match Hashlib.encode s with
  | Some bytes => ret (Hashlib.md5_hexdigest bytes)
  | None => raise UnicodeEncodeError
  end.

(** The loop over [original_message.attachments] (lines 486-497).
    [io.BytesIO] is evaluated after the read, inside the inner [try]. *)
Fixpoint collect_files (atts : list Attachment) (files : list File)
  : M (list File) :=
  match atts with
  | [] => ret files
  | attachment :: atts' =>
      files' <-
        (if size attachment <=? Config.MAX_FILE_SIZE cfg then
           try_except
             (file_data <- read attachment ;;
              global_name "io" ;;;
              ret (files ++ [mk_file file_data (filename attachment)]))
             (fun e =>
                log (WarnFileUnreadable (filename attachment) e) ;;;
                ret files)
         else ret files) ;;
      collect_files atts' files'
  end.

Definition placeholder : text :=
  [42; 1057; 1086; 1086; 1073; 1097; 1077; 1085; 1080; 1077; 32; 1073;
   1077; 1079; 32; 1090; 1077; 1082; 1089; 1090; 1072; 42]%N.

Definition target_of (original_message : Message)
           (connection : Database.connection_row) : Z :=
  if Database.channel1_id connection =? channel_id original_message
  then Database.channel2_id connection
  else Database.channel1_id connection.

(** ** [_forward_message] *)
Definition _forward_message (original_message : Message)
           (connection : Database.connection_row) : M unit :=
  try_except
    (let target_channel_id := target_of original_message connection in
     match get_channel platform target_channel_id with
     | None =>
         log (WarnChannelUnavailable target_channel_id
                                     (Database.id connection))
     | Some target_channel =>
         if negb (send_messages target_channel) then ret tt
         else
           let embed :=
             mk_embed
               (if ContentFilter.nonempty (content original_message)
                then content original_message else placeholder)
               (created_at original_message)
               (author_display_name original_message ++ cp " (" ++
                  guild_name original_message ++ cp ")")
               (Database.connection_name connection)
               (Database.id connection) in
           files <- collect_files (attachments original_message) [] ;;
           forwarded_message <- send target_channel embed files ;;
           content_hash <-
             (if ContentFilter.nonempty (content original_message)
              then digest <- md5_of (content original_message) ;;
                   ret (Some digest)
              else ret None) ;;
           db_log_message (message_id original_message) forwarded_message
                          (author_id original_message)
                          (Database.id connection) content_hash
     end)
    (fun e =>
       match e with
       | Forbidden =>
           log (WarnForbidden (target_of original_message connection))
       | NotFound | HTTPException => log (ErrorHTTP e)
       | _ => log (ErrorUnexpected e)
       end).

(** [for connection in connections: await self._forward_message(...)] *)
Fixpoint forward_all (message : Message)
         (connections : list Database.connection_row) : M unit :=
  match connections with
  | [] => ret tt
  | connection :: rest =>
      _forward_message message connection ;;;
      forward_all message rest
  end.

(** ** [on_message] *)
Definition on_message (message : Message) : M unit :=
  if author_bot message || negb (is_default (type message)) then ret tt
  else if startswith (content message) (Config.PREFIX cfg) then ret tt
  else
    server_settings <-
      with_db (fun now => Database.get_server_settings now
                            (guild_id message)) ;;
    if negb (Database.enabled server_settings) then ret tt
    else
      is_blocked <-
        (if Database.spam_protection server_settings then
           r <- with_db (fun now =>
                  Database.track_message_spam cfg now (author_id message)
                    (guild_id message) (channel_id message)) ;;
           ret (snd r)
         else ret false) ;;
      if is_blocked then ret tt
      else
        connections <-
          with_db (fun _ d =>
             (d, Database.get_connections_by_channel
                   (channel_id message) d)) ;;
        match connections with
        | [] => ret tt
        | _ :: _ =>
            if Database.profanity_filter server_settings
               && ContentFilter.contains_profanity cfg (content message)
            then ret tt
            else if ContentFilter.contains_blocked_links cfg
                      (content message)
            then ret tt
            else forward_all message connections
        end.

(** ** [create_connection] (the [connect create] command) *)

Record Context := mk_context {
  ctx_guild_id : Z;
  ctx_guild_name : text;
  ctx_channel_id : Z;
  ctx_author_id : Z;
  (** what [@commands.has_permissions(manage_channels=True)] checks *)
  ctx_manage_channels : bool
}.

Inductive permission :=
| p_send_messages | p_embed_links | p_attach_files
| p_read_message_history.

(** What the command does to the database; each constructor but the first
    and the last stands for the embed with which it refuses.  [Created]
    says that the row was written: the two embeds sent after the INSERT
    are not part of the model. *)
Inductive create_outcome :=
| MissingPermissions          (* raised by the decorator *)
| LimitExceeded               (* "Превышен лимит" *)
| SameServer
| BotLacksPermissions (missing : list permission)
| AlreadyExists (conn : Database.connection_row)
| Created (connection_id : Z).

Definition required_perms : list permission :=
  [p_send_messages; p_embed_links; p_attach_files; p_read_message_history].

Definition has_perm (c : TextChannel) (p : permission) : bool :=
  match p with
  | p_send_messages => send_messages c
  | p_embed_links => embed_links c
  | p_attach_files => attach_files c
  | p_read_message_history => read_message_history c
  end.

Definition connection_description (ctx : Context) (target : TextChannel)
  : text :=
  [1057; 1086; 1077; 1076; 1080; 1085; 1077; 1085; 1080; 1077; 32; 1084;
   1077; 1078; 1076; 1091; 32]%N
  ++ ctx_guild_name ctx ++ [32; 1080; 32]%N ++ tc_guild_name target.

Definition create_connection (now : Z) (ctx : Context)
           (target_channel : TextChannel) (name : text) (d : Database.db)
  : Database.db * create_outcome :=
  if negb (ctx_manage_channels ctx) then (d, MissingPermissions)
  else
    let current_count :=
      Database.get_server_connection_count (ctx_guild_id ctx) d in
    if Config.MAX_CONNECTIONS_PER_SERVER cfg <=? current_count
    then (d, LimitExceeded)
    else if tc_guild_id target_channel =? ctx_guild_id ctx
    then (d, SameServer)
    else
      let missing_perms :=
        filter (fun perm => negb (has_perm target_channel perm))
               required_perms in
      match missing_perms with
      | _ :: _ => (d, BotLacksPermissions missing_perms)
      | [] =>
          let existing_connections :=
            Database.get_connections_by_channel (ctx_channel_id ctx) d in
          match
            find (fun conn =>
                    (Database.channel1_id conn =? tc_id target_channel)
                    || (Database.channel2_id conn =? tc_id target_channel))
                 existing_connections
          with
          | Some conn => (d, AlreadyExists conn)
          | None =>
              let '(d', connection_id) :=
                Database.create_connection now
                  (ctx_guild_id ctx) (ctx_channel_id ctx)
                  (tc_guild_id target_channel) (tc_id target_channel)
                  name (ctx_author_id ctx)
                  (Some (connection_description ctx target_channel)) d in
              (d', Created connection_id)
          end
      end.

(** A sequence of [connect create] commands, each with the time it is
    run at. *)
Definition create_request : Type := Z * Context * TextChannel * text.

Fixpoint create_all (reqs : list create_request) (d : Database.db)
  : Database.db :=
  match reqs with
  | [] => d
  | (now, ctx, target, name) :: reqs' =>
      create_all reqs' (fst (create_connection now ctx target name d))
  end.

End Cog.

End InterServer.

(* ================================================================= *)
(** * database.py: the reading methods                                 *)
(* ================================================================= *)

Module DatabaseQueries.

(** [ORDER BY created_at DESC].  SQLite leaves the order of rows with the
    same [created_at] open; here they keep their rowid order. *)
Fixpoint insert_desc (r : Database.connection_row)
         (l : list Database.connection_row) : list Database.connection_row :=
  match l with
  | [] => [r]
  | x :: l' =>
      if Database.created_at x <=? Database.created_at r
      then r :: l else x :: insert_desc r l'
  end.

Definition order_by_created_at_desc (l : list Database.connection_row)
  : list Database.connection_row :=
  fold_right insert_desc [] l.

(** [get_all_connections(server_id=None)]; [if server_id:] is false for
    [None] and for 0. *)
Definition get_all_connections (server : option Z) (d : Database.db)
  : list Database.connection_row :=
  let for_all := filter Database.is_active (Database.connections d) in
  match server with
  | Some s =>
      if s =? 0 then order_by_created_at_desc for_all
      else
        order_by_created_at_desc
          (filter (fun r => ((Database.server1_id r =? s)
                             || (Database.server2_id r =? s))
                            && Database.is_active r)
                  (Database.connections d))
  | None => order_by_created_at_desc for_all
  end.

(** The dictionary [get_message_stats] returns. *)
Record message_stats := mk_stats {
  total_messages : Z;
  unique_users : Z;
  active_connections : option Z     (* only without [connection_id] *)
}.

(** [COUNT(DISTINCT column)] *)
Definition count_distinct (l : list Z) : Z :=
  Z.of_nat (List.length (nodup Z.eq_dec l)).

(** The first moment of SQLite's calendar, julian day 0 (noon of 24
    November 4714 BC), in seconds since 1970-01-01 00:00:00 UTC, the
    unit of [now] and of the timestamps. *)
Definition start_of_calendar : Z := -210866760000.

(** [datetime('now', '-N days')] with [N] formatted from [days].  SQLite
    answers NULL ([None]) for a negative [days] (the modifier then reads
    ['--5 days']) and for a date before the start of its calendar; [now]
    is taken to be inside the calendar. *)
Definition days_ago (now days : Z) : option Z :=
  if (days <? 0) || (now - days * 86400 <? start_of_calendar) then None
  else Some (now - days * 86400).

(** [get_message_stats(connection_id=None, days=7)]:
    [timestamp >= datetime('now', '-N days')], which no row satisfies
    when the date is NULL.  The timestamps are those [CURRENT_TIMESTAMP]
    wrote, dates of the years 0000 to 9999, for which the comparison of
    the texts is the comparison of the times. *)
Definition get_message_stats (now : Z) (conn : option Z) (days : Z)
           (d : Database.db) : message_stats :=
  let recent := fun r =>
    match days_ago now days with
    | Some since => since <=? Database.timestamp r
    | None => false
    end in
  match conn with
  | Some c =>
      if c =? 0 then
        let rows := filter recent (Database.message_history d) in
        mk_stats (Z.of_nat (List.length rows))
                 (count_distinct (map Database.author_id rows))
                 (Some (count_distinct (map Database.connection_id rows)))
      else
        let rows := filter (fun r => (Database.connection_id r =? c)
                                     && recent r)
                           (Database.message_history d) in
        mk_stats (Z.of_nat (List.length rows))
                 (count_distinct (map Database.author_id rows)) None
  | None =>
      let rows := filter recent (Database.message_history d) in
      mk_stats (Z.of_nat (List.length rows))
               (count_distinct (map Database.author_id rows))
               (Some (count_distinct (map Database.connection_id rows)))
  end.

(** The dictionary [get_database_stats] returns. *)
Record database_stats := mk_database_stats {
  stats_active_connections : Z;
  stats_total_messages : Z;
  stats_total_servers : Z
}.

Definition get_database_stats (d : Database.db) : database_stats :=
  mk_database_stats
    (Z.of_nat (List.length (filter Database.is_active (Database.connections d))))
    (Z.of_nat (List.length (Database.message_history d)))
    (Z.of_nat (List.length (Database.server_settings d))).

End DatabaseQueries.

(* ================================================================= *)
(** * cogs/interserver.py: the other commands of [connect]             *)
(* ================================================================= *)

Module Commands.

(** The member who runs a command: the context of [connect create] and
    whether the member is an administrator of the guild. *)
Record Invoker := mk_invoker {
  ctx : InterServer.Context;
  administrator : bool
}.

(** What [wait_for('reaction_add', timeout=30.0)] brings. *)
Inductive reaction :=
| Confirm        (* the check mark *)
| Decline        (* the cross *)
| TimedOut.      (* asyncio.TimeoutError *)

(** What an awaited call of the platform does when it does not return:
    it raises [asyncio.TimeoutError] or another exception. *)
Inductive raised :=
| Timeout
| Failure (e : InterServer.exn).

(** The platform during one [connect remove], call by call in the order
    of the source; [None] is a call that returns. *)
Record Dialogue := mk_dialogue {
  (** [ctx.send(embed=embed)] of an early return (lines 319, 330) *)
  replied : option raised;
  (** [ctx.send(embed=confirm_embed)] and the two [add_reaction]
      (lines 345-347): the first exception among them *)
  asked : option raised;
  (** [wait_for('reaction_add', timeout=30.0, check=check)] *)
  reacted : reaction;
  (** whether [self.bot.get_channel(other_channel_id)] finds the channel *)
  channel_known : Z -> bool;
  (** [other_channel.send(embed=notification)] (line 379) *)
  notified : option raised;
  (** [message.edit(embed=embed)] and [message.clear_reactions()] at the
      end of the [try] (lines 396, 397) *)
  edited : option raised;
  cleared : option raised;
  (** the same two calls in the handler (lines 405, 406) *)
  edited_late : option raised;
  cleared_late : option raised
}.

(** The embeds with which [connect remove] answers. *)
Inductive remove_answer :=
| SaysNotFound
| SaysDenied
| SaysRemoved
| SaysFailed
| SaysCancelled
| SaysExpired.       (* "time is up, the connection was not removed" *)

(** How the command ends. *)
Inductive ending :=
| Refused            (* MissingPermissions, raised by the decorator *)
| Returned
| Raised (e : raised).

(** One run of the command: the answers it has shown, in order; the
    channel [other_channel.send] was called on; how it ended. *)
Record remove_run := mk_remove_run {
  shown : list remove_answer;
  notice_to : option Z;
  ended : ending
}.

(** [return await ctx.send(embed=embed)] *)
Definition reply_with (answer : remove_answer) (sent : option raised)
  : remove_run :=
  match sent with
  | Some e => mk_remove_run [] None (Raised e)
  | None => mk_remove_run [answer] None Returned
  end.

(** [await message.edit(embed=embed)] and then
    [await message.clear_reactions()]: the answers shown and the
    exception raised. *)
Definition show (answer : remove_answer) (edit clear : option raised)
  : list remove_answer * option raised :=
  match edit with
  | Some e => ([], Some e)
  | None => ([answer], clear)
  end.

(** [remove_connection].  Only [asyncio.TimeoutError] is handled, and the
    handler covers the whole [try]: the wait for the reaction, the
    notification of the other channel and the two calls that show the
    answer. *)
Definition remove_connection (who : Invoker) (connection_id : Z)
           (talk : Dialogue) (d : Database.db)
  : Database.db * remove_run :=
  if negb (InterServer.ctx_manage_channels (ctx who))
  then (d, mk_remove_run [] None Refused)
  else
    match Database.get_connection_by_id connection_id d with
    | None => (d, reply_with SaysNotFound (replied talk))
    | Some connection =>
        if negb (Database.created_by connection
                 =? InterServer.ctx_author_id (ctx who))
           && negb (administrator who)
           && negb ((InterServer.ctx_guild_id (ctx who)
                     =? Database.server1_id connection)
                    || (InterServer.ctx_guild_id (ctx who)
                        =? Database.server2_id connection))
        then (d, reply_with SaysDenied (replied talk))
        else
          match asked talk with
          | Some e => (d, mk_remove_run [] None (Raised e))
          | None =>
              let body :=
                match reacted talk with
                | TimedOut => (d, ([], None, Some Timeout))
                | Confirm =>
                    let '(d', success) :=
                      Database.delete_connection connection_id d in
                    if success then
                      let other_channel_id :=
                        if Database.channel1_id connection
                           =? InterServer.ctx_channel_id (ctx who)
                        then Database.channel2_id connection
                        else Database.channel1_id connection in
                      if channel_known talk other_channel_id then
                        match notified talk with
                        | Some e => (d', ([], Some other_channel_id, Some e))
                        | None =>
                            let s := show SaysRemoved (edited talk)
                                          (cleared talk) in
                            (d', (fst s, Some other_channel_id, snd s))
                        end
                      else
                        let s := show SaysRemoved (edited talk)
                                      (cleared talk) in
                        (d', (fst s, None, snd s))
                    else
                      let s := show SaysFailed (edited talk) (cleared talk) in
                      (d', (fst s, None, snd s))
                | Decline =>
                    let s := show SaysCancelled (edited talk)
                                  (cleared talk) in
                    (d, (fst s, None, snd s))
                end in
              let answers := fst (fst (snd body)) in
              let notice := snd (fst (snd body)) in
              match snd (snd body) with
              | Some Timeout =>
                  let s := show SaysExpired (edited_late talk)
                                (cleared_late talk) in
                  (fst body,
                   mk_remove_run (answers ++ fst s) notice
                     (match snd s with
                      | Some e => Raised e
                      | None => Returned
                      end))
              | Some (Failure e) =>
                  (fst body, mk_remove_run answers notice (Raised (Failure e)))
              | None => (fst body, mk_remove_run answers notice Returned)
              end
          end
    end.



(** [items[start:end]] for [0 <= start <= end]. *)
Definition slice {A} (start stop : Z) (items : list A) : list A :=
  firstn (Z.to_nat (stop - start)) (skipn (Z.to_nat start) items).

(** The pagination of [list_connections] (lines 182-188):
    the number of pages and the page shown for a requested page. *)
Definition total_pages (per_page : Z) {A} (items : list A) : Z :=
  (Z.of_nat (List.length items) + per_page - 1) / per_page.

Definition shown_page (per_page page : Z) {A} (items : list A) : Z :=
  Z.max 1 (Z.min page (total_pages per_page items)).

Definition page_items (per_page page : Z) {A} (items : list A) : list A :=
  let page := shown_page per_page page items in
  let start_idx := (page - 1) * per_page in
  let end_idx := start_idx + per_page in
  slice start_idx end_idx items.

(** [list_connections]: [None] stands for the embed "no active
    connections"; otherwise the connections of the page, the page shown
    and the number of pages. *)
Definition list_connections (guild : Z) (page : Z) (d : Database.db)
  : option (list Database.connection_row * Z * Z) :=
  let connections := DatabaseQueries.get_all_connections (Some guild) d in
  match connections with
  | [] => None
  | _ :: _ =>
      Some (page_items 5 page connections,
            shown_page 5 page connections,
            total_pages 5 connections)
  end.

End Commands.

(* ================================================================= *)
(** * main.py: the guild events                                        *)
(* ================================================================= *)

Module Bot.

(** [on_guild_join]: the settings row of the guild is created. *)
Definition on_guild_join (now : Z) (guild : Z) (d : Database.db)
  : Database.db :=
  Database.create_server_settings now guild d.

(** [on_guild_remove]: every connection of the guild is deactivated. *)
Definition on_guild_remove (guild : Z) (d : Database.db) : Database.db :=
  Database.deactivate_server_connections guild d.

End Bot.

(* ================================================================= *)
(** * utils/filters.py: the text tools of [ContentFilter]              *)
(* ================================================================= *)

Module ReSub.

(** [pattern.sub(repl, s)] for a replacement without group references:
    the matches that [findall] finds, each replaced by [repl]; after an
    empty match the character at the position is copied. *)
Fixpoint sub_from (fuel : nat) (ic : bool) (r : Re.regex) (repl : text)
         (p : option N) (s : text) : text :=
  match fuel with
  | O => s
  | S fuel' =>
      match Re.match_at ic r p s with
      | Some f =>
          repl ++
          match Re.whole f, s with
          | [], [] => []
          | [], x :: t => x :: sub_from fuel' ic r repl (Some x) t
          | _ :: _, _ =>
              sub_from fuel' ic r repl (Re.prev (Re.after f))
                       (Re.rest (Re.after f))
          end
      | None =>
          match s with
          | [] => []
          | x :: t => x :: sub_from fuel' ic r repl (Some x) t
          end
      end
  end.

Definition sub (ic : bool) (r : Re.regex) (repl : text) (s : text) : text :=
  sub_from (S (List.length s)) ic r repl None s.

End ReSub.

Module TextTools.

(** The characters [str.strip()] removes and [\s] matches. *)
Definition whitespace : list Re.item :=
  [ Re.IRange 9 13; Re.IRange 28 32; Re.IChar 133; Re.IChar 160;
    Re.IChar 5760; Re.IRange 8192 8202; Re.IChar 8232; Re.IChar 8233;
    Re.IChar 8239; Re.IChar 8287; Re.IChar 12288 ].

Definition isspace (c : N) : bool :=
  existsb (fun i => Re.item_has i c) whitespace.

Fixpoint lstrip (s : text) : text :=
  match s with
  | c :: s' => if isspace c then lstrip s' else s
  | [] => []
  end.

(** [s.strip()] *)
Definition strip (s : text) : text :=
  rev (lstrip (rev (lstrip s))).

(** [s[:k]], also for a negative [k]. *)
Definition slice_to (k : Z) (s : text) : text :=
  if 0 <=? k then firstn (Z.to_nat k) s
  else firstn (Z.to_nat (Z.of_nat (List.length s) + k)) s.

(** [clean_text(text, max_length=None)] *)
Definition clean_text (s : text) (max_length : option Z) : text :=
  if negb (ContentFilter.nonempty s) then s
  else
    let cleaned :=
      ReSub.sub false (Re.plus (Re.CharSet whitespace)) [32%N] (strip s) in
    match max_length with
    | Some n =>
        if negb (n =? 0) && (n <? Z.of_nat (List.length cleaned))
        then slice_to (n - 3) cleaned ++ cp "..."
        else cleaned
    | None => cleaned
    end.

(** [extract_urls] *)
Definition extract_urls (s : text) : list text :=
  if negb (ContentFilter.nonempty s) then []
  else map Re.whole (Re.findall true ContentFilter.url_pattern s).

(** The replacement of [remove_urls], "[ссылка удалена]". *)
Definition link_removed : text :=
  [91; 1089; 1089; 1099; 1083; 1082; 1072; 32; 1091; 1076; 1072; 1083; 1077;
   1085; 1072; 93]%N.

(** [remove_urls] *)
Definition remove_urls (s : text) : text :=
  if negb (ContentFilter.nonempty s) then s
  else ReSub.sub true ContentFilter.url_pattern link_removed s.

(** [is_text_safe(text, strict=False)] *)
Definition is_text_safe (cfg : Config.t) (s : text) (strict : bool) : bool :=
  if negb (ContentFilter.nonempty s) then true
  else fst (ContentFilter.filter_message cfg s true true strict true).

End TextTools.

(* ================================================================= *)
(** * Vocabulary of the statements                                     *)
(* ================================================================= *)

(** Two rows that differ at most in [is_active], the second inactive
    when they differ. *)
Definition kept (r r' : Database.connection_row) : Prop :=
  r' = r \/ r' = Database.deactivate r.

(** The table holds no row of the key (user, server, channel). *)
Definition key_free (user server channel : Z)
           (l : list Database.spam_tracking_row) : bool :=
  forallb (fun r => negb (Database.same_key user server channel r)) l.

(** [track_message_spam] called for one key at each of the given times, in
    order; the results of the calls, oldest first. *)
Fixpoint track_at (cfg : Config.t) (user server channel : Z) (times : list Z)
         (d : Database.db) : Database.db * list (Z * bool) :=
  match times with
  | [] => (d, [])
  | now :: times' =>
      let r := Database.track_message_spam cfg now user server channel d in
      let rs := track_at cfg user server channel times' (fst r) in
      (fst rs, snd r :: snd rs)
  end.

(** Eleven [connect create] commands, run from servers 1 to 11, each
    towards a channel of its own on server 100, by a member allowed to
    manage channels; the bot has every permission it needs there. *)
Definition hub_requests : list InterServer.create_request :=
  map (fun k =>
         (k,
          InterServer.mk_context k (cp "guild") (1000 + k) 7 true,
          InterServer.mk_channel (2000 + k) 100 (cp "hub") true true true true,
          cp "link"))
      [1; 2; 3; 4; 5; 6; 7; 8; 9; 10; 11].

(** The server the request points to. *)
Definition target_server (req : InterServer.create_request) : Z :=
  InterServer.tc_guild_id (snd (fst req)).

(** The world with more log records and nothing else changed. *)
Definition add_logs (w : InterServer.World) (l : list InterServer.LogRecord)
  : InterServer.World :=
  InterServer.mk_world (InterServer.database w) (InterServer.sends w)
                       (InterServer.logged w ++ l) (InterServer.clock w).

(** The warnings of the attachment loop: an attachment within
    MAX_FILE_SIZE is read, and the read fails or, when it succeeds, the
    name [io] fails. *)
Definition file_warnings (cfg : Config.t) (P : InterServer.Platform)
           (atts : list InterServer.Attachment) : list InterServer.LogRecord :=
  flat_map
    (fun a =>
       if InterServer.size a <=? Config.MAX_FILE_SIZE cfg then
         [InterServer.WarnFileUnreadable (InterServer.filename a)
            (match InterServer.attachment_read P a with
             | InterServer.Ok _ => InterServer.NameError "io"
             | InterServer.Raise e => e
             end)]
       else [])
    atts.

(** The channel a connection leads to from the channel of the message,
    when the bot can see it and may send there. *)
Definition sendable (P : InterServer.Platform) (m : InterServer.Message)
           (c : Database.connection_row) : list InterServer.TextChannel :=
  match InterServer.get_channel P (InterServer.target_of m c) with
  | Some t => if InterServer.send_messages t then [t] else []
  | None => []
  end.

(** The record the handlers of [_forward_message] write for an exception. *)
Definition record_of (e : InterServer.exn) (target : Z) : InterServer.LogRecord :=
  match e with
  | InterServer.Forbidden => InterServer.WarnForbidden target
  | InterServer.NotFound | InterServer.HTTPException => InterServer.ErrorHTTP e
  | _ => InterServer.ErrorUnexpected e
  end.

(** The value of [content_hash] in [_forward_message]: the digest of the
    text, nothing for an empty text, or the error of [encode]. *)
Definition content_hash_of (m : InterServer.Message)
  : InterServer.result (option string) :=
  if ContentFilter.nonempty (InterServer.content m) then
    match Hashlib.encode (InterServer.content m) with
    | Some bytes => InterServer.Ok (Some (Hashlib.md5_hexdigest bytes))
    | None => InterServer.Raise InterServer.UnicodeEncodeError
    end
  else InterServer.Ok None.

(** The embed of a forwarded message. *)
Definition embed_of (m : InterServer.Message) (c : Database.connection_row)
  : InterServer.Embed :=
  InterServer.mk_embed
    (if ContentFilter.nonempty (InterServer.content m)
     then InterServer.content m else InterServer.placeholder)
    (InterServer.created_at m)
    (InterServer.author_display_name m ++ cp " (" ++
       InterServer.guild_name m ++ cp ")")
    (Database.connection_name c) (Database.id c).

(** The world with another database and nothing else changed. *)
Definition with_database (w : InterServer.World) (d : Database.db)
  : InterServer.World :=
  InterServer.mk_world d (InterServer.sends w) (InterServer.logged w)
                       (InterServer.clock w).

(** The steps of [on_message] before the connections are looked up: the
    settings row of the server and the database once it is read (and
    created when missing), the call of the abuse tracker, the database the
    connections are read from. *)
Definition settings_of (m : InterServer.Message) (w : InterServer.World)
  : Database.server_settings_row :=
  snd (Database.get_server_settings (InterServer.clock w)
         (InterServer.guild_id m) (InterServer.database w)).

Definition db_after_settings (m : InterServer.Message) (w : InterServer.World)
  : Database.db :=
  fst (Database.get_server_settings (InterServer.clock w)
         (InterServer.guild_id m) (InterServer.database w)).

Definition tracked (cfg : Config.t) (m : InterServer.Message)
           (w : InterServer.World) : Database.db * (Z * bool) :=
  Database.track_message_spam cfg (InterServer.clock w)
    (InterServer.author_id m) (InterServer.guild_id m)
    (InterServer.channel_id m) (db_after_settings m w).

Definition db_at_lookup (cfg : Config.t) (m : InterServer.Message)
           (w : InterServer.World) : Database.db :=
  if Database.spam_protection (settings_of m w) then fst (tracked cfg m w)
  else db_after_settings m w.

Definition spam_blocked (cfg : Config.t) (m : InterServer.Message)
           (w : InterServer.World) : bool :=
  Database.spam_protection (settings_of m w) && snd (snd (tracked cfg m w)).

(** The messages [on_message] does not look at: from a bot, of a type
    other than [default], or starting with the command prefix. *)
Definition ignored (cfg : Config.t) (m : InterServer.Message) : bool :=
  InterServer.author_bot m || negb (InterServer.is_default (InterServer.type m))
  || startswith (InterServer.content m) (Config.PREFIX cfg).

(** The two content checks of [on_message]. *)
Definition content_rejected (cfg : Config.t) (m : InterServer.Message)
           (w : InterServer.World) : bool :=
  (Database.profanity_filter (settings_of m w)
   && ContentFilter.contains_profanity cfg (InterServer.content m))
  || ContentFilter.contains_blocked_links cfg (InterServer.content m).

(** ** Worlds for the end-to-end checks

    Channel A is channel 10 of server 1, channel B is channel 20 of
    server 2.  The connection is made by [connect create], run in A
    towards B. *)
Definition channel_B : InterServer.TextChannel :=
  InterServer.mk_channel 20 2 (cp "two") true true true true.

Definition connect_A_B (d : Database.db) : Database.db :=
  fst (InterServer.create_connection Config.default 0
         (InterServer.mk_context 1 (cp "one") 10 7 true)
         channel_B (cp "bridge") d).

(** Server 1 with the settings of a new server. *)
Definition registry_db : Database.db := connect_A_B Database.init_db.

(** Server 1 with [spam_protection] and [profanity_filter] switched off. *)
Definition setup_db : Database.db :=
  connect_A_B
    (Database.update_server_setting 0 1 (Database.set_profanity_filter false)
       (Database.update_server_setting 0 1 (Database.set_spam_protection false)
          (Database.create_server_settings 0 1 Database.init_db))).

(** A platform on which B is reachable, every attachment can be read and
    every send is delivered. *)
Definition discord : InterServer.Platform :=
  InterServer.mk_platform
    (fun i => if i =? 20 then Some channel_B else None)
    (fun a => InterServer.Ok (repeat Byte.x00 (Z.to_nat (InterServer.size a))))
    (fun _ n => InterServer.Ok (9000 + Z.of_nat n)).

Definition world_of (d : Database.db) (now : Z) : InterServer.World :=
  InterServer.mk_world d [] [] now.

(** Channel A as the bot sees it, and a platform on which both ends of
    the connection are reachable. *)
Definition channel_A : InterServer.TextChannel :=
  InterServer.mk_channel 10 1 (cp "one") true true true true.

Definition discord_both : InterServer.Platform :=
  InterServer.mk_platform
    (fun i => if i =? 10 then Some channel_A
              else if i =? 20 then Some channel_B else None)
    (fun a => InterServer.Ok (repeat Byte.x00 (Z.to_nat (InterServer.size a))))
    (fun _ n => InterServer.Ok (9000 + Z.of_nat n)).

(** A message of user 43 in channel B. *)
Definition reply (s : text) (atts : list InterServer.Attachment)
  : InterServer.Message :=
  InterServer.mk_message 501 43 false (cp "bob") s atts 20 2 (cp "two") 6
                         InterServer.default.

(** A message of user 42 in channel A. *)
Definition post (s : text) (atts : list InterServer.Attachment)
  : InterServer.Message :=
  InterServer.mk_message 500 42 false (cp "ann") s atts 10 1 (cp "one") 5
                         InterServer.default.

(** [on_message] for each message in turn, at the time given with it. *)
Fixpoint post_all (cfg : Config.t) (P : InterServer.Platform)
         (ms : list (Z * InterServer.Message)) (w : InterServer.World)
  : InterServer.World :=
  match ms with
  | [] => w
  | (now, m) :: ms' =>
      post_all cfg P ms'
        (snd (InterServer.on_message cfg P m
                (InterServer.mk_world (InterServer.database w)
                   (InterServer.sends w) (InterServer.logged w) now)))
  end.

(** A message of user 42 in channel 77 of server 3, a channel no
    connection leads to. *)
Definition lonely_post : InterServer.Message :=
  InterServer.mk_message 600 42 false (cp "ann") (cp "hello") [] 77 3
                         (cp "three") 0 InterServer.default.

(** A connection from channel 10 to channel 30, which the bot cannot write
    to, next to the connection from A to B. *)
Definition two_connections : list Database.connection_row :=
  [ Database.mk_connection 1 1 10 3 30 (cp "closed") 0 7 true None;
    Database.mk_connection 2 1 10 2 20 (cp "bridge") 0 7 true None ].

Definition two_connections_db : Database.db :=
  Database.mk_db two_connections 2 [] 0 [] [] 0.

(** A platform on which the send to channel 30 is refused and the send to
    channel 20 delivered. *)
Definition discord_refusing : InterServer.Platform :=
  InterServer.mk_platform
    (fun i => if i =? 20 then Some channel_B
              else if i =? 30 then
                Some (InterServer.mk_channel 30 3 (cp "three")
                                             true true true true)
              else None)
    (fun a => InterServer.Ok [])
    (fun ch n => if ch =? 30 then InterServer.Raise InterServer.Forbidden
                 else InterServer.Ok (9000 + Z.of_nat n)).

(** ** Vocabulary of the further properties *)

(** A sequence of writing operations of [Database], each run at the time
    given with it. *)
Fixpoint run_all (cfg : Config.t) (ops : list (Z * Database.op))
         (d : Database.db) : Database.db :=
  match ops with
  | [] => d
  | (now, o) :: ops' => run_all cfg ops' (Database.run cfg now o d)
  end.

(** The connection links the two channels, in either direction. *)
Definition links (a b : Z) (r : Database.connection_row) : bool :=
  ((Database.channel1_id r =? a) && (Database.channel2_id r =? b))
  || ((Database.channel1_id r =? b) && (Database.channel2_id r =? a)).

(** No two active connections link the same two channels. *)
Definition one_per_pair (l : list Database.connection_row) : Prop :=
  ForallOrdPairs
    (fun r1 r2 =>
       Database.is_active r1 = true -> Database.is_active r2 = true ->
       links (Database.channel1_id r1) (Database.channel2_id r1) r2 = false)
    l.

(** What happens to the registry: a [connect create] command, the
    [delete_connection] of a [connect remove], the guild removal of
    [on_guild_remove]. *)
Inductive registry_event :=
| ConnectCreate (req : InterServer.create_request)
| ConnectionDeleted (connection_id : Z)
| GuildRemoved (guild : Z).

Fixpoint happen (cfg : Config.t) (events : list registry_event)
         (d : Database.db) : Database.db :=
  match events with
  | [] => d
  | ConnectCreate (now, ctx, target, name) :: events' =>
      happen cfg events'
             (fst (InterServer.create_connection cfg now ctx target name d))
  | ConnectionDeleted connection_id :: events' =>
      happen cfg events' (fst (Database.delete_connection connection_id d))
  | GuildRemoved guild :: events' =>
      happen cfg events' (Bot.on_guild_remove guild d)
  end.

(** Channel A and channel B are connected, connected again from B
    (refused), the connection is deleted, and B is connected to A anew. *)
Definition bridge_twice : list registry_event :=
  [ ConnectCreate (0, InterServer.mk_context 1 (cp "one") 10 7 true,
                   InterServer.mk_channel 20 2 (cp "two") true true true true,
                   cp "bridge");
    ConnectCreate (9, InterServer.mk_context 2 (cp "two") 20 8 true,
                   InterServer.mk_channel 10 1 (cp "one") true true true true,
                   cp "again");
    ConnectionDeleted 1;
    ConnectCreate (12, InterServer.mk_context 2 (cp "two") 20 8 true,
                   InterServer.mk_channel 10 1 (cp "one") true true true true,
                   cp "again") ].

(** The members who pass the test of [connect remove]: the creator of
    the connection, an administrator, and any member who runs the command
    on one of the two servers of the connection. *)
Definition may_remove (who : Commands.Invoker) (c : Database.connection_row)
  : Prop :=
  Database.created_by c = InterServer.ctx_author_id (Commands.ctx who)
  \/ Commands.administrator who = true
  \/ InterServer.ctx_guild_id (Commands.ctx who) = Database.server1_id c
  \/ InterServer.ctx_guild_id (Commands.ctx who) = Database.server2_id c.

(** A platform on which every call of [connect remove] returns and the
    member confirms, but for the notification of the other channel, which
    does what [notice] says. *)
Definition confirming (notice : option Commands.raised) : Commands.Dialogue :=
  Commands.mk_dialogue None None Commands.Confirm (fun _ => true) notice
                       None None None None.

(** A connection has the server at one of its ends. *)
Definition touches (server : Z) (r : Database.connection_row) : bool :=
  (Database.server1_id r =? server) || (Database.server2_id r =? server).

(** Each time is inside the window that the time before it opened. *)
Fixpoint chained (window last : Z) (times : list Z) : Prop :=
  match times with
  | [] => True
  | t :: times' => t < last + window /\ chained window t times'
  end.

(** The results of the calls number [first], [first + 1], ... of a key
    that stays inside its window: the count and whether it has reached
    the threshold. *)
Fixpoint counting (threshold first : Z) (n : nat) : list (Z * bool) :=
  match n with
  | O => []
  | S n' => (first, threshold <=? first) :: counting threshold (first + 1) n'
  end.

(** What [track_message_spam] returns, read off the rows of the key in
    the order of the table. *)
Definition track_result (cfg : Config.t) (now : Z)
           (rows : list Database.spam_tracking_row) : Z * bool :=
  match find (Database.live (Config.SPAM_TIME_WINDOW cfg) now) rows with
  | Some row =>
      (Database.message_count row + 1,
       Config.SPAM_THRESHOLD cfg <=? Database.message_count row + 1)
  | None =>
      match rows with
      | r :: _ => (Database.message_count r, Database.is_blocked r)
      | [] => (1, false)
      end
  end.

(** Every table has its rows in the order of their keys, without
    repetition; [server_settings] has one row for a server at most. *)
Definition keys_sorted (d : Database.db) : Prop :=
  StronglySorted Z.lt (map Database.id (Database.connections d))
  /\ StronglySorted Z.lt (map Database.mh_id (Database.message_history d))
  /\ StronglySorted Z.lt (map Database.st_id (Database.spam_tracking d))
  /\ NoDup (map Database.server_id (Database.server_settings d)).


(** The tracker holds one row for the key of the message, with the given
    count and time of the last message, and the server of the message has
    the given settings row. *)
Definition counted (st : Database.server_settings_row)
           (m : InterServer.Message) (count last : Z)
           (w : InterServer.World) : Prop :=
  Database.find_settings (InterServer.guild_id m) (InterServer.database w)
  = Some st
  /\ exists old i f b,
      Database.spam_tracking (InterServer.database w)
      = old ++ [Database.mk_spam_tracking i (InterServer.author_id m)
                  (InterServer.guild_id m) (InterServer.channel_id m)
                  count f last b]
      /\ key_free (InterServer.author_id m) (InterServer.guild_id m)
                  (InterServer.channel_id m) old = true.

(** A message [on_message] looks at, by the author and in the channel of
    the message [m]. *)
Definition posted_like (cfg : Config.t) (m m' : InterServer.Message) : Prop :=
  ignored cfg m' = false
  /\ InterServer.author_id m' = InterServer.author_id m
  /\ InterServer.guild_id m' = InterServer.guild_id m
  /\ InterServer.channel_id m' = InterServer.channel_id m.

(** The world at a given time. *)
Definition at_time (w : InterServer.World) (now : Z) : InterServer.World :=
  InterServer.mk_world (InterServer.database w) (InterServer.sends w)
                       (InterServer.logged w) now.

(** The time of the last of the messages, [t] when there is none. *)
Fixpoint last_time (t : Z) (ms : list (Z * InterServer.Message)) : Z :=
  match ms with
  | [] => t
  | (t', _) :: ms' => last_time t' ms'
  end.

(** The registry of the end-to-end checks, on a server that the bot has
    joined: [on_guild_join] has written its settings row. *)
Definition registry_db_with_settings : Database.db :=
  connect_A_B (Bot.on_guild_join 0 1 Database.init_db).

(** [a] may come before [b] under [ORDER BY created_at DESC]. *)
Definition newer_first (a b : Database.connection_row) : Prop :=
  Database.created_at b <= Database.created_at a.

(** ** Vocabulary of the text tools *)

(** The loop of [Re.run] on a repetition, by name. *)
Definition rep_loop (ic : bool) (r' : Re.regex) (lo : nat) (hi : option nat)
           (k : Re.mstate -> option Re.mstate)
  : nat -> nat -> Re.mstate -> option Re.mstate :=
  fix loop (fuel n : nat) (s0 : Re.mstate) {struct fuel} : option Re.mstate :=
    let stop := if Nat.leb lo n then k s0 else None in
    match fuel with
    | O => stop
    | S fuel' =>
        if Re.below n hi then
          Re.or_else
            (Re.run ic r'
               (fun s1 =>
                  if Nat.ltb (List.length (Re.rest s1))
                             (List.length (Re.rest s0))
                  then loop fuel' (S n) s1
                  else if Nat.leb lo (S n) then k s1 else None)
               s0)
            stop
        else stop
    end.

(** The position [s1] is the position [s] or one further on in the same
    text. *)
Definition advances (s s1 : Re.mstate) : Prop :=
  exists pre, Re.rest s = pre ++ Re.rest s1.

(** The text made of the gaps with one piece between each two. *)
Fixpoint weave (gaps pieces : list text) : text :=
  match gaps, pieces with
  | g :: gaps', u :: pieces' => g ++ u ++ weave gaps' pieces'
  | g :: _, [] => g
  | [], _ => []
  end.

(** An ASCII character that [urlsplit] leaves in a host: no tab or line
    break, none of [/ ? #] and no square bracket. *)
Definition host_char (c : N) : bool :=
  N.ltb c 128
  && negb (existsb (N.eqb c) [9; 10; 13; 35; 47; 63; 91; 93]%N).

(** What may follow the host: nothing, or a path, a query or a
    fragment. *)
Definition ends_host (tail : text) : bool :=
  match tail with
  | [] => true
  | c :: _ => N.eqb c 47 || N.eqb c 63 || N.eqb c 35
  end.

(** [domain[4:]] when the domain starts with [www.] *)
Definition strip_www (domain : text) : text :=
  if startswith domain (cp "www.") then skipn 4 domain else domain.

(** The domain is in [suspicious_domains], or a subdomain of one. *)
Definition listed (cfg : Config.t) (domain : text) : bool :=
  text_in domain (ContentFilter.suspicious_domains cfg)
  || existsb (fun blocked_domain => endswith domain (46%N :: blocked_domain))
             (ContentFilter.suspicious_domains cfg).

(** The text starts with a whitespace character. *)
Definition starts_space (s : text) : bool :=
  match s with
  | x :: _ => TextTools.isspace x
  | [] => false
  end.

(** The text ends with a whitespace character. *)
Definition ends_space (s : text) : bool := starts_space (rev s).

(** No two whitespace characters follow each other. *)
Fixpoint single_spaced (s : text) : bool :=
  match s with
  | x :: t => negb (TextTools.isspace x && starts_space t) && single_spaced t
  | [] => true
  end.

(** The characters of the text that are not whitespace, in order. *)
Definition visible (s : text) : text :=
  filter (fun c => negb (TextTools.isspace c)) s.

(** Where the matcher stands after the whitespace at the start of [s]:
    the last character read and the text left. *)
Fixpoint after_spaces (p : option N) (s : text) : option N * text :=
  match s with
  | x :: t => if TextTools.isspace x then after_spaces (Some x) t else (p, s)
  | [] => (p, [])
  end.

(** Each run of whitespace made one space; [in_space] says that the
    character before was whitespace. *)
Fixpoint squeeze (in_space : bool) (s : text) : text :=
  match s with
  | x :: t =>
      if TextTools.isspace x
      then if in_space then squeeze true t else 32%N :: squeeze true t
      else x :: squeeze false t
  | [] => []
  end.

(* ================================================================= *)
(** * Properties of the Connection Registry                            *)
(* ================================================================= *)

Section Registry.
Import Database.

Lemma deactivate_twice (r : connection_row) :
  deactivate (deactivate r) = deactivate r.
Proof. reflexivity. Qed.

Lemma deactivate_id (r : connection_row) : id (deactivate r) = id r.
Proof. reflexivity. Qed.

Lemma kept_refl_all (l : list connection_row) : Forall2 kept l l.
Proof. induction l; constructor; auto. now left. Qed.

Lemma kept_map (p : connection_row -> bool) (l : list connection_row) :
  Forall2 kept l (map (fun r => if p r then deactivate r else r) l).
Proof.
  induction l as [|r l IH]; simpl; constructor; auto.
  destruct (p r); [now right | now left].
Qed.

Lemma delete_connection_rowcount (connection_id : Z) (l : list connection_row) :
  (0 <? Z.of_nat (List.length (filter (fun r => id r =? connection_id) l)))
  = existsb (fun r => id r =? connection_id) l.
Proof.
  induction l as [|r l IH]; simpl; auto.
  destruct (id r =? connection_id); simpl; auto.
Qed.

Lemma map_deactivate_hit_twice (connection_id : Z) (l : list connection_row) :
  let f := fun r => if id r =? connection_id then deactivate r else r in
  map f (map f l) = map f l.
Proof.
  intro f. rewrite map_map. apply map_ext. intro r. unfold f.
  destruct (id r =? connection_id) eqn:E; simpl; rewrite ?E; reflexivity.
Qed.

Lemma existsb_map_deactivate (connection_id : Z) (l : list connection_row) :
  existsb (fun r => id r =? connection_id)
          (map (fun r => if id r =? connection_id then deactivate r else r) l)
  = existsb (fun r => id r =? connection_id) l.
Proof.
  induction l as [|r l IH]; simpl; auto.
  rewrite IH. destruct (id r =? connection_id) eqn:E; simpl; rewrite E; auto.
Qed.

Lemma find_active_after_delete (connection_id : Z) (l : list connection_row) :
  find (fun r => (id r =? connection_id) && is_active r)
       (map (fun r => if id r =? connection_id then deactivate r else r) l)
  = None.
Proof.
  induction l as [|r l IH]; simpl; auto.
  destruct (id r =? connection_id) eqn:E; simpl; rewrite E; simpl; auto.
Qed.

Lemma no_hit_map_id (connection_id : Z) (l : list connection_row) :
  existsb (fun r => id r =? connection_id) l = false ->
  map (fun r => if id r =? connection_id then deactivate r else r) l = l.
Proof.
  induction l as [|r l IH]; simpl; auto.
  intro H. apply orb_false_iff in H as [H1 H2].
  rewrite H1, IH; auto.
Qed.

Lemma db_eta (d : db) :
  set_connections d (connections d) (connections_seq d) = d.
Proof. destruct d; reflexivity. Qed.

Lemma by_channel_after_delete (connection_id channel : Z)
      (l : list connection_row) :
  forallb (fun r => negb (id r =? connection_id))
    (filter (fun r => ((channel1_id r =? channel) || (channel2_id r =? channel))
                      && is_active r)
       (map (fun r => if id r =? connection_id then deactivate r else r) l))
  = true.
Proof.
  induction l as [|r l IH]; simpl; auto.
  destruct (id r =? connection_id) eqn:E; simpl.
  - rewrite andb_false_r. exact IH.
  - destruct (((channel1_id r =? channel) || (channel2_id r =? channel))
              && is_active r); simpl; rewrite ?E; auto.
Qed.

(** Every writing method leaves the old rows of [connections] in place,
    changing at most their [is_active] to false. *)
Lemma run_keeps_connections (cfg : Config.t) (now : Z) (o : op) (d : db) :
  exists old added,
    connections (run cfg now o d) = old ++ added
    /\ Forall2 kept (connections d) old.
Proof.
  destruct o; simpl.
  - exists (connections d), [mk_connection
      (next_rowid (connections_seq d) (map id (connections d)))
      server1 channel1 server2 channel2 name now creator true descr].
    split; [reflexivity | apply kept_refl_all].
  - eexists; exists []. rewrite app_nil_r. split; [reflexivity | apply kept_map].
  - unfold log_message.
    destruct (existsb _ _); simpl;
      exists (connections d), []; rewrite app_nil_r;
      (split; [reflexivity | apply kept_refl_all]).
  - unfold create_server_settings. destruct (find_settings server d); simpl;
      exists (connections d), []; rewrite app_nil_r;
      (split; [reflexivity | apply kept_refl_all]).
  - unfold get_server_settings, create_server_settings.
    destruct (find_settings server d); simpl;
      exists (connections d), []; rewrite app_nil_r;
      (split; [reflexivity | apply kept_refl_all]).
  - exists (connections d), []; rewrite app_nil_r.
    split; [reflexivity | apply kept_refl_all].
  - unfold track_message_spam. simpl.
    destruct (find _ (spam_tracking d)); simpl;
      exists (connections d), []; rewrite app_nil_r;
      (split; [reflexivity | apply kept_refl_all]).
  - eexists; exists []. rewrite app_nil_r. split; [reflexivity | apply kept_map].
  - exists (connections d), []; rewrite app_nil_r.
    split; [reflexivity | apply kept_refl_all].
Qed.

End Registry.

(** C7, as the claim states it, fails: on a row that exists, the second
    [delete_connection] returns true as the first did, because the UPDATE
    selects the row by id alone. *)
Lemma delete_connection_second_call_returns_true :
  let d0 := fst (Database.create_connection 0 1 10 2 20 (cp "ab") 7 None
                                            Database.init_db) in
  let d1 := fst (Database.delete_connection 1 d0) in
  snd (Database.delete_connection 1 d0) = true
  /\ Database.get_connection_by_id 1 d1 = None
  /\ snd (Database.delete_connection 1 d1) = true.
Proof. vm_compute. repeat split. Qed.

(** C7 (amended): [delete_connection] is idempotent on the state: a second
    call changes nothing, and after the first the connection is absent from
    [get_connection_by_id] and from every [get_connections_by_channel].
    Its result is true exactly when a row with that id exists, active or
    not; on a missing id it is false and the state is unchanged. *)
Theorem delete_connection_idempotent (connection_id : Z) (d : Database.db) :
  let present := existsb (fun r => Database.id r =? connection_id)
                         (Database.connections d) in
  let d1 := fst (Database.delete_connection connection_id d) in
  fst (Database.delete_connection connection_id d1) = d1
  /\ snd (Database.delete_connection connection_id d) = present
  /\ snd (Database.delete_connection connection_id d1) = present
  /\ Database.get_connection_by_id connection_id d1 = None
  /\ (forall channel,
        forallb (fun r => negb (Database.id r =? connection_id))
                (Database.get_connections_by_channel channel d1) = true)
  /\ (if present then True else Database.delete_connection connection_id d = (d, false)).
Proof.
  cbv zeta. unfold Database.delete_connection, Database.get_connection_by_id,
    Database.get_connections_by_channel. simpl.
  repeat split.
  - unfold Database.set_connections; simpl. f_equal.
    apply map_deactivate_hit_twice.
  - apply delete_connection_rowcount.
  - rewrite delete_connection_rowcount. apply existsb_map_deactivate.
  - apply find_active_after_delete.
  - intro channel. apply by_channel_after_delete.
  - destruct (existsb _ _) eqn:E; auto.
    rewrite delete_connection_rowcount, E, (no_hit_map_id _ _ E).
    now rewrite db_eta.
Qed.

(** C9: no method of [Database] removes a row of [connections].  Whatever
    the operation, the old rows stay in place and change at most their
    [is_active] to false; [delete_connection] and
    [deactivate_server_connections] add and remove nothing; the retention
    sweep [cleanup_old_data] leaves [connections] and [message_history] as
    they are and only filters [spam_tracking]. *)
Theorem connections_never_removed (cfg : Config.t) (now : Z) (d : Database.db) :
  (forall o, exists old added,
      Database.connections (Database.run cfg now o d) = old ++ added
      /\ Forall2 kept (Database.connections d) old)
  /\ (forall connection_id,
        Forall2 kept (Database.connections d)
          (Database.connections
             (fst (Database.delete_connection connection_id d))))
  /\ (forall server,
        Forall2 kept (Database.connections d)
          (Database.connections
             (Database.deactivate_server_connections server d)))
  /\ (forall days,
        let d' := Database.cleanup_old_data now days d in
        Database.connections d' = Database.connections d
        /\ Database.message_history d' = Database.message_history d
        /\ Database.spam_tracking d' =
           filter (fun r => negb (Database.last_message_time r + days * 86400
                                  <? now))
                  (Database.spam_tracking d)).
Proof.
  repeat split.
  - intro o. apply run_keeps_connections.
  - intro i. apply kept_map.
  - intro s. apply kept_map.
Qed.

(* ================================================================= *)
(** * Properties of the Abuse Tracker                                  *)
(* ================================================================= *)

Section AbuseTracker.
Import Database.

Variable cfg : Config.t.
Variables user server channel : Z.

Let mine := same_key user server channel.

Lemma find_app_first {A} (p : A -> bool) (l l' : list A) :
  find p (l ++ l') =
  match find p l with Some x => Some x | None => find p l' end.
Proof.
  induction l as [|x l IH]; simpl; auto. destruct (p x); auto.
Qed.

Lemma key_free_find (q : spam_tracking_row -> bool) (l : list spam_tracking_row) :
  key_free user server channel l = true ->
  find (fun r => mine r && q r) l = None.
Proof.
  unfold key_free, mine. induction l as [|r l IH]; simpl; auto.
  intro H. apply andb_true_iff in H as [H1 H2].
  apply negb_true_iff in H1. rewrite H1. simpl. auto.
Qed.

Lemma key_free_find_key (l : list spam_tracking_row) :
  key_free user server channel l = true -> find mine l = None.
Proof.
  intro H. rewrite <- (key_free_find (fun _ => true) l H).
  induction l as [|r l IH]; simpl; auto.
  rewrite andb_true_r. destruct (mine r); auto.
  apply IH. simpl in H. unfold key_free in *. simpl in H.
  apply andb_true_iff in H. tauto.
Qed.

Lemma key_free_map (f : spam_tracking_row -> spam_tracking_row)
      (l : list spam_tracking_row) :
  key_free user server channel l = true ->
  map (fun r => if mine r then f r else r) l = l.
Proof.
  unfold key_free, mine. induction l as [|r l IH]; simpl; auto.
  intro H. apply andb_true_iff in H as [H1 H2].
  apply negb_true_iff in H1. rewrite H1, IH; auto.
Qed.

Lemma mine_new (i n f l : Z) (b : bool) :
  mine (mk_spam_tracking i user server channel n f l b) = true.
Proof. unfold mine, same_key. simpl. now rewrite !Z.eqb_refl. Qed.

(** The first call for a key: a row with count 1 is appended. *)
Lemma track_fresh (now : Z) (d : db) :
  key_free user server channel (spam_tracking d) = true ->
  track_message_spam cfg now user server channel d =
  (let rowid := next_rowid (spam_tracking_seq d) (map st_id (spam_tracking d)) in
   (set_spam_tracking d
      (spam_tracking d ++ [mk_spam_tracking rowid user server channel 1 now now false])
      rowid,
    (1, false))).
Proof.
  intro H. unfold track_message_spam.
  fold mine. rewrite (key_free_find _ _ H). cbv zeta. simpl.
  rewrite find_app_first, (key_free_find_key _ H). simpl.
  now rewrite mine_new.
Qed.

(** A call inside the window of the key's only row: the row is counted up. *)
Lemma track_live (now : Z) (d : db) (old : list spam_tracking_row)
      (i n f l : Z) (b : bool) :
  spam_tracking d = old ++ [mk_spam_tracking i user server channel n f l b] ->
  key_free user server channel old = true ->
  now < l + Config.SPAM_TIME_WINDOW cfg ->
  track_message_spam cfg now user server channel d =
  (set_spam_tracking d
     (old ++ [mk_spam_tracking i user server channel (n + 1) f now
                               (Config.SPAM_THRESHOLD cfg <=? n + 1)])
     (spam_tracking_seq d),
   (n + 1, Config.SPAM_THRESHOLD cfg <=? n + 1)).
Proof.
  intros E H L. unfold track_message_spam. fold mine. rewrite E.
  rewrite find_app_first, (key_free_find _ _ H). simpl.
  rewrite mine_new. unfold live. simpl.
  apply Z.ltb_lt in L. rewrite L. simpl.
  rewrite map_app, (key_free_map _ _ H). simpl. rewrite mine_new.
  rewrite find_app_first, (key_free_find_key _ H). simpl.
  now rewrite mine_new.
Qed.

(** A call after the window of the key's only row has passed: a second row
    is inserted, and the call returns the first row of the key, the old
    one. *)
Lemma track_expired (now : Z) (d : db) (old : list spam_tracking_row)
      (i n f l : Z) (b : bool) :
  spam_tracking d = old ++ [mk_spam_tracking i user server channel n f l b] ->
  key_free user server channel old = true ->
  l + Config.SPAM_TIME_WINDOW cfg <= now ->
  track_message_spam cfg now user server channel d =
  (let rowid := next_rowid (spam_tracking_seq d) (map st_id (spam_tracking d)) in
   (set_spam_tracking d
      (spam_tracking d ++ [mk_spam_tracking rowid user server channel 1 now now false])
      rowid,
    (n, b))).
Proof.
  intros E H L. unfold track_message_spam. fold mine. rewrite E.
  rewrite find_app_first, (key_free_find _ _ H). simpl.
  rewrite mine_new. unfold live. simpl.
  apply Z.ltb_ge in L. rewrite L. simpl.
  rewrite !find_app_first, (key_free_find_key _ H). simpl.
  now rewrite mine_new.
Qed.

End AbuseTracker.

(** C2: with SPAM_THRESHOLD = 5 and SPAM_TIME_WINDOW = 10, for a key the
    table does not hold yet, five calls each inside the window of the one
    before return counts 1 to 5, blocked on the fifth only.  A sixth call
    made when the window has passed does not return (1, false): the row of
    the old window is still the first row of the key, and the call returns
    its count 5 and blocked = true. *)
Theorem track_message_spam_sixth_call_returns_old_row
        (cfg : Config.t) (user server channel : Z) (d : Database.db)
        (t1 t2 t3 t4 t5 t6 : Z) :
  Config.SPAM_THRESHOLD cfg = 5 ->
  Config.SPAM_TIME_WINDOW cfg = 10 ->
  key_free user server channel (Database.spam_tracking d) = true ->
  t2 < t1 + 10 -> t3 < t2 + 10 -> t4 < t3 + 10 -> t5 < t4 + 10 ->
  t5 + 10 <= t6 ->
  snd (track_at cfg user server channel [t1; t2; t3; t4; t5; t6] d) =
  [(1, false); (2, false); (3, false); (4, false); (5, true); (5, true)].
Proof.
  intros HT HW HF L2 L3 L4 L5 L6.
  cbn [track_at]. cbv zeta.
  rewrite (track_fresh cfg user server channel t1 d HF). cbv zeta. cbn [fst snd].
  set (d1 := Database.set_spam_tracking d _ _).
  rewrite (track_live cfg user server channel t2 d1 _ _ 1 t1 t1 false eq_refl HF)
    by (rewrite HW; exact L2).
  cbn [fst snd]. set (d2 := Database.set_spam_tracking d1 _ _).
  rewrite (track_live cfg user server channel t3 d2 _ _ _ t1 t2 _ eq_refl HF)
    by (rewrite HW; exact L3).
  cbn [fst snd]. set (d3 := Database.set_spam_tracking d2 _ _).
  rewrite (track_live cfg user server channel t4 d3 _ _ _ t1 t3 _ eq_refl HF)
    by (rewrite HW; exact L4).
  cbn [fst snd]. set (d4 := Database.set_spam_tracking d3 _ _).
  rewrite (track_live cfg user server channel t5 d4 _ _ _ t1 t4 _ eq_refl HF)
    by (rewrite HW; exact L5).
  cbn [fst snd]. set (d5 := Database.set_spam_tracking d4 _ _).
  rewrite (track_expired cfg user server channel t6 d5 _ _ _ t1 t5 _ eq_refl HF)
    by (rewrite HW; exact L6).
  cbn [fst snd]. rewrite HT. reflexivity.
Qed.

Lemma track_message_spam_sixth_call_witness :
  snd (track_at Config.default 42 1 10 [0; 1; 2; 3; 4; 14] Database.init_db) =
  [(1, false); (2, false); (3, false); (4, false); (5, true); (5, true)].
Proof.
  apply (track_message_spam_sixth_call_returns_old_row
           Config.default 42 1 10 Database.init_db 0 1 2 3 4 14);
    first [reflexivity | lia].
Defined.

(* ================================================================= *)
(** * The quota of [connect create]                                    *)
(* ================================================================= *)

Section Quota.
Import Database.

Variable cfg : Config.t.

Lemma count_app (server : Z) (d : db) (row : connection_row) (seq : Z) :
  get_server_connection_count server
    (set_connections d (connections d ++ [row]) seq) =
  get_server_connection_count server d
  + (if ((server1_id row =? server) || (server2_id row =? server))
        && is_active row then 1 else 0).
Proof.
  unfold get_server_connection_count. simpl.
  rewrite filter_app, length_app. simpl.
  destruct (((server1_id row =? server) || (server2_id row =? server))
            && is_active row); simpl; lia.
Qed.

(** What one command does to the count of a server it does not point to. *)
Lemma create_connection_count (now : Z) (ctx : InterServer.Context)
      (target : InterServer.TextChannel) (name : text) (d : db) (server : Z) :
  InterServer.tc_guild_id target <> server ->
  let d' := fst (InterServer.create_connection cfg now ctx target name d) in
  get_server_connection_count server d' = get_server_connection_count server d
  \/ (InterServer.ctx_guild_id ctx = server
      /\ get_server_connection_count server d
         < Config.MAX_CONNECTIONS_PER_SERVER cfg
      /\ get_server_connection_count server d' =
         get_server_connection_count server d + 1).
Proof.
  intros Ht. unfold InterServer.create_connection.
  destruct (negb (InterServer.ctx_manage_channels ctx)); [now left|].
  destruct (Config.MAX_CONNECTIONS_PER_SERVER cfg <=? _) eqn:Q; [now left|].
  destruct (InterServer.tc_guild_id target =? InterServer.ctx_guild_id ctx);
    [now left|].
  destruct (filter _ InterServer.required_perms); [|now left].
  destruct (find _ _); [now left|].
  unfold create_connection. cbn [fst]. rewrite count_app. simpl.
  apply Z.eqb_neq in Ht. rewrite Ht, orb_false_r, andb_true_r.
  destruct (InterServer.ctx_guild_id ctx =? server) eqn:E.
  - right. apply Z.eqb_eq in E. subst server.
    apply Z.leb_gt in Q. repeat split; auto.
  - left. lia.
Qed.

Lemma create_all_bounded (reqs : list InterServer.create_request) :
  forall (d : db) (server : Z),
    get_server_connection_count server d
      <= Config.MAX_CONNECTIONS_PER_SERVER cfg ->
    Forall (fun req => target_server req <> server) reqs ->
    get_server_connection_count server (InterServer.create_all cfg reqs d)
      <= Config.MAX_CONNECTIONS_PER_SERVER cfg.
Proof.
  induction reqs as [|[[[now ctx] target] name] reqs IH]; intros d server B F;
    simpl; auto.
  inversion F as [|? ? Ht F']; subst. apply IH; auto.
  unfold target_server in Ht; simpl in Ht.
  destruct (create_connection_count now ctx target name d server Ht)
    as [E | (_ & L & E)]; rewrite E; lia.
Qed.

End Quota.

(** C3, as the claim states it, fails: the command checks the count of the
    server it is run on, not of the server it points to.  Ten commands from
    ten servers bring server 100 to the default limit of 10; the eleventh,
    from another server, is accepted and brings it to 11. *)
Lemma create_connection_target_over_quota :
  let d10 := InterServer.create_all Config.default (firstn 10 hub_requests)
                                    Database.init_db in
  Database.get_server_connection_count 100 d10
    = Config.MAX_CONNECTIONS_PER_SERVER Config.default
  /\ snd (InterServer.create_connection Config.default 11
           (InterServer.mk_context 11 (cp "guild") 1011 7 true)
           (InterServer.mk_channel 2011 100 (cp "hub") true true true true)
           (cp "link") d10)
     = InterServer.Created 11
  /\ Database.get_server_connection_count 100
       (InterServer.create_all Config.default hub_requests Database.init_db)
     = 11.
Proof. vm_compute. repeat split. Qed.

(** C3 (amended): [connect create] fails with the quota error when the
    server it is run on already has MAX_CONNECTIONS_PER_SERVER active
    connections or more, and then writes nothing; the server it points to
    is not checked.  So the count of a server that starts within the limit
    stays within it after any sequence of commands none of which points to
    that server. *)
Theorem create_connection_quota (cfg : Config.t) :
  (forall now ctx target name d,
      InterServer.ctx_manage_channels ctx = true ->
      Config.MAX_CONNECTIONS_PER_SERVER cfg
        <= Database.get_server_connection_count (InterServer.ctx_guild_id ctx) d ->
      InterServer.create_connection cfg now ctx target name d
        = (d, InterServer.LimitExceeded))
  /\ (forall reqs d server,
        Database.get_server_connection_count server d
          <= Config.MAX_CONNECTIONS_PER_SERVER cfg ->
        Forall (fun req => target_server req <> server) reqs ->
        Database.get_server_connection_count server
          (InterServer.create_all cfg reqs d)
          <= Config.MAX_CONNECTIONS_PER_SERVER cfg).
Proof.
  split.
  - intros now ctx target name d P Q. unfold InterServer.create_connection.
    rewrite P. simpl. apply Z.leb_le in Q. now rewrite Q.
  - intros reqs d server. apply create_all_bounded.
Qed.

Lemma create_connection_quota_witness :
  let d10 := InterServer.create_all Config.default (firstn 10 hub_requests)
                                    Database.init_db in
  InterServer.create_connection Config.default 12
    (InterServer.mk_context 100 (cp "hub") 3000 7 true)
    (InterServer.mk_channel 1012 12 (cp "guild") true true true true)
    (cp "link") d10
  = (d10, InterServer.LimitExceeded)
  /\ Database.get_server_connection_count 3
       (InterServer.create_all Config.default hub_requests Database.init_db)
     <= Config.MAX_CONNECTIONS_PER_SERVER Config.default.
Proof.
  destruct (create_connection_quota Config.default) as [Q B].
  split.
  - apply Q; [reflexivity | vm_compute; discriminate].
  - apply B; [vm_compute; discriminate |].
    repeat constructor; vm_compute; discriminate.
Defined.

(* ================================================================= *)
(** * Properties of the Relay Engine                                   *)
(* ================================================================= *)

Section Relay.
Import InterServer.

Variable cfg : Config.t.
Variable P : Platform.

Ltac run_m :=
  unfold bind, ret, raise, try_except, log, with_db, read, send,
    db_log_message, global_name, md5_of; cbn [fst snd].

Ltac proj := cbn [clock database sends logged fst snd].

(** The attachment loop returns the list it was given: every attachment it
    tries ends in the handler of the inner [try]. *)
Lemma collect_files_spec (atts : list Attachment) :
  forall (files : list File) (w : World),
    collect_files cfg P atts files w =
    (Ok files, add_logs w (file_warnings cfg P atts)).
Proof.
  induction atts as [|a atts IH]; intros files w.
  - unfold add_logs. simpl. unfold ret. rewrite app_nil_r. now destruct w.
  - cbn [collect_files file_warnings flat_map]. unfold bind at 1.
    destruct (size a <=? Config.MAX_FILE_SIZE cfg).
    + run_m. destruct (attachment_read P a) as [data|e]; simpl;
        rewrite IH; unfold add_logs; simpl; now rewrite <- app_assoc.
    + run_m. rewrite IH. reflexivity.
Qed.

(** [_forward_message], with the monad run: what it returns and the world
    it leaves, case by case. *)
Lemma forward_message_spec (m : Message) (c : Database.connection_row)
      (w : World) :
  _forward_message cfg P m c w =
  match get_channel P (target_of m c) with
  | None =>
      (Ok tt, add_logs w [WarnChannelUnavailable (target_of m c) (Database.id c)])
  | Some t =>
      if negb (send_messages t) then (Ok tt, w)
      else
        let r := channel_send P (tc_id t) (List.length (sends w)) in
        let w2 := mk_world (database w)
                    (sends w ++ [mk_send (tc_id t) (embed_of m c) [] r])
                    (logged w ++ file_warnings cfg P (attachments m))
                    (clock w) in
        match r with
        | Ok forwarded =>
            match content_hash_of m with
            | Ok content_hash =>
                match Database.log_message (clock w) (message_id m) forwarded
                        (author_id m) (Database.id c) content_hash
                        (database w) with
                | Some d => (Ok tt, mk_world d (sends w2) (logged w2) (clock w))
                | None => (Ok tt, add_logs w2 [ErrorUnexpected IntegrityError])
                end
            | Raise e => (Ok tt, add_logs w2 [record_of e (target_of m c)])
            end
        | Raise e => (Ok tt, add_logs w2 [record_of e (target_of m c)])
        end
  end.
Proof.
  unfold _forward_message, try_except.
  destruct (get_channel P (target_of m c)) as [t|].
  - destruct (negb (send_messages t)); [reflexivity|].
    unfold bind at 1. rewrite collect_files_spec.
    run_m. unfold add_logs; simpl.
    destruct (channel_send P (tc_id t) (List.length (sends w))) as [fwd|e];
      simpl.
    + unfold content_hash_of, embed_of.
      destruct (ContentFilter.nonempty (content m)); run_m; proj.
      * destruct (Hashlib.encode (content m)); run_m; proj;
          [destruct (Database.log_message _ _ _ _ _ _ _)|]; reflexivity.
      * destruct (Database.log_message _ _ _ _ _ _ _); reflexivity.
    + destruct e; reflexivity.
  - reflexivity.
Qed.

(** What one [_forward_message] adds to the world: it returns normally,
    makes one send call when the target is reachable and none otherwise,
    and logs the exception of a send that fails. *)
Lemma forward_message_summary (m : Message) (c : Database.connection_row)
      (w : World) :
  exists w' calls logs,
    _forward_message cfg P m c w = (Ok tt, w')
    /\ sends w' = sends w ++ calls
    /\ logged w' = logged w ++ logs
    /\ clock w' = clock w
    /\ map to_channel calls = map tc_id (sendable P m c)
    /\ (forall call e, In call calls -> outcome call = Raise e ->
                       In (record_of e (target_of m c)) logs).
Proof.
  rewrite forward_message_spec. unfold sendable.
  destruct (get_channel P (target_of m c)) as [t|].
  - destruct (send_messages t); simpl.
    + destruct (channel_send P (tc_id t) (List.length (sends w))) as [fwd|e] eqn:R.
      * destruct (content_hash_of m) as [h|e'];
          [destruct (Database.log_message _ _ _ _ _ _ _)|];
          eexists; eexists; eexists;
          (split; [reflexivity|]); simpl;
          (split; [reflexivity|]);
          (split; [try rewrite <- app_assoc; reflexivity|]);
          (split; [reflexivity|]);
          (split; [reflexivity|]);
          intros call e [<-|[]]; simpl; discriminate.
      * eexists; eexists; eexists.
        split; [reflexivity|]. simpl.
        split; [reflexivity|].
        split; [rewrite <- app_assoc; reflexivity|].
        split; [reflexivity|].
        split; [reflexivity|].
        intros call e' [<-|[]]. simpl. intro H; inversion H; subst.
        apply in_or_app. right. now left.
    + exists w, [], []. rewrite !app_nil_r.
      repeat split; auto; try (intros call e []).
  - eexists; exists []; eexists. split; [reflexivity|]. simpl.
    rewrite app_nil_r. repeat split; auto; try (intros call e []).
Qed.

Lemma forward_all_summary (m : Message) (cs : list Database.connection_row) :
  forall w : World,
  exists w' calls logs,
    forward_all cfg P m cs w = (Ok tt, w')
    /\ sends w' = sends w ++ calls
    /\ logged w' = logged w ++ logs
    /\ clock w' = clock w
    /\ map to_channel calls = map tc_id (flat_map (sendable P m) cs)
    /\ (forall call e, In call calls -> outcome call = Raise e ->
                       exists c, In c cs
                                 /\ In (record_of e (target_of m c)) logs).
Proof.
  induction cs as [|c cs IH]; intro w.
  - exists w, [], []. simpl. unfold ret. rewrite !app_nil_r.
    do 5 (split; [reflexivity|]). intros call e [].
  - destruct (forward_message_summary m c w)
      as (w1 & calls1 & logs1 & E1 & S1 & L1 & C1 & T1 & R1).
    destruct (IH w1) as (w2 & calls2 & logs2 & E2 & S2 & L2 & C2 & T2 & R2).
    exists w2, (calls1 ++ calls2), (logs1 ++ logs2).
    cbn [forward_all]. unfold bind. rewrite E1, E2.
    split; [reflexivity|].
    split; [rewrite S2, S1; now rewrite app_assoc|].
    split; [rewrite L2, L1; now rewrite app_assoc|].
    split; [congruence|].
    split; [cbn [flat_map]; rewrite !map_app; congruence|].
    intros call e Hin Hout. apply in_app_or in Hin as [Hin|Hin].
    + exists c. split; [now left|]. apply in_or_app. left. eauto.
    + destruct (R2 call e Hin Hout) as (c' & Hc' & Hr).
      exists c'. split; [now right|]. apply in_or_app. now right.
Qed.

(** The steps before the lookup write to [server_settings] and
    [spam_tracking] only. *)
Lemma db_at_lookup_keeps (m : Message) (w : World) :
  Database.connections (db_at_lookup cfg m w) = Database.connections (database w)
  /\ Database.message_history (db_at_lookup cfg m w)
     = Database.message_history (database w).
Proof.
  unfold db_at_lookup, tracked, db_after_settings, settings_of.
  unfold Database.get_server_settings, Database.create_server_settings.
  destruct (Database.find_settings (guild_id m) (database w)); cbn [fst snd];
    match goal with
    | |- context [if ?b then _ else _] => destruct b
    end;
    unfold Database.track_message_spam; cbn [fst];
    try match goal with
        | |- context [find ?p ?l] => destruct (find p l)
        end; split; reflexivity.
Qed.

(** The forward loop writes to [message_history] only. *)
Lemma forward_message_keeps (m : Message) (c : Database.connection_row)
      (w : World) :
  let d' := database (snd (_forward_message cfg P m c w)) in
  Database.connections d' = Database.connections (database w)
  /\ Database.spam_tracking d' = Database.spam_tracking (database w)
  /\ Database.server_settings d' = Database.server_settings (database w).
Proof.
  rewrite forward_message_spec.
  destruct (get_channel P (target_of m c)) as [t|]; [|now repeat split].
  destruct (negb (send_messages t)); [now repeat split|]. cbv zeta.
  destruct (channel_send P (tc_id t) (List.length (sends w)));
    [|now repeat split].
  destruct (content_hash_of m); [|now repeat split].
  unfold Database.log_message.
  destruct (existsb _ _); now repeat split.
Qed.

Lemma forward_all_keeps (m : Message) (cs : list Database.connection_row) :
  forall w : World,
    let d' := database (snd (forward_all cfg P m cs w)) in
    Database.connections d' = Database.connections (database w)
    /\ Database.spam_tracking d' = Database.spam_tracking (database w)
    /\ Database.server_settings d' = Database.server_settings (database w).
Proof.
  induction cs as [|c cs IH]; intro w; [now repeat split|].
  cbn [forward_all]. unfold bind.
  destruct (forward_message_summary m c w) as (w1 & ? & ? & E & _).
  pose proof (forward_message_keeps m c w) as K. rewrite E in *.
  cbn [snd] in K. cbv zeta in *.
  destruct K as (K1 & K2 & K3). destruct (IH w1) as (I1 & I2 & I3).
  repeat split; congruence.
Qed.

(** [on_message], with the monad run up to the forward loop. *)
Lemma on_message_spec (m : Message) (w : World) :
  on_message cfg P m w =
  if ignored cfg m then (Ok tt, w)
  else if negb (Database.enabled (settings_of m w))
  then (Ok tt, with_database w (db_after_settings m w))
  else
    let w2 := with_database w (db_at_lookup cfg m w) in
    if spam_blocked cfg m w then (Ok tt, w2)
    else
      match Database.get_connections_by_channel (channel_id m)
              (db_at_lookup cfg m w) with
      | [] => (Ok tt, w2)
      | c :: cs =>
          if content_rejected cfg m w then (Ok tt, w2)
          else forward_all cfg P m (c :: cs) w2
      end.
Proof.
  unfold on_message, ignored, content_rejected, spam_blocked, db_at_lookup,
    tracked, settings_of, db_after_settings, with_database.
  destruct (author_bot m || negb (is_default (type m))); [reflexivity|].
  cbn [orb].
  destruct (startswith (content m) (Config.PREFIX cfg)); [reflexivity|].
  run_m.
  destruct (Database.get_server_settings (clock w) (guild_id m) (database w))
    as [d1 st] eqn:G. cbn [fst snd].
  destruct (negb (Database.enabled st)); [reflexivity|].
  destruct (Database.spam_protection st); run_m;
    cbn [andb clock database sends logged].
  - destruct (Database.track_message_spam cfg (clock w) (author_id m)
                (guild_id m) (channel_id m) d1) as [d2 [n b]] eqn:T.
    cbn [fst snd]. destruct b; [reflexivity|]. proj.
    destruct (Database.get_connections_by_channel (channel_id m) d2);
      [reflexivity|].
    destruct (Database.profanity_filter st
              && ContentFilter.contains_profanity cfg (content m));
      [reflexivity|]. cbn [orb].
    destruct (ContentFilter.contains_blocked_links cfg (content m));
      reflexivity.
  - proj.
    destruct (Database.get_connections_by_channel (channel_id m) d1);
      [reflexivity|].
    destruct (Database.profanity_filter st
              && ContentFilter.contains_profanity cfg (content m));
      [reflexivity|]. cbn [orb].
    destruct (ContentFilter.contains_blocked_links cfg (content m));
      reflexivity.
Qed.

Lemma on_message_returns (m : Message) (w : World) :
  fst (on_message cfg P m w) = Ok tt.
Proof.
  rewrite on_message_spec.
  destruct (ignored cfg m); [reflexivity|].
  destruct (negb (Database.enabled (settings_of m w))); [reflexivity|].
  cbv zeta.
  destruct (spam_blocked cfg m w); [reflexivity|].
  destruct (Database.get_connections_by_channel _ _) as [|c cs];
    [reflexivity|].
  destruct (content_rejected cfg m w); [reflexivity|].
  destruct (forward_all_summary m (c :: cs)
              (with_database w (db_at_lookup cfg m w)))
    as (w' & calls & logs & E & _).
  now rewrite E.
Qed.

Lemma db_after_settings_keeps (m : Message) (w : World) :
  Database.connections (db_after_settings m w) = Database.connections (database w)
  /\ Database.message_history (db_after_settings m w)
     = Database.message_history (database w).
Proof.
  unfold db_after_settings, Database.get_server_settings,
    Database.create_server_settings.
  destruct (Database.find_settings (guild_id m) (database w)); now split.
Qed.

(** A message one of the two content checks rejects changes neither the
    send log, nor the records of the cog's logger, nor
    [message_history]. *)
Lemma on_message_rejected (m : Message) (w : World) :
  content_rejected cfg m w = true ->
  let r := on_message cfg P m w in
  fst r = Ok tt
  /\ sends (snd r) = sends w
  /\ logged (snd r) = logged w
  /\ Database.message_history (database (snd r))
     = Database.message_history (database w).
Proof.
  intro R. cbv zeta. rewrite on_message_spec, R.
  destruct (db_after_settings_keeps m w) as [_ H1].
  destruct (db_at_lookup_keeps m w) as [_ H2].
  destruct (ignored cfg m); [now repeat split|].
  destruct (negb (Database.enabled (settings_of m w))); [now repeat split|].
  cbv zeta.
  destruct (spam_blocked cfg m w); [now repeat split|].
  destruct (Database.get_connections_by_channel _ _); now repeat split.
Qed.

Lemma in_by_channel_exists (channel : Z) (d : Database.db)
      (c : Database.connection_row) :
  In c (Database.get_connections_by_channel channel d) ->
  existsb (fun r => Database.id r =? Database.id c) (Database.connections d)
  = true.
Proof.
  unfold Database.get_connections_by_channel. intro H.
  apply filter_In in H as [H _]. apply existsb_exists.
  exists c. split; auto. apply Z.eqb_refl.
Qed.

(** A message that passes every check, in a channel with one connection
    whose other end is reachable, when the send is delivered and the text
    can be encoded: one send call, one row of history. *)
Lemma on_message_delivers (m : Message) (w : World)
      (c : Database.connection_row) (t : TextChannel) (forwarded : Z)
      (hash : option string) :
  ignored cfg m = false ->
  Database.enabled (settings_of m w) = true ->
  spam_blocked cfg m w = false ->
  content_rejected cfg m w = false ->
  Database.get_connections_by_channel (channel_id m) (db_at_lookup cfg m w)
    = [c] ->
  get_channel P (target_of m c) = Some t ->
  send_messages t = true ->
  channel_send P (tc_id t) (List.length (sends w)) = Ok forwarded ->
  content_hash_of m = Ok hash ->
  let r := on_message cfg P m w in
  fst r = Ok tt
  /\ sends (snd r)
     = sends w ++ [mk_send (tc_id t) (embed_of m c) [] (Ok forwarded)]
  /\ Database.message_history (database (snd r))
     = Database.message_history (database w)
       ++ [Database.mk_message_history
             (Database.next_rowid
                (Database.message_history_seq (database w))
                (map Database.mh_id (Database.message_history (database w))))
             (message_id m) forwarded (author_id m) (Database.id c)
             (clock w) hash].
Proof.
  intros I E B R C G S D H. cbv zeta.
  rewrite on_message_spec, I, E, B, C, R. cbn [negb]. cbv zeta.
  cbn [forward_all]. unfold bind. rewrite forward_message_spec.
  unfold with_database at 1 2. proj. rewrite G, S. cbn [negb]. cbv zeta.
  unfold with_database. proj. rewrite D, H.
  assert (X : existsb (fun r => Database.id r =? Database.id c)
                      (Database.connections (db_at_lookup cfg m w)) = true).
  { apply (in_by_channel_exists (channel_id m)). rewrite C. now left. }
  unfold Database.log_message. rewrite X. unfold ret. proj.
  destruct (db_at_lookup_keeps m w) as [_ Hm].
  repeat split. simpl. rewrite Hm.
  assert (Q : Database.message_history_seq (db_at_lookup cfg m w)
              = Database.message_history_seq (database w)).
  { unfold db_at_lookup, tracked, db_after_settings, settings_of.
    unfold Database.get_server_settings, Database.create_server_settings.
    destruct (Database.find_settings (guild_id m) (database w)); cbn [fst snd];
      match goal with
      | |- context [if ?b then _ else _] => destruct b
      end;
      unfold Database.track_message_spam; cbn [fst];
      try match goal with
          | |- context [find ?p ?l] => destruct (find p l)
          end; reflexivity. }
  now rewrite Q.
Qed.

End Relay.

(** C6: an exception raised while a message is forwarded over one
    connection never leaves [on_message], and in the forward loop it is
    logged, not retried, and does not stop the loop: whatever the sends
    answer, the loop returns normally after exactly one send call for each
    connection whose other end the bot can see and write to, in the order
    of the connections, and every send call that raised has its record in
    the log. *)
Theorem forward_errors_contained (cfg : Config.t) (P : InterServer.Platform)
        (m : InterServer.Message) (w : InterServer.World) :
  fst (InterServer.on_message cfg P m w) = InterServer.Ok tt
  /\ forall cs : list Database.connection_row,
      exists w' calls logs,
        InterServer.forward_all cfg P m cs w = (InterServer.Ok tt, w')
        /\ InterServer.sends w' = InterServer.sends w ++ calls
        /\ InterServer.logged w' = InterServer.logged w ++ logs
        /\ map InterServer.to_channel calls
           = map InterServer.tc_id (flat_map (sendable P m) cs)
        /\ (forall call e,
              In call calls ->
              InterServer.outcome call = InterServer.Raise e ->
              exists c, In c cs
                        /\ In (record_of e (InterServer.target_of m c)) logs).
Proof.
  split; [apply on_message_returns|].
  intro cs.
  destruct (forward_all_summary cfg P m cs w)
    as (w' & calls & logs & E & S & L & _ & T & R).
  exists w', calls, logs. auto.
Qed.

(** C6 at work: the first of two sends is refused, the second is made and
    delivered, and the refusal is in the log. *)
Example forward_refused_then_delivered :
  let r := InterServer.on_message Config.default discord_refusing
             (post (cp "hello") []) (world_of two_connections_db 5) in
  fst r = InterServer.Ok tt
  /\ map InterServer.to_channel (InterServer.sends (snd r)) = [30; 20]
  /\ map InterServer.outcome (InterServer.sends (snd r))
     = [InterServer.Raise InterServer.Forbidden; InterServer.Ok 9001]
  /\ InterServer.logged (snd r) = [InterServer.WarnForbidden 30]
  /\ map Database.connection_id
         (Database.message_history (InterServer.database (snd r))) = [2].
Proof. vm_compute. repeat split. Qed.

Lemma forward_errors_contained_witness :
  fst (InterServer.on_message Config.default discord_refusing
         (post (cp "hello") []) (world_of two_connections_db 5))
  = InterServer.Ok tt.
Proof.
  exact (proj1 (forward_errors_contained Config.default discord_refusing
                  (post (cp "hello") []) (world_of two_connections_db 5))).
Defined.

(** C4, as the claim states it, fails: the relay consults the profanity
    check and the link check only.  On a server with every filter switched
    on, twelve times the letter a is a spam pattern for [filter_message],
    and the message is forwarded and logged all the same. *)
Lemma spam_pattern_is_forwarded :
  let m := post (cp "aaaaaaaaaaaa") [] in
  let w' := snd (InterServer.on_message Config.default discord m
                   (world_of registry_db 5)) in
  ContentFilter.filter_message Config.default (InterServer.content m)
                               true true true true
    = (false, [ContentFilter.SpamPattern])
  /\ map InterServer.to_channel (InterServer.sends w') = [20]
  /\ map InterServer.outcome (InterServer.sends w') = [InterServer.Ok 9000]
  /\ List.length (Database.message_history (InterServer.database w')) = 1%nat.
Proof. vm_compute. repeat split. Qed.

(** C4 (amended): a message is dropped when the link check finds a blocked
    link in it, or when the server has [profanity_filter] on and the
    profanity check finds a word of the list: [on_message] returns with no
    send call to any channel, so nothing is forwarded and the sender gets
    no notice, and with no row of history.  The other reasons of
    [filter_message] (spam pattern, mass mention, token) are not consulted
    by the relay. *)
Theorem rejected_content_is_dropped (cfg : Config.t)
        (P : InterServer.Platform) (m : InterServer.Message)
        (w : InterServer.World) :
  ContentFilter.contains_blocked_links cfg (InterServer.content m) = true
  \/ (Database.profanity_filter (settings_of m w) = true
      /\ ContentFilter.contains_profanity cfg (InterServer.content m) = true) ->
  let r := InterServer.on_message cfg P m w in
  fst r = InterServer.Ok tt
  /\ InterServer.sends (snd r) = InterServer.sends w
  /\ Database.message_history (InterServer.database (snd r))
     = Database.message_history (InterServer.database w).
Proof.
  intro H. cbv zeta.
  assert (R : content_rejected cfg m w = true).
  { unfold content_rejected. destruct H as [H | [H1 H2]].
    - rewrite H. apply orb_true_r.
    - now rewrite H1, H2. }
  destruct (on_message_rejected cfg P m w R) as (A & B & _ & C).
  repeat split; assumption.
Qed.

Lemma rejected_content_is_dropped_witness :
  let r := InterServer.on_message Config.default discord
             (post (cp "look at https://grabify.link/x1") [])
             (world_of registry_db 5) in
  fst r = InterServer.Ok tt
  /\ InterServer.sends (snd r) = []
  /\ Database.message_history (InterServer.database (snd r)) = [].
Proof.
  apply (rejected_content_is_dropped Config.default discord
           (post (cp "look at https://grabify.link/x1") [])
           (world_of registry_db 5)).
  left. vm_compute. reflexivity.
Defined.

(** C5, as the claim states it, fails: [url_pattern] asks for [http://] or
    [https://], so the text "bit.ly/abc" holds no URL for the link check,
    and in the end-to-end setup the message is sent to B and logged. *)
Lemma link_without_scheme_is_forwarded :
  let w' := snd (InterServer.on_message Config.default discord
                   (post (cp "bit.ly/abc") []) (world_of setup_db 5)) in
  ContentFilter.contains_blocked_links Config.default (cp "bit.ly/abc") = false
  /\ map InterServer.to_channel (InterServer.sends w') = [20]
  /\ map InterServer.outcome (InterServer.sends w') = [InterServer.Ok 9000]
  /\ List.length (Database.message_history (InterServer.database w')) = 1%nat.
Proof. vm_compute. repeat split. Qed.

(** C5 (amended): with the default configuration, a message whose content
    is "http://bit.ly/abc" adds no send call and no row of history,
    whatever the state; so none at all in the end-to-end setup. *)
Theorem blocked_link_is_dropped (P : InterServer.Platform)
        (m : InterServer.Message) (w : InterServer.World) :
  InterServer.content m = cp "http://bit.ly/abc" ->
  let w' := snd (InterServer.on_message Config.default P m w) in
  InterServer.sends w' = InterServer.sends w
  /\ Database.message_history (InterServer.database w')
     = Database.message_history (InterServer.database w).
Proof.
  intro H. cbv zeta.
  destruct (on_message_rejected Config.default P m w) as (_ & S & _ & D).
  - unfold content_rejected. rewrite H.
    replace (ContentFilter.contains_blocked_links Config.default
               (cp "http://bit.ly/abc")) with true by (vm_compute; reflexivity).
    apply orb_true_r.
  - split; assumption.
Qed.

Lemma blocked_link_is_dropped_witness :
  let w' := snd (InterServer.on_message Config.default discord
                   (post (cp "http://bit.ly/abc") []) (world_of setup_db 5)) in
  InterServer.sends w' = []
  /\ Database.message_history (InterServer.database w') = [].
Proof.
  apply (blocked_link_is_dropped discord (post (cp "http://bit.ly/abc") [])
                                 (world_of setup_db 5)).
  reflexivity.
Defined.

(** C1: a message with the text "hi" and one attachment of 100 bytes, that
    passes every check of [on_message], posted at one end of the one
    active connection of its channel: when the bot can see the channel at
    the other end and write to it, and the send is delivered, the relay
    has made exactly one send call, to the channel at the other end of
    the connection, carrying the text, and has written exactly one row of
    history, with the MD5 digest of "hi" as its content hash.  This holds
    in both directions: from the channel the connection was created in
    and from the channel it was created towards. *)
Theorem hi_with_attachment_forwarded_once
        (cfg : Config.t) (P : InterServer.Platform) (w : InterServer.World)
        (m : InterServer.Message) (a : InterServer.Attachment)
        (c : Database.connection_row) (t : InterServer.TextChannel)
        (there forwarded : Z) :
  InterServer.content m = cp "hi" ->
  InterServer.attachments m = [a] ->
  InterServer.size a = 100 ->
  ignored cfg m = false ->
  Database.enabled (settings_of m w) = true ->
  spam_blocked cfg m w = false ->
  content_rejected cfg m w = false ->
  Database.get_connections_by_channel (InterServer.channel_id m)
                                      (db_at_lookup cfg m w) = [c] ->
  (Database.channel1_id c = InterServer.channel_id m
   /\ Database.channel2_id c = there)
  \/ (Database.channel1_id c = there
      /\ Database.channel2_id c = InterServer.channel_id m) ->
  InterServer.get_channel P there = Some t ->
  InterServer.tc_id t = there ->
  InterServer.send_messages t = true ->
  InterServer.channel_send P there (List.length (InterServer.sends w))
    = InterServer.Ok forwarded ->
  let w' := snd (InterServer.on_message cfg P m w) in
  (exists call,
      InterServer.sends w' = InterServer.sends w ++ [call]
      /\ InterServer.to_channel call = there
      /\ InterServer.embed_description (InterServer.sent_embed call) = cp "hi"
      /\ InterServer.outcome call = InterServer.Ok forwarded)
  /\ (exists row,
        Database.message_history (InterServer.database w')
          = Database.message_history (InterServer.database w) ++ [row]
        /\ Database.original_message_id row = InterServer.message_id m
        /\ Database.forwarded_message_id row = forwarded
        /\ Database.connection_id row = Database.id c
        /\ Database.content_hash row
           = Some "49f68a5c8493ec2c0bf489821c21fc3b"%string).
Proof.
  intros Hc Ha Hs I E B R C Ends G T S D. cbv zeta.
  assert (H : content_hash_of m
              = InterServer.Ok (Some "49f68a5c8493ec2c0bf489821c21fc3b"%string)).
  { unfold content_hash_of. rewrite Hc. vm_compute. reflexivity. }
  assert (Far : InterServer.target_of m c = there).
  { unfold InterServer.target_of. destruct Ends as [[E1 E2] | [E1 E2]].
    - rewrite E1, Z.eqb_refl. exact E2.
    - destruct (Database.channel1_id c =? InterServer.channel_id m) eqn:Q.
      + apply Z.eqb_eq in Q. congruence.
      + exact E1. }
  rewrite <- Far in G. rewrite <- T in D.
  destruct (on_message_delivers cfg P m w c t forwarded _ I E B R C G S D H)
    as (_ & Hsends & Hhist).
  split.
  - eexists. split; [exact Hsends|]. cbn.
    rewrite Hc. repeat split. exact T.
  - eexists. split; [exact Hhist|]. repeat split.
Qed.

(** C1 for a message posted in channel B, the channel the connection was
    created towards: the message goes to channel A. *)
Lemma hi_with_attachment_witness :
  let m := reply (cp "hi") [InterServer.mk_attachment (cp "cat.png") 100
                              (cp "https://cdn.example/cat.png")] in
  let w' := snd (InterServer.on_message Config.default discord_both m
                   (world_of registry_db 5)) in
  (exists call,
      InterServer.sends w' = [] ++ [call]
      /\ InterServer.to_channel call = 10
      /\ InterServer.embed_description (InterServer.sent_embed call) = cp "hi"
      /\ InterServer.outcome call = InterServer.Ok 9000)
  /\ (exists row,
        Database.message_history (InterServer.database w') = [] ++ [row]
        /\ Database.original_message_id row = 501
        /\ Database.forwarded_message_id row = 9000
        /\ Database.connection_id row = 1
        /\ Database.content_hash row
           = Some "49f68a5c8493ec2c0bf489821c21fc3b"%string).
Proof.
  apply (hi_with_attachment_forwarded_once Config.default discord_both
           (world_of registry_db 5)
           (reply (cp "hi") [InterServer.mk_attachment (cp "cat.png") 100
                               (cp "https://cdn.example/cat.png")])
           (InterServer.mk_attachment (cp "cat.png") 100
                                      (cp "https://cdn.example/cat.png"))
           (Database.mk_connection 1 1 10 2 20 (cp "bridge") 0 7 true
              (Some (InterServer.connection_description
                       (InterServer.mk_context 1 (cp "one") 10 7 true)
                       channel_B)))
           channel_A 10 9000);
    try (right; split); vm_compute; reflexivity.
Defined.

(** The other direction: the same message posted in channel A goes to
    channel B, and posted in B it goes to A and not back to B. *)
Example hi_goes_to_the_other_end :
  let file := InterServer.mk_attachment (cp "cat.png") 100
                (cp "https://cdn.example/cat.png") in
  let from_A := snd (InterServer.on_message Config.default discord_both
                       (post (cp "hi") [file]) (world_of registry_db 5)) in
  let from_B := snd (InterServer.on_message Config.default discord_both
                       (reply (cp "hi") [file]) (world_of registry_db 5)) in
  map InterServer.to_channel (InterServer.sends from_A) = [20]
  /\ map InterServer.to_channel (InterServer.sends from_B) = [10]
  /\ map Database.connection_id
         (Database.message_history (InterServer.database from_A)) = [1]
  /\ map Database.connection_id
         (Database.message_history (InterServer.database from_B)) = [1].
Proof. vm_compute. repeat split. Qed.

(** The forwarded message of C1 carries no file: [io] is not among the
    names interserver.py imports, so building the file raises [NameError]
    inside the inner [try], which logs a warning and goes on. *)
Example attachment_is_not_forwarded :
  let m := post (cp "hi") [InterServer.mk_attachment (cp "cat.png") 100
                             (cp "https://cdn.example/cat.png")] in
  let w' := snd (InterServer.on_message Config.default discord m
                   (world_of registry_db 5)) in
  map InterServer.sent_files (InterServer.sends w') = [[]]
  /\ InterServer.logged w'
     = [InterServer.WarnFileUnreadable (cp "cat.png")
          (InterServer.NameError "io")].
Proof. vm_compute. split; reflexivity. Qed.

(** C10: a message [on_message] does not ignore, on a server that is
    enabled and has [spam_protection] on, is counted by
    [track_message_spam] before the connections of its channel are looked
    up: the final [spam_tracking] is the one the tracker leaves, whatever
    the lookup finds, and when it finds no connection that is the only
    change.  So posting in a channel no connection leads to still counts:
    with the default threshold, five such messages in five seconds leave
    the user blocked there. *)
Theorem spam_counted_before_lookup :
  (forall (cfg : Config.t) (P : InterServer.Platform)
          (m : InterServer.Message) (w : InterServer.World),
      ignored cfg m = false ->
      Database.enabled (settings_of m w) = true ->
      Database.spam_protection (settings_of m w) = true ->
      let w' := snd (InterServer.on_message cfg P m w) in
      Database.spam_tracking (InterServer.database w')
        = Database.spam_tracking (fst (tracked cfg m w))
      /\ (Database.get_connections_by_channel (InterServer.channel_id m)
            (fst (tracked cfg m w)) = [] ->
          w' = with_database w (fst (tracked cfg m w))))
  /\ (let w5 := post_all Config.default discord
                  [(0, lonely_post); (1, lonely_post); (2, lonely_post);
                   (3, lonely_post); (4, lonely_post)]
                  (world_of Database.init_db 0) in
      Database.connections (InterServer.database w5) = []
      /\ InterServer.sends w5 = []
      /\ map (fun r => (Database.message_count r, Database.is_blocked r))
             (Database.spam_tracking (InterServer.database w5)) = [(5, true)]
      /\ Database.is_user_spam_blocked Config.default 4 42 3 77
           (InterServer.database w5) = true).
Proof.
  split.
  - intros cfg P m w I E S. cbv zeta. rewrite on_message_spec, I, E.
    cbn [negb]. cbv zeta.
    assert (L : db_at_lookup cfg m w = fst (tracked cfg m w))
      by (unfold db_at_lookup; now rewrite S).
    rewrite L.
    destruct (spam_blocked cfg m w); [split; reflexivity|].
    destruct (Database.get_connections_by_channel _ _) as [|c cs] eqn:C;
      [split; reflexivity|].
    destruct (content_rejected cfg m w); [split; [reflexivity|discriminate]|].
    split; [|discriminate].
    destruct (forward_all_keeps cfg P m (c :: cs)
                (with_database w (fst (tracked cfg m w)))) as (_ & K & _).
    exact K.
  - vm_compute. repeat split.
Qed.

Lemma spam_counted_before_lookup_witness :
  let w' := snd (InterServer.on_message Config.default discord lonely_post
                   (world_of Database.init_db 0)) in
  map (fun r => (Database.user_id r, Database.st_channel_id r,
                 Database.message_count r))
      (Database.spam_tracking (InterServer.database w')) = [(42, 77, 1)].
Proof.
  cbv zeta.
  rewrite (proj1 (proj1 spam_counted_before_lookup Config.default discord
                    lonely_post (world_of Database.init_db 0)
                    eq_refl eq_refl eq_refl)).
  reflexivity.
Defined.

(* ================================================================= *)
(** * Properties of the Content Filter                                 *)
(* ================================================================= *)

(** The examples of the specification. *)
Example classify_repeated_character :
  ContentFilter.filter_message Config.default (cp "aaaaaaaaaaaa")
                               true true true true
  = (false, [ContentFilter.SpamPattern]).
Proof. vm_compute. reflexivity. Qed.

Example classify_blocked_link :
  ContentFilter.filter_message Config.default (cp "check http://bit.ly/x")
                               true true true true
  = (false, [ContentFilter.SuspiciousLinks]).
Proof. vm_compute. reflexivity. Qed.

Example classify_hello_world :
  ContentFilter.filter_message Config.default (cp "hello world")
                               true true true true
  = (true, []).
Proof. vm_compute. reflexivity. Qed.

(** C8, as the claim states it, fails: the mass-mention check has no flag,
    and with every flag off a text with three mentions is still refused. *)
Lemma mass_mentions_cannot_be_switched_off :
  ContentFilter.filter_message Config.default
    (cp "@everyone @everyone @everyone") false false false false
  = (false, [ContentFilter.MassMentions]).
Proof. vm_compute. reflexivity. Qed.

(** C8 (amended): [filter_message] reports profanity, links, spam patterns
    and tokens exactly when the flag of the check is on and the check
    finds something, and mass mentions whenever that check finds three of
    them, whatever the flags; the text is allowed exactly when no reason is
    reported.  With every flag off, a text is allowed exactly when it has
    fewer than three mentions. *)
Theorem filter_message_flags (cfg : Config.t) (s : text)
        (check_profanity check_links check_spam check_tokens : bool) :
  let r := ContentFilter.filter_message cfg s check_profanity check_links
                                         check_spam check_tokens in
  (In ContentFilter.Profanity (snd r) <->
     check_profanity = true /\ ContentFilter.contains_profanity cfg s = true)
  /\ (In ContentFilter.SuspiciousLinks (snd r) <->
       check_links = true /\ ContentFilter.contains_blocked_links cfg s = true)
  /\ (In ContentFilter.SpamPattern (snd r) <->
       check_spam = true /\ ContentFilter.is_spam_pattern s = true)
  /\ (In ContentFilter.MassMentions (snd r) <->
       ContentFilter.contains_mass_mentions s 3 = true)
  /\ (In ContentFilter.DiscordToken (snd r) <->
       check_tokens = true /\ ContentFilter.contains_discord_token s = true)
  /\ (fst r = true <-> snd r = [])
  /\ ContentFilter.filter_message cfg s false false false false
     = (negb (ContentFilter.contains_mass_mentions s 3),
        if ContentFilter.contains_mass_mentions s 3
        then [ContentFilter.MassMentions] else []).
Proof.
  cbv zeta. unfold ContentFilter.filter_message.
  destruct s as [|c s'].
  - destruct check_profanity, check_links, check_spam, check_tokens;
      vm_compute; intuition discriminate.
  - cbn [ContentFilter.nonempty negb].
    destruct (ContentFilter.contains_profanity cfg (c :: s')),
      (ContentFilter.contains_blocked_links cfg (c :: s')),
      (ContentFilter.is_spam_pattern (c :: s')),
      (ContentFilter.contains_mass_mentions (c :: s') 3),
      (ContentFilter.contains_discord_token (c :: s'));
      destruct check_profanity, check_links, check_spam, check_tokens;
      cbn; intuition discriminate.
Qed.

(* ================================================================= *)
(** * Further properties of database.py                                *)
(* ================================================================= *)

Section DatabaseFacts.
Import Database.

Lemma fold_max_ge_init (ids : list Z) : forall seq, seq <= fold_left Z.max ids seq.
Proof.
  induction ids as [|i ids IH]; intro seq; simpl; [lia|].
  specialize (IH (Z.max seq i)). lia.
Qed.

Lemma fold_max_ge_all (ids : list Z) :
  forall seq, Forall (fun i => i <= fold_left Z.max ids seq) ids.
Proof.
  induction ids as [|i ids IH]; intro seq; simpl; constructor.
  - pose proof (fold_max_ge_init ids (Z.max seq i)). lia.
  - apply IH.
Qed.

Lemma next_rowid_fresh (seq : Z) (ids : list Z) :
  Forall (fun i => i < next_rowid seq ids) ids.
Proof.
  unfold next_rowid.
  apply Forall_impl with (P := fun i => i <= fold_left Z.max ids seq);
    [|apply fold_max_ge_all].
  simpl. intros. lia.
Qed.

Lemma find_none_all {A} (p : A -> bool) (l : list A) :
  Forall (fun x => p x = false) l -> find p l = None.
Proof.
  induction 1 as [|x l H _ IH]; simpl; auto. now rewrite H.
Qed.

Lemma find_app_last {A} (p : A -> bool) (l : list A) (x : A) :
  find p (l ++ [x]) =
  match find p l with Some y => Some y | None => if p x then Some x else None end.
Proof.
  induction l as [|y l IH]; simpl; auto. destruct (p y); auto.
Qed.

Lemma ids_below_no_hit (l : list connection_row) (i : Z) :
  Forall (fun r => id r < i) l ->
  Forall (fun r => ((id r =? i) && is_active r) = false) l.
Proof.
  intro H. eapply Forall_impl; [|exact H]. simpl. intros r L.
  replace (id r =? i) with false; auto. symmetry. apply Z.eqb_neq. lia.
Qed.

Lemma forall_ids (l : list connection_row) (P : Z -> Prop) :
  Forall P (map id l) -> Forall (fun r => P (id r)) l.
Proof.
  induction l as [|r l IH]; simpl; intro H; constructor;
    inversion H; subst; auto.
Qed.

End DatabaseFacts.

(** X1: [create_connection] followed by [get_connection_by_id] on the id
    it returned gives back the row just written, active, with the fields
    of the call; the id is larger than every id of the table, the lookup
    of any other id is unchanged, and the row is found from both of its
    channels. *)
Theorem create_connection_then_lookup
        (now server1 channel1 server2 channel2 : Z) (name : text)
        (creator : Z) (descr : option text) (d : Database.db) :
  let r := Database.create_connection now server1 channel1 server2 channel2
             name creator descr d in
  let row := Database.mk_connection (snd r) server1 channel1 server2 channel2
               name now creator true descr in
  Database.get_connection_by_id (snd r) (fst r) = Some row
  /\ Forall (fun old => Database.id old < snd r) (Database.connections d)
  /\ (forall i, i <> snd r ->
        Database.get_connection_by_id i (fst r)
        = Database.get_connection_by_id i d)
  /\ In row (Database.get_connections_by_channel channel1 (fst r))
  /\ In row (Database.get_connections_by_channel channel2 (fst r)).
Proof.
  cbv zeta. unfold Database.create_connection, Database.get_connection_by_id,
    Database.get_connections_by_channel. cbn [fst snd]. simpl.
  set (rowid := Database.next_rowid _ _).
  assert (F : Forall (fun old => Database.id old < rowid)
                     (Database.connections d)).
  { apply (forall_ids _ (fun i => i < rowid)). apply next_rowid_fresh. }
  repeat split.
  - rewrite find_app_last, find_none_all by (now apply ids_below_no_hit).
    simpl. now rewrite Z.eqb_refl.
  - exact F.
  - intros i Hi. rewrite find_app_last.
    destruct (find _ (Database.connections d)); auto.
    simpl. apply Z.eqb_neq in Hi. rewrite Z.eqb_sym in Hi. now rewrite Hi.
  - rewrite filter_app. apply in_or_app. right. simpl.
    rewrite Z.eqb_refl. simpl. now left.
  - rewrite filter_app. apply in_or_app. right. simpl.
    rewrite Z.eqb_refl, orb_true_r. simpl. now left.
Qed.

Section KeysFacts.
Import Database.

Lemma map_id_deactivate_if (p : connection_row -> bool) (l : list connection_row) :
  map id (map (fun r => if p r then deactivate r else r) l) = map id l.
Proof.
  rewrite map_map. apply map_ext. intro r. now destruct (p r).
Qed.

Lemma sorted_app_fresh (ids : list Z) (i : Z) :
  StronglySorted Z.lt ids -> Forall (fun j => j < i) ids ->
  StronglySorted Z.lt (ids ++ [i]).
Proof.
  induction 1 as [|j ids S IH F]; intro B; simpl.
  - repeat constructor.
  - inversion B; subst. constructor; auto.
    apply Forall_app. split; auto.
Qed.

Lemma sorted_nodup (ids : list Z) : StronglySorted Z.lt ids -> NoDup ids.
Proof.
  induction 1 as [|j ids S IH F]; constructor; auto.
  intro H. rewrite Forall_forall in F. specialize (F j H). lia.
Qed.

Lemma find_settings_none (server : Z) (d : db) :
  find_settings server d = None ->
  ~ In server (map server_id (server_settings d)).
Proof.
  unfold find_settings. intros H Hin. apply in_map_iff in Hin as (r & E & Hr).
  apply (find_none _ _ H) in Hr. simpl in Hr. subst.
  now rewrite Z.eqb_refl in Hr.
Qed.

Lemma nodup_app_fresh (l : list Z) (x : Z) :
  NoDup l -> ~ In x l -> NoDup (l ++ [x]).
Proof.
  intros N H. apply NoDup_app; auto.
  - repeat constructor. intros [].
  - intros y Hy [<-|[]]. contradiction.
Qed.

Lemma map_server_id_update (now server : Z) (s : setting)
      (l : list server_settings_row) :
  map server_id
      (map (fun r => if server_id r =? server then apply_setting now s r else r) l)
  = map server_id l.
Proof.
  rewrite map_map. apply map_ext. intro r.
  destruct (server_id r =? server); auto. now destruct s.
Qed.

Lemma map_st_id_update (f : spam_tracking_row -> spam_tracking_row)
      (p : spam_tracking_row -> bool) (l : list spam_tracking_row) :
  (forall r, st_id (f r) = st_id r) ->
  map st_id (map (fun r => if p r then f r else r) l) = map st_id l.
Proof.
  intro H. rewrite map_map. apply map_ext. intro r. destruct (p r); auto.
Qed.

Lemma sorted_filter_ids {A} (key : A -> Z) (p : A -> bool) (l : list A) :
  StronglySorted Z.lt (map key l) -> StronglySorted Z.lt (map key (filter p l)).
Proof.
  induction l as [|x l IH]; simpl; auto. intro S. inversion S; subst.
  destruct (p x); simpl; auto. constructor; auto.
  apply Forall_forall. intros y Hy. rewrite Forall_forall in H2. apply H2.
  apply in_map_iff in Hy as (z & <- & Hz). apply in_map.
  apply filter_In in Hz. tauto.
Qed.

Lemma run_keeps_keys (cfg : Config.t) (now : Z) (o : op) (d : db) :
  keys_sorted d -> keys_sorted (run cfg now o d).
Proof.
  intros (C & M & T & S). destruct o; simpl.
  - unfold keys_sorted. simpl. repeat split; auto.
    rewrite map_app. simpl. apply sorted_app_fresh; auto.
    apply next_rowid_fresh.
  - unfold keys_sorted. simpl. rewrite map_id_deactivate_if. auto.
  - unfold log_message. destruct (existsb _ _); [|now repeat split].
    unfold keys_sorted. simpl. repeat split; auto.
    rewrite map_app. simpl. apply sorted_app_fresh; auto.
    apply next_rowid_fresh.
  - unfold create_server_settings.
    destruct (find_settings server d) eqn:F; [now repeat split|].
    unfold keys_sorted. simpl. repeat split; auto.
    rewrite map_app. simpl. apply nodup_app_fresh; auto.
    now apply find_settings_none.
  - unfold get_server_settings, create_server_settings.
    destruct (find_settings server d) eqn:F; [now repeat split|].
    unfold keys_sorted. simpl. repeat split; auto.
    rewrite map_app. simpl. apply nodup_app_fresh; auto.
    now apply find_settings_none.
  - unfold keys_sorted. simpl. rewrite map_server_id_update. auto.
  - unfold track_message_spam. cbn [fst].
    destruct (find _ (spam_tracking d)); unfold keys_sorted; simpl;
      repeat split; auto.
    + rewrite map_st_id_update; auto.
    + rewrite map_app. simpl. apply sorted_app_fresh; auto.
      apply next_rowid_fresh.
  - unfold keys_sorted. simpl. rewrite map_id_deactivate_if. auto.
  - unfold keys_sorted. simpl. repeat split; auto.
    now apply sorted_filter_ids.
Qed.

Lemma run_all_keeps_keys (cfg : Config.t) (ops : list (Z * op)) :
  forall d, keys_sorted d -> keys_sorted (run_all cfg ops d).
Proof.
  induction ops as [|[now o] ops IH]; intros d K; simpl; auto.
  apply IH. now apply run_keeps_keys.
Qed.

End KeysFacts.

(** X2: the keys of the four tables stay unique.  In every state that the
    writing methods of [Database] reach from the empty database, in any
    order and at any times, no two rows of [connections],
    [message_history] or [spam_tracking] share an id, the ids of
    [connections] grow in the order of insertion, and no server has two
    rows of [server_settings]. *)
Theorem primary_keys_stay_unique (cfg : Config.t) (ops : list (Z * Database.op)) :
  let d := run_all cfg ops Database.init_db in
  NoDup (map Database.id (Database.connections d))
  /\ StronglySorted Z.lt (map Database.id (Database.connections d))
  /\ NoDup (map Database.mh_id (Database.message_history d))
  /\ NoDup (map Database.st_id (Database.spam_tracking d))
  /\ NoDup (map Database.server_id (Database.server_settings d)).
Proof.
  cbv zeta.
  destruct (run_all_keeps_keys cfg ops Database.init_db) as (C & M & T & S).
  { repeat split; simpl; constructor. }
  repeat split; auto using sorted_nodup.
Qed.

Section GuildRemoval.
Import Database.

Variable server : Z.

Let cut := fun r => if (server1_id r =? server) || (server2_id r =? server)
                    then deactivate r else r.

Lemma cut_count (l : list connection_row) :
  filter (fun r => ((server1_id r =? server) || (server2_id r =? server))
                   && is_active r) (map cut l) = [].
Proof.
  induction l as [|r l IH]; simpl; auto. unfold cut at 1 2 3.
  destruct ((server1_id r =? server) || (server2_id r =? server)) eqn:E;
    simpl; rewrite E; simpl; exact IH.
Qed.

Lemma cut_by_channel (channel : Z) (l : list connection_row) :
  Forall (fun r => touches server r = false)
    (filter (fun r => ((channel1_id r =? channel) || (channel2_id r =? channel))
                      && is_active r) (map cut l)).
Proof.
  induction l as [|r l IH]; simpl; [constructor|]. unfold cut at 1 2 3 4.
  destruct ((server1_id r =? server) || (server2_id r =? server)) eqn:E; simpl.
  - rewrite andb_false_r. exact IH.
  - destruct (_ && is_active r); auto.
Qed.

Lemma cut_others (channel : Z) (l : list connection_row) :
  filter (fun r => negb (touches server r))
    (filter (fun r => ((channel1_id r =? channel) || (channel2_id r =? channel))
                      && is_active r) (map cut l))
  = filter (fun r => negb (touches server r))
      (filter (fun r => ((channel1_id r =? channel) || (channel2_id r =? channel))
                        && is_active r) l).
Proof.
  induction l as [|r l IH]; simpl; auto. unfold cut at 1 2 3 4.
  destruct ((server1_id r =? server) || (server2_id r =? server)) eqn:E; simpl.
  - rewrite andb_false_r.
    destruct (_ && is_active r); simpl; auto.
    unfold touches at 2. now rewrite E.
  - destruct (_ && is_active r); simpl; auto. now rewrite IH.
Qed.

Lemma cut_twice (l : list connection_row) : map cut (map cut l) = map cut l.
Proof.
  rewrite map_map. apply map_ext. intro r. unfold cut.
  destruct ((server1_id r =? server) || (server2_id r =? server)) eqn:E;
    simpl; rewrite E; reflexivity.
Qed.

End GuildRemoval.

(** X3: when the bot is removed from a guild, [on_guild_remove] leaves
    the guild without any active connection: its count is 0 and no lookup
    by channel returns a connection with the guild at either end.  The
    connections between other guilds are returned as before, and a second
    removal changes nothing. *)
Theorem guild_removal_cuts_every_connection (guild : Z) (d : Database.db) :
  let d' := Bot.on_guild_remove guild d in
  Database.get_server_connection_count guild d' = 0
  /\ (forall channel,
        Forall (fun r => touches guild r = false)
               (Database.get_connections_by_channel channel d'))
  /\ (forall channel,
        filter (fun r => negb (touches guild r))
               (Database.get_connections_by_channel channel d')
        = filter (fun r => negb (touches guild r))
                 (Database.get_connections_by_channel channel d))
  /\ Bot.on_guild_remove guild d' = d'.
Proof.
  cbv zeta. unfold Bot.on_guild_remove, Database.deactivate_server_connections,
    Database.get_server_connection_count, Database.get_connections_by_channel.
  simpl. repeat split.
  - now rewrite cut_count.
  - intro channel. apply cut_by_channel.
  - intro channel. apply cut_others.
  - unfold Database.set_connections. simpl. f_equal. apply cut_twice.
Qed.

Section SettingsFacts.
Import Database.

Lemma find_settings_server (server : Z) (d : db) (r : server_settings_row) :
  find_settings server d = Some r -> server_id r = server.
Proof.
  unfold find_settings. intro H. apply find_some in H as [_ H].
  now apply Z.eqb_eq.
Qed.

Lemma find_settings_created (now server : Z) (d : db) :
  find_settings server d = None ->
  find_settings server (create_server_settings now server d)
  = Some (default_settings now server).
Proof.
  intro H. unfold create_server_settings. rewrite H.
  unfold find_settings in *. simpl. rewrite find_app_last, H. simpl.
  now rewrite Z.eqb_refl.
Qed.

Lemma find_settings_update_same (now server : Z) (s : setting)
      (l : list server_settings_row) :
  find (fun r => server_id r =? server)
       (map (fun r => if server_id r =? server then apply_setting now s r else r) l)
  = option_map (apply_setting now s) (find (fun r => server_id r =? server) l).
Proof.
  induction l as [|r l IH]; simpl; auto.
  destruct (server_id r =? server) eqn:E.
  - replace (server_id (apply_setting now s r)) with (server_id r)
      by (now destruct s).
    now rewrite E.
  - now rewrite E.
Qed.

Lemma find_settings_update_other (now server other : Z) (s : setting)
      (l : list server_settings_row) :
  other <> server ->
  find (fun r => server_id r =? other)
       (map (fun r => if server_id r =? server then apply_setting now s r else r) l)
  = find (fun r => server_id r =? other) l.
Proof.
  intro N. induction l as [|r l IH]; simpl; auto.
  destruct (server_id r =? server) eqn:E.
  - replace (server_id (apply_setting now s r)) with (server_id r)
      by (now destruct s).
    apply Z.eqb_eq in E. replace (server_id r =? other) with false; auto.
    symmetry. apply Z.eqb_neq. congruence.
  - destruct (server_id r =? other); auto.
Qed.

Lemma update_server_setting_lookup (now server : Z) (s : setting) (d : db) :
  find_settings server (update_server_setting now server s d)
  = option_map (apply_setting now s) (find_settings server d).
Proof.
  unfold find_settings, update_server_setting. simpl.
  apply find_settings_update_same.
Qed.

Lemma update_without_row (now server : Z) (s : setting)
      (l : list server_settings_row) :
  find (fun r => server_id r =? server) l = None ->
  map (fun r => if server_id r =? server then apply_setting now s r else r) l = l.
Proof.
  induction l as [|r l IH]; simpl; auto.
  destruct (server_id r =? server); [discriminate|].
  intro H. now rewrite IH.
Qed.

End SettingsFacts.

(** X4: [get_server_settings] creates the row of a server on the first
    call and only then: the row it returns is the row of that server, a
    second call returns the same row and leaves the database as it is, a
    call for a server that has a row writes nothing, and the row created
    for a server without one has the defaults (enabled, spam protection
    and profanity filter on, the rest off). *)
Theorem get_server_settings_creates_once (now later server : Z)
        (d : Database.db) :
  let first := Database.get_server_settings now server d in
  let second := Database.get_server_settings later server (fst first) in
  Database.server_id (snd first) = server
  /\ second = first
  /\ match Database.find_settings server d with
     | Some row => first = (d, row)
     | None =>
         snd first = Database.mk_server_settings server (cp "!") true None None
                       true true false false now now
         /\ Database.server_settings (fst first)
            = Database.server_settings d ++ [snd first]
     end.
Proof.
  cbv zeta. unfold Database.get_server_settings.
  destruct (Database.find_settings server d) as [row|] eqn:F.
  - cbn [fst snd]. rewrite F. repeat split.
    now apply find_settings_server in F.
  - cbn [fst snd]. rewrite (find_settings_created now server d F).
    repeat split. unfold Database.create_server_settings. now rewrite F.
Qed.

(** X5: [update_server_setting] followed by [get_server_settings] gives
    the row of the server with the setting changed and [updated_at] set,
    when the server has a row; the rows of other servers are as before.
    When the server has no row the UPDATE writes nothing: the value is
    lost, and the next [get_server_settings] returns the defaults. *)
Theorem update_server_setting_then_get (now later server : Z)
        (s : Database.setting) (d : Database.db) :
  let d' := Database.update_server_setting now server s d in
  match Database.find_settings server d with
  | Some row =>
      Database.get_server_settings later server d'
      = (d', Database.apply_setting now s row)
  | None =>
      d' = d
      /\ snd (Database.get_server_settings later server d')
         = Database.default_settings later server
  end
  /\ (forall other, other <> server ->
        Database.find_settings other d' = Database.find_settings other d).
Proof.
  cbv zeta. split.
  - destruct (Database.find_settings server d) as [row|] eqn:F.
    + unfold Database.get_server_settings, Database.find_settings,
        Database.update_server_setting in *. simpl.
      now rewrite find_settings_update_same, F.
    + unfold Database.update_server_setting, Database.find_settings in *.
      rewrite (update_without_row _ _ _ _ F).
      assert (E : Database.set_server_settings d (Database.server_settings d) = d)
        by (now destruct d).
      rewrite E. split; auto.
      unfold Database.get_server_settings, Database.find_settings.
      now rewrite F.
  - intros other N. unfold Database.find_settings, Database.update_server_setting.
    simpl. now apply find_settings_update_other.
Qed.

Section TrackerFacts.
Import Database.

Variable cfg : Config.t.

Lemma track_at_counting (user server channel : Z) (times : list Z) :
  forall (d : db) (old : list spam_tracking_row) (i n f last : Z) (b : bool),
    spam_tracking d = old ++ [mk_spam_tracking i user server channel n f last b] ->
    key_free user server channel old = true ->
    chained (Config.SPAM_TIME_WINDOW cfg) last times ->
    snd (track_at cfg user server channel times d)
    = counting (Config.SPAM_THRESHOLD cfg) (n + 1) (List.length times).
Proof.
  induction times as [|t times IH]; intros d old i n f last b E K C;
    [reflexivity|].
  destruct C as [L C]. cbn [track_at]. cbv zeta.
  rewrite (track_live cfg user server channel t d old i n f last b E K L).
  cbn [fst snd List.length counting]. f_equal.
  eapply IH; [reflexivity | exact K | exact C].
Qed.

Lemma find_filter {A} (p q : A -> bool) (l : list A) :
  find q (filter p l) = find (fun r => p r && q r) l.
Proof.
  induction l as [|x l IH]; simpl; auto.
  destruct (p x); simpl; auto. destruct (q x); auto.
Qed.

Lemma head_filter {A} (p : A -> bool) (l : list A) :
  find p l = match filter p l with x :: _ => Some x | [] => None end.
Proof.
  induction l as [|x l IH]; simpl; auto. destruct (p x); auto.
Qed.

Lemma find_key_updated (p : spam_tracking_row -> bool)
      (f : spam_tracking_row -> spam_tracking_row) (l : list spam_tracking_row) :
  (forall r, p (f r) = p r) ->
  find p (map (fun r => if p r then f r else r) l) = option_map f (find p l).
Proof.
  intro H. induction l as [|r l IH]; simpl; auto.
  destruct (p r) eqn:E; [now rewrite H, E | now rewrite E].
Qed.

(** [track_message_spam] reads the rows of its key only. *)
Lemma track_returns_track_result (now user server channel : Z) (d : db) :
  snd (track_message_spam cfg now user server channel d)
  = track_result cfg now (filter (same_key user server channel) (spam_tracking d)).
Proof.
  unfold track_message_spam, track_result. rewrite find_filter.
  destruct (find _ (spam_tracking d)) as [row|] eqn:F; cbn [snd].
  - cbn [spam_tracking set_spam_tracking].
    rewrite find_key_updated by reflexivity.
    destruct (find (same_key user server channel) (spam_tracking d)) eqn:G.
    + reflexivity.
    + apply find_some in F as [Hin Hp]. apply andb_true_iff in Hp as [Hp _].
      now rewrite (find_none _ _ G _ Hin) in Hp.
  - cbn [spam_tracking set_spam_tracking]. rewrite find_app_last.
    rewrite (head_filter (same_key user server channel)).
    destruct (filter _ (spam_tracking d)); [|reflexivity].
    unfold same_key. simpl. now rewrite !Z.eqb_refl.
Qed.

Lemma other_key (u s c u' s' c' : Z) (r : spam_tracking_row) :
  u <> u' \/ s <> s' \/ c <> c' ->
  same_key u s c r = true -> same_key u' s' c' r = false.
Proof.
  unfold same_key. intros N H.
  apply andb_true_iff in H as [H Hc]. apply andb_true_iff in H as [Hu Hs].
  apply Z.eqb_eq in Hu, Hs, Hc. rewrite Hu, Hs, Hc.
  destruct N as [N|[N|N]]; apply Z.eqb_neq in N; rewrite N;
    rewrite ?andb_false_r; reflexivity.
Qed.

(** A call for one key leaves the rows of every other key as they are. *)
Lemma track_keeps_other_rows (now u s c u' s' c' : Z) (d : db) :
  u <> u' \/ s <> s' \/ c <> c' ->
  filter (same_key u' s' c')
         (spam_tracking (fst (track_message_spam cfg now u s c d)))
  = filter (same_key u' s' c') (spam_tracking d).
Proof.
  intro N. unfold track_message_spam. cbn [fst].
  destruct (find _ (spam_tracking d)) as [row|];
    cbn [spam_tracking set_spam_tracking].
  - induction (spam_tracking d) as [|r l IH]; simpl; auto.
    destruct (same_key u s c r) eqn:E.
    + unfold same_key at 1. cbn [user_id st_server_id st_channel_id].
      fold (same_key u' s' c' r). rewrite (other_key _ _ _ _ _ _ r N E).
      exact IH.
    + destruct (same_key u' s' c' r); now rewrite IH.
  - rewrite filter_app. simpl.
    rewrite (other_key u s c u' s' c'); [now rewrite app_nil_r | exact N |].
    unfold same_key. simpl. now rewrite !Z.eqb_refl.
Qed.

Lemma blocked_by_rows (now user server channel : Z) (d : db) :
  is_user_spam_blocked cfg now user server channel d
  = match find (live (Config.SPAM_TIME_WINDOW cfg) now)
               (filter (same_key user server channel) (spam_tracking d)) with
    | Some r => is_blocked r
    | None => false
    end.
Proof. unfold is_user_spam_blocked. now rewrite find_filter. Qed.

Lemma find_filter_kept {A} (p keep : A -> bool) (l : list A) :
  (forall x, p x = true -> keep x = true) ->
  find p (filter keep l) = find p l.
Proof.
  intro H. induction l as [|x l IH]; simpl; auto.
  destruct (keep x) eqn:K; simpl.
  - destruct (p x); auto.
  - destruct (p x) eqn:E; auto. apply H in E. congruence.
Qed.

Lemma filter_idem {A} (p : A -> bool) (l : list A) :
  filter p (filter p l) = filter p l.
Proof.
  induction l as [|x l IH]; simpl; auto.
  destruct (p x) eqn:E; simpl; rewrite ?E, IH; reflexivity.
Qed.

End TrackerFacts.

(** X6: for a key the table does not hold, any number of calls of
    [track_message_spam], each inside the window of the call before it,
    return the counts 1, 2, 3, ...; the first call is never blocked, and a
    later call is blocked exactly when its count has reached
    SPAM_THRESHOLD.  The window slides with every call, so a sender who
    keeps posting stays blocked however long that lasts. *)
Theorem track_message_spam_counts (cfg : Config.t) (user server channel : Z)
        (d : Database.db) (t : Z) (times : list Z) :
  key_free user server channel (Database.spam_tracking d) = true ->
  chained (Config.SPAM_TIME_WINDOW cfg) t times ->
  snd (track_at cfg user server channel (t :: times) d)
  = (1, false) :: counting (Config.SPAM_THRESHOLD cfg) 2 (List.length times).
Proof.
  intros K C. cbn [track_at]. cbv zeta.
  rewrite (track_fresh cfg user server channel t d K). cbv zeta.
  cbn [fst snd]. f_equal.
  eapply (track_at_counting cfg user server channel times _ _ _ 1 t t false);
    [reflexivity | exact K | exact C].
Qed.

Lemma track_message_spam_counts_witness :
  snd (track_at Config.default 42 1 10 [0; 9; 18; 27; 36; 45; 54]
                Database.init_db)
  = [(1, false); (2, false); (3, false); (4, false); (5, true); (6, true);
     (7, true)].
Proof.
  apply (track_message_spam_counts Config.default 42 1 10 Database.init_db 0
           [9; 18; 27; 36; 45; 54]).
  - reflexivity.
  - simpl. lia.
Defined.

(** X7: what [track_message_spam] returns depends on the rows of its key
    alone: one more than the count of the first row still inside its
    window, with blocked set from the threshold; without such a row, the
    stored count and flag of the first row of the key, however old; for a
    key without rows, (1, false). *)
Theorem track_message_spam_result (cfg : Config.t) (now user server channel : Z)
        (d : Database.db) :
  snd (Database.track_message_spam cfg now user server channel d)
  = track_result cfg now
      (filter (Database.same_key user server channel)
              (Database.spam_tracking d)).
Proof. apply track_returns_track_result. Qed.

(** X8: the counters of different keys do not touch: a call of
    [track_message_spam] for one (user, server, channel) changes neither
    [is_user_spam_blocked] nor the result of a later call for another
    key. *)
Theorem track_message_spam_keys_independent
        (cfg : Config.t) (now later u s c u' s' c' : Z) (d : Database.db) :
  u <> u' \/ s <> s' \/ c <> c' ->
  let d' := fst (Database.track_message_spam cfg now u s c d) in
  Database.is_user_spam_blocked cfg later u' s' c' d'
  = Database.is_user_spam_blocked cfg later u' s' c' d
  /\ snd (Database.track_message_spam cfg later u' s' c' d')
     = snd (Database.track_message_spam cfg later u' s' c' d).
Proof.
  intro N. cbv zeta. split.
  - rewrite !blocked_by_rows. now rewrite track_keeps_other_rows.
  - rewrite !track_returns_track_result. now rewrite track_keeps_other_rows.
Qed.

Lemma track_message_spam_keys_independent_witness :
  let d := fst (track_at Config.default 42 1 10 [0; 1; 2; 3; 4]
                         Database.init_db) in
  let d' := fst (Database.track_message_spam Config.default 5 43 1 10 d) in
  Database.is_user_spam_blocked Config.default 6 42 1 10 d'
  = Database.is_user_spam_blocked Config.default 6 42 1 10 d
  /\ snd (Database.track_message_spam Config.default 6 42 1 10 d')
     = snd (Database.track_message_spam Config.default 6 42 1 10 d).
Proof.
  apply (track_message_spam_keys_independent Config.default 5 6 43 1 10 42 1 10).
  left. lia.
Defined.

(** X9 ([cleanup_old_data], then [track_message_spam]): the retention
    sweep leaves a running counter alone, and it is what ends a stale one.
    Take a window that is not negative, a period of a number of days
    that is not shorter than the window, and a message that comes at the
    time of the sweep or later.  For a key that has a row inside its window
    when the message comes, [track_message_spam] returns the same after
    the sweep as without it.  For a key all of whose rows are older than
    the period, it returns (1, false) after the sweep, where without the
    sweep it returns the stored count and flag of the first row of the
    key: a sender whose block has gone stale is still reported blocked
    until the sweep, and is counted anew after it. *)
Theorem sweep_ends_stale_counters (cfg : Config.t) (now later days : Z)
        (user server channel : Z) (d : Database.db) :
  0 <= days ->
  0 <= Config.SPAM_TIME_WINDOW cfg <= days * 86400 ->
  now <= later ->
  let rows := filter (Database.same_key user server channel)
                     (Database.spam_tracking d) in
  let d' := Database.cleanup_old_data now days d in
  (existsb (Database.live (Config.SPAM_TIME_WINDOW cfg) later) rows = true ->
   snd (Database.track_message_spam cfg later user server channel d')
   = snd (Database.track_message_spam cfg later user server channel d))
  /\ (Forall (fun r => Database.last_message_time r + days * 86400 < now)
             rows ->
      snd (Database.track_message_spam cfg later user server channel d')
      = (1, false)
      /\ snd (Database.track_message_spam cfg later user server channel d)
         = match rows with
           | r :: _ => (Database.message_count r, Database.is_blocked r)
           | [] => (1, false)
           end).
Proof.
  intros D W L. cbv zeta.
  rewrite !track_returns_track_result.
  unfold Database.cleanup_old_data.
  cbn [Database.spam_tracking Database.set_spam_tracking].
  set (keep := fun r => negb (Database.last_message_time r + days * 86400
                              <? now)).
  set (rows := filter (Database.same_key user server channel)
                      (Database.spam_tracking d)).
  assert (Swap : filter (Database.same_key user server channel)
                        (filter keep (Database.spam_tracking d))
                 = filter keep rows).
  { unfold rows. induction (Database.spam_tracking d) as [|r l IH];
      [reflexivity|]. cbn [filter].
    destruct (keep r) eqn:K, (Database.same_key user server channel r) eqn:E;
      cbn [filter]; rewrite ?K, ?E, IH; reflexivity. }
  rewrite Swap. clear Swap. split.
  - intros Lv. unfold track_result.
    rewrite find_filter_kept.
    + destruct (find (Database.live (Config.SPAM_TIME_WINDOW cfg) later) rows)
        eqn:F; [reflexivity|].
      apply existsb_exists in Lv. destruct Lv as (r & I & Hr).
      now rewrite (find_none _ _ F _ I) in Hr.
    + intros r H. unfold Database.live in H. apply Z.ltb_lt in H.
      unfold keep. apply negb_true_iff. apply Z.ltb_ge. lia.
  - intros Old.
    assert (Dead : find (Database.live (Config.SPAM_TIME_WINDOW cfg) later)
                        rows = None).
    { induction Old as [|r l Hr _ IH]; [reflexivity|]. cbn [find].
      unfold Database.live at 1.
      rewrite (proj2 (Z.ltb_ge _ _)) by lia. exact IH. }
    assert (Gone : filter keep rows = []).
    { clear Dead. induction Old as [|r l Hr _ IH]; [reflexivity|].
      cbn [filter]. unfold keep at 1. rewrite (proj2 (Z.ltb_lt _ _) Hr).
      exact IH. }
    rewrite Gone. split; [reflexivity|].
    unfold track_result. rewrite Dead. reflexivity.
Qed.

Lemma sweep_ends_stale_counters_witness :
  let d := fst (track_at Config.default 42 1 10 [0; 1; 2; 3; 4]
                         Database.init_db) in
  snd (Database.track_message_spam Config.default 604900 42 1 10
         (Database.cleanup_old_data 604900 7 d)) = (1, false)
  /\ snd (Database.track_message_spam Config.default 604900 42 1 10 d)
     = (5, true).
Proof.
  refine (proj2 (sweep_ends_stale_counters Config.default 604900 604900 7
                   42 1 10
                   (fst (track_at Config.default 42 1 10 [0; 1; 2; 3; 4]
                                  Database.init_db)) _ _ _) _).
  - discriminate.
  - split; discriminate.
  - discriminate.
  - vm_compute. repeat constructor.
Defined.

(** X9 in the relay: five messages in five seconds block the sender; a
    week and a hundred seconds later the next message is still dropped,
    and after the sweep it is forwarded. *)
Example stale_block_until_the_sweep :
  let m := post (cp "hello") [] in
  let w5 := post_all Config.default discord
              [(0, m); (1, m); (2, m); (3, m); (4, m)]
              (world_of registry_db_with_settings 0) in
  let unswept := snd (InterServer.on_message Config.default discord m
                        (at_time w5 604900)) in
  let swept := snd (InterServer.on_message Config.default discord m
                      (at_time
                         (with_database w5
                            (Database.cleanup_old_data 604900 7
                               (InterServer.database w5)))
                         604900)) in
  List.length (InterServer.sends w5) = 4%nat
  /\ List.length (InterServer.sends unswept) = 4%nat
  /\ List.length (InterServer.sends swept) = 5%nat.
Proof. vm_compute. repeat split. Qed.

(* ================================================================= *)
(** * Further properties of the relay                                  *)
(* ================================================================= *)

Section RelayFacts.
Import InterServer.

Variable cfg : Config.t.
Variable P : Platform.

(** What one [_forward_message] sends and writes. *)
Lemma forward_message_details (m : Message) (c : Database.connection_row)
      (w : World) :
  exists calls rows,
    sends (snd (_forward_message cfg P m c w)) = sends w ++ calls
    /\ Database.message_history (database (snd (_forward_message cfg P m c w)))
       = Database.message_history (database w) ++ rows
    /\ clock (snd (_forward_message cfg P m c w)) = clock w
    /\ Forall (fun call => sent_files call = []
                           /\ sent_embed call = embed_of m c) calls
    /\ Forall (fun row =>
                 Database.original_message_id row = message_id m
                 /\ Database.author_id row = author_id m
                 /\ Database.connection_id row = Database.id c
                 /\ Database.timestamp row = clock w
                 /\ content_hash_of m = Ok (Database.content_hash row)
                 /\ exists call, In call calls
                      /\ outcome call = Ok (Database.forwarded_message_id row))
              rows
    /\ (List.length rows <= List.length calls)%nat.
Proof.
  rewrite forward_message_spec.
  destruct (get_channel P (target_of m c)) as [t|].
  2:{ exists [], []. rewrite !app_nil_r. simpl. now repeat split. }
  destruct (negb (send_messages t)).
  { exists [], []. rewrite !app_nil_r. simpl. now repeat split. }
  cbv zeta.
  destruct (channel_send P (tc_id t) (List.length (sends w))) as [fwd|e] eqn:S.
  2:{ eexists; exists []. simpl. split; [reflexivity|].
      rewrite !app_nil_r. repeat split; auto; repeat constructor. }
  destruct (content_hash_of m) as [h|e] eqn:H.
  2:{ eexists; exists []. simpl. split; [reflexivity|].
      rewrite !app_nil_r. repeat split; auto; repeat constructor. }
  unfold Database.log_message.
  destruct (existsb _ _).
  - eexists; eexists. simpl. split; [reflexivity|]. split; [reflexivity|].
    split; [reflexivity|]. split; [repeat constructor|].
    split; [|auto].
    repeat constructor; simpl; auto.
    eexists. split; [now left|]. reflexivity.
  - eexists; exists []. simpl. split; [reflexivity|].
    rewrite !app_nil_r. repeat split; auto; repeat constructor.
Qed.

Lemma forward_all_details (m : Message) (cs : list Database.connection_row) :
  forall w : World,
  exists calls rows,
    sends (snd (forward_all cfg P m cs w)) = sends w ++ calls
    /\ Database.message_history (database (snd (forward_all cfg P m cs w)))
       = Database.message_history (database w) ++ rows
    /\ Forall (fun call => sent_files call = []
                           /\ exists c, In c cs /\ sent_embed call = embed_of m c)
              calls
    /\ Forall (fun row =>
                 Database.original_message_id row = message_id m
                 /\ Database.author_id row = author_id m
                 /\ Database.timestamp row = clock w
                 /\ content_hash_of m = Ok (Database.content_hash row)
                 /\ (exists c, In c cs /\ Database.connection_id row = Database.id c)
                 /\ exists call, In call calls
                      /\ outcome call = Ok (Database.forwarded_message_id row))
              rows
    /\ (List.length rows <= List.length calls)%nat.
Proof.
  induction cs as [|c cs IH]; intro w.
  - exists [], []. simpl. unfold ret. simpl. rewrite !app_nil_r.
    repeat split; auto.
  - cbn [forward_all]. unfold bind.
    destruct (forward_message_summary cfg P m c w) as (w1 & ? & ? & E & _).
    destruct (forward_message_details m c w)
      as (calls1 & rows1 & S1 & H1 & K1 & F1 & R1 & L1).
    rewrite E in *. cbn [snd] in *.
    destruct (IH w1) as (calls2 & rows2 & S2 & H2 & F2 & R2 & L2).
    exists (calls1 ++ calls2), (rows1 ++ rows2).
    split; [rewrite S2, S1; now rewrite app_assoc|].
    split; [rewrite H2, H1; now rewrite app_assoc|].
    split; [|split].
    + apply Forall_app. split.
      * eapply Forall_impl; [|exact F1]. simpl. intros call [A B].
        split; auto. exists c. split; [now left | auto].
      * eapply Forall_impl; [|exact F2]. simpl.
        intros call (A & c' & I & B). split; auto. exists c'.
        split; [now right | auto].
    + apply Forall_app. split.
      * eapply Forall_impl; [|exact R1]. simpl.
        intros row (A & B & C & D & G & call & I & O).
        do 4 (split; [auto|]). split.
        -- exists c. split; [now left | auto].
        -- exists call. split; [apply in_or_app; now left | auto].
      * eapply Forall_impl; [|exact R2]. simpl.
        intros row (A & B & C & D & (c' & I' & G) & call & I & O).
        do 2 (split; [auto|]). split; [congruence|]. split; [auto|]. split.
        -- exists c'. split; [now right | auto].
        -- exists call. split; [apply in_or_app; now right | auto].
    + rewrite !length_app. lia.
Qed.

(** The same for [on_message]: the messages it does not forward add
    nothing. *)
Lemma on_message_details (m : Message) (w : World) :
  exists calls rows,
    sends (snd (on_message cfg P m w)) = sends w ++ calls
    /\ Database.message_history (database (snd (on_message cfg P m w)))
       = Database.message_history (database w) ++ rows
    /\ Database.connections (database (snd (on_message cfg P m w)))
       = Database.connections (database w)
    /\ Forall (fun call => sent_files call = []
                 /\ exists c,
                      In c (Database.get_connections_by_channel (channel_id m)
                              (database w))
                      /\ sent_embed call = embed_of m c)
              calls
    /\ Forall (fun row =>
                 Database.original_message_id row = message_id m
                 /\ Database.author_id row = author_id m
                 /\ Database.timestamp row = clock w
                 /\ content_hash_of m = Ok (Database.content_hash row)
                 /\ (exists c,
                        In c (Database.get_connections_by_channel
                                (channel_id m) (database w))
                        /\ Database.connection_id row = Database.id c)
                 /\ exists call, In call calls
                      /\ outcome call = Ok (Database.forwarded_message_id row))
              rows
    /\ (List.length rows <= List.length calls)%nat.
Proof.
  rewrite on_message_spec.
  destruct (db_after_settings_keeps m w) as [C1 H1].
  destruct (db_at_lookup_keeps cfg m w) as [C2 H2].
  assert (N : forall w', sends w' = sends w ->
            Database.message_history (database w')
              = Database.message_history (database w) ->
            Database.connections (database w')
              = Database.connections (database w) ->
            exists calls rows,
              sends w' = sends w ++ calls
              /\ Database.message_history (database w')
                 = Database.message_history (database w) ++ rows
              /\ Database.connections (database w')
                 = Database.connections (database w)
              /\ Forall (fun call => sent_files call = []
                 /\ exists c,
                      In c (Database.get_connections_by_channel (channel_id m)
                              (database w))
                      /\ sent_embed call = embed_of m c) calls
              /\ Forall (fun row =>
                 Database.original_message_id row = message_id m
                 /\ Database.author_id row = author_id m
                 /\ Database.timestamp row = clock w
                 /\ content_hash_of m = Ok (Database.content_hash row)
                 /\ (exists c,
                        In c (Database.get_connections_by_channel
                                (channel_id m) (database w))
                        /\ Database.connection_id row = Database.id c)
                 /\ exists call, In call calls
                      /\ outcome call = Ok (Database.forwarded_message_id row))
                   rows
              /\ (List.length rows <= List.length calls)%nat).
  { intros w' A B C. exists [], []. rewrite !app_nil_r. repeat split; auto. }
  destruct (ignored cfg m); [now apply N|].
  destruct (negb (Database.enabled (settings_of m w))); [now apply N|].
  cbv zeta.
  destruct (spam_blocked cfg m w); [now apply N|].
  destruct (Database.get_connections_by_channel (channel_id m)
              (db_at_lookup cfg m w)) as [|c cs] eqn:G; [now apply N|].
  destruct (content_rejected cfg m w); [now apply N|].
  assert (Q : Database.get_connections_by_channel (channel_id m)
                (db_at_lookup cfg m w)
              = Database.get_connections_by_channel (channel_id m) (database w)).
  { unfold Database.get_connections_by_channel. now rewrite C2. }
  destruct (forward_all_details m (c :: cs)
              (with_database w (db_at_lookup cfg m w)))
    as (calls & rows & S & H & F & R & L).
  destruct (forward_all_keeps cfg P m (c :: cs)
              (with_database w (db_at_lookup cfg m w))) as (K & _).
  exists calls, rows. rewrite <- Q, G.
  split; [exact S|]. split; [rewrite H; simpl; now rewrite H2|].
  split; [rewrite K; simpl; exact C2|]. auto.
Qed.

End RelayFacts.

(** X10: no message is relayed with a file.  Whatever the message, its
    attachments and the answers of the platform, every send call that
    [on_message] makes carries an empty list of files, and its embed is
    the one built from the message and a connection of its channel (the
    text, or the placeholder for a message without text). *)
Theorem attachments_are_never_forwarded (cfg : Config.t)
        (P : InterServer.Platform) (m : InterServer.Message)
        (w : InterServer.World) :
  exists calls,
    InterServer.sends (snd (InterServer.on_message cfg P m w))
    = InterServer.sends w ++ calls
    /\ Forall (fun call =>
                 InterServer.sent_files call = []
                 /\ exists c,
                      In c (Database.get_connections_by_channel
                              (InterServer.channel_id m) (InterServer.database w))
                      /\ InterServer.sent_embed call = embed_of m c)
              calls.
Proof.
  destruct (on_message_details cfg P m w) as (calls & rows & S & _ & _ & F & _).
  exists calls. auto.
Qed.

(** X11: the relay only adds to [message_history], and only rows about the
    message at hand: the old rows stay as a prefix, [connections] is not
    written, and each new row names the message, its author, the current
    time, a connection of the channel and a send call that was delivered,
    with the digest of the text as hash, or no hash for a message without
    text.  There are never more new rows than new send calls. *)
Theorem history_is_append_only (cfg : Config.t)
        (P : InterServer.Platform) (m : InterServer.Message)
        (w : InterServer.World) :
  let w' := snd (InterServer.on_message cfg P m w) in
  exists calls rows,
    InterServer.sends w' = InterServer.sends w ++ calls
    /\ Database.message_history (InterServer.database w')
       = Database.message_history (InterServer.database w) ++ rows
    /\ Database.connections (InterServer.database w')
       = Database.connections (InterServer.database w)
    /\ Forall (fun row =>
                 Database.original_message_id row = InterServer.message_id m
                 /\ Database.author_id row = InterServer.author_id m
                 /\ Database.timestamp row = InterServer.clock w
                 /\ content_hash_of m = InterServer.Ok (Database.content_hash row)
                 /\ (exists c,
                        In c (Database.get_connections_by_channel
                                (InterServer.channel_id m)
                                (InterServer.database w))
                        /\ Database.connection_id row = Database.id c)
                 /\ exists call, In call calls
                      /\ InterServer.outcome call
                         = InterServer.Ok (Database.forwarded_message_id row))
              rows
    /\ (List.length rows <= List.length calls)%nat.
Proof.
  cbv zeta.
  destruct (on_message_details cfg P m w)
    as (calls & rows & S & H & C & _ & R & L).
  exists calls, rows. auto.
Qed.

Section Flood.
Import InterServer.

Variable cfg : Config.t.
Variable P : Platform.
Variable st : Database.server_settings_row.
Hypothesis st_enabled : Database.enabled st = true.
Hypothesis st_spam : Database.spam_protection st = true.

Lemma settings_found (m : Message) (w : World) :
  Database.find_settings (guild_id m) (database w) = Some st ->
  settings_of m w = st /\ db_after_settings m w = database w.
Proof.
  intro F. unfold settings_of, db_after_settings, Database.get_server_settings.
  now rewrite F.
Qed.

(** One more message inside the window: it is counted, and dropped when
    the count has reached the threshold. *)
Lemma counted_step (m m' : Message) (k last now : Z) (w : World) :
  counted st m k last w ->
  posted_like cfg m m' ->
  now < last + Config.SPAM_TIME_WINDOW cfg ->
  let w' := snd (on_message cfg P m' (at_time w now)) in
  counted st m (k + 1) now w'
  /\ (Config.SPAM_THRESHOLD cfg <= k + 1 ->
      sends w' = sends w /\ logged w' = logged w
      /\ Database.message_history (database w')
         = Database.message_history (database w)).
Proof.
  intros (F & old & i & f & b & E & K) (I & A & G & C) L. cbv zeta.
  assert (F' : Database.find_settings (guild_id m') (database (at_time w now))
               = Some st) by (simpl; now rewrite G).
  destruct (settings_found m' (at_time w now) F') as [S D].
  pose proof (track_live cfg (author_id m) (guild_id m) (channel_id m) now
                (database w) old i k f last b E K L) as T.
  assert (TR : tracked cfg m' (at_time w now)
               = (Database.set_spam_tracking (database w)
                    (old ++ [Database.mk_spam_tracking i (author_id m)
                               (guild_id m) (channel_id m) (k + 1) f now
                               (Config.SPAM_THRESHOLD cfg <=? k + 1)])
                    (Database.spam_tracking_seq (database w)),
                  (k + 1, Config.SPAM_THRESHOLD cfg <=? k + 1))).
  { unfold tracked. rewrite D, A, G, C. simpl. exact T. }
  assert (DL : db_at_lookup cfg m' (at_time w now)
               = fst (tracked cfg m' (at_time w now)))
    by (unfold db_at_lookup; now rewrite S, st_spam).
  assert (SB : spam_blocked cfg m' (at_time w now)
               = (Config.SPAM_THRESHOLD cfg <=? k + 1))
    by (unfold spam_blocked; now rewrite S, st_spam, TR).
  assert (CN : forall w2,
             Database.spam_tracking (database w2)
               = Database.spam_tracking (fst (tracked cfg m' (at_time w now))) ->
             Database.server_settings (database w2)
               = Database.server_settings (database w) ->
             counted st m (k + 1) now w2).
  { intros w2 H1 H2. split.
    - unfold Database.find_settings. now rewrite H2.
    - exists old, i, f, (Config.SPAM_THRESHOLD cfg <=? k + 1).
      split; auto. now rewrite H1, TR. }
  rewrite on_message_spec, I, S, st_enabled, SB, DL. cbn [negb]. cbv zeta.
  destruct (Config.SPAM_THRESHOLD cfg <=? k + 1) eqn:B.
  - split; [apply CN; rewrite ?TR; reflexivity|]. intros _.
    rewrite TR. now repeat split.
  - assert (NB : Config.SPAM_THRESHOLD cfg <= k + 1 -> False)
      by (apply Z.leb_gt in B; lia).
    destruct (Database.get_connections_by_channel _ _) as [|c cs].
    { split; [apply CN; rewrite ?TR; reflexivity | intro; now exfalso]. }
    destruct (content_rejected cfg m' (at_time w now)).
    { split; [apply CN; rewrite ?TR; reflexivity | intro; now exfalso]. }
    split; [|intro; now exfalso].
    destruct (forward_all_keeps cfg P m' (c :: cs)
                (with_database (at_time w now)
                   (fst (tracked cfg m' (at_time w now)))))
      as (_ & K1 & K2).
    apply CN; [exact K1|]. rewrite K2, TR. reflexivity.
Qed.

(** From the threshold on, however many messages follow inside the
    window, nothing is sent, logged or written to the history. *)
Lemma blocked_run (m : Message) (ms : list (Z * Message)) :
  forall (k last : Z) (w : World),
    counted st m k last w ->
    Config.SPAM_THRESHOLD cfg <= k + 1 ->
    Forall (fun tm => posted_like cfg m (snd tm)) ms ->
    chained (Config.SPAM_TIME_WINDOW cfg) last (map fst ms) ->
    let w' := post_all cfg P ms w in
    sends w' = sends w /\ logged w' = logged w
    /\ Database.message_history (database w')
       = Database.message_history (database w)
    /\ counted st m (k + Z.of_nat (List.length ms)) (last_time last ms) w'.
Proof.
  induction ms as [|[t m'] ms IH]; intros k last w Cn T F Ch.
  - simpl. rewrite Z.add_0_r. do 3 (split; [reflexivity|]). exact Cn.
  - inversion F as [|? ? Pm F']; subst. destruct Ch as [L Ch].
    cbn [post_all]. fold (at_time w t).
    destruct (counted_step m m' k last t w Cn Pm L) as [Cn' D].
    destruct (D T) as (S1 & L1 & H1).
    destruct (IH (k + 1) t _ Cn' ltac:(lia) F' Ch) as (S2 & L2 & H2 & Cn2).
    cbv zeta. do 3 (split; [congruence|]).
    cbn [List.length last_time].
    replace (k + Z.of_nat (S (List.length ms)))
      with (k + 1 + Z.of_nat (List.length ms)) by lia.
    exact Cn2.
Qed.

(** The first message of a key: a row with count 1. *)
Lemma counted_first (m : Message) (now : Z) (w : World) :
  Database.find_settings (guild_id m) (database w) = Some st ->
  key_free (author_id m) (guild_id m) (channel_id m)
           (Database.spam_tracking (database w)) = true ->
  ignored cfg m = false ->
  counted st m 1 now (snd (on_message cfg P m (at_time w now))).
Proof.
  intros F K I.
  assert (F' : Database.find_settings (guild_id m) (database (at_time w now))
               = Some st) by exact F.
  destruct (settings_found m (at_time w now) F') as [S D].
  pose proof (track_fresh cfg (author_id m) (guild_id m) (channel_id m) now
                (database w) K) as T. cbv zeta in T.
  assert (TR : fst (tracked cfg m (at_time w now))
               = fst (Database.track_message_spam cfg now (author_id m)
                        (guild_id m) (channel_id m) (database w)))
    by (unfold tracked; now rewrite D).
  assert (DL : db_at_lookup cfg m (at_time w now)
               = fst (tracked cfg m (at_time w now)))
    by (unfold db_at_lookup; now rewrite S, st_spam).
  assert (CN : forall w2,
             Database.spam_tracking (database w2)
               = Database.spam_tracking (fst (tracked cfg m (at_time w now))) ->
             Database.server_settings (database w2)
               = Database.server_settings (database w) ->
             counted st m 1 now w2).
  { intros w2 H1 H2. split.
    - unfold Database.find_settings in *. now rewrite H2.
    - exists (Database.spam_tracking (database w)),
        (Database.next_rowid (Database.spam_tracking_seq (database w))
           (map Database.st_id (Database.spam_tracking (database w)))),
        now, false.
      split; auto. now rewrite H1, TR, T. }
  assert (KS : Database.server_settings (fst (tracked cfg m (at_time w now)))
               = Database.server_settings (database w))
    by (now rewrite TR, T).
  rewrite on_message_spec, I, S, st_enabled, DL. cbn [negb]. cbv zeta.
  destruct (spam_blocked cfg m (at_time w now)); [now apply CN|].
  destruct (Database.get_connections_by_channel _ _) as [|c cs];
    [now apply CN|].
  destruct (content_rejected cfg m (at_time w now)); [now apply CN|].
  destruct (forward_all_keeps cfg P m (c :: cs)
              (with_database (at_time w now)
                 (fst (tracked cfg m (at_time w now)))))
    as (_ & K1 & K2).
  apply CN; [exact K1|]. now rewrite K2.
Qed.

Lemma counted_run (m : Message) (ms : list (Z * Message)) :
  forall (k last : Z) (w : World),
    counted st m k last w ->
    Forall (fun tm => posted_like cfg m (snd tm)) ms ->
    chained (Config.SPAM_TIME_WINDOW cfg) last (map fst ms) ->
    counted st m (k + Z.of_nat (List.length ms)) (last_time last ms)
            (post_all cfg P ms w).
Proof.
  induction ms as [|[t m'] ms IH]; intros k last w Cn F Ch.
  - simpl. now rewrite Z.add_0_r.
  - inversion F as [|? ? Pm F']; subst. destruct Ch as [L Ch].
    cbn [post_all]. fold (at_time w t).
    destruct (counted_step m m' k last t w Cn Pm L) as [Cn' _].
    cbn [List.length last_time].
    replace (k + Z.of_nat (S (List.length ms)))
      with (k + 1 + Z.of_nat (List.length ms)) by lia.
    now apply IH.
Qed.

Lemma post_all_app (l1 l2 : list (Z * Message)) :
  forall w, post_all cfg P (l1 ++ l2) w = post_all cfg P l2 (post_all cfg P l1 w).
Proof.
  induction l1 as [|[t m] l1 IH]; intro w; simpl; auto.
Qed.

Lemma chained_app (window : Z) (l1 l2 : list (Z * Message)) :
  forall t,
    chained window t (map fst (l1 ++ l2)) ->
    chained window t (map fst l1)
    /\ chained window (last_time t l1) (map fst l2).
Proof.
  induction l1 as [|[t' m] l1 IH]; intros t C; simpl in *; auto.
  destruct C as [L C]. destruct (IH t' C). auto.
Qed.

(** Of a run of messages of one sender in one channel, each inside the
    window of the one before, only the first [n] can be relayed, as soon as
    [n] is at least 1 and at least the threshold less one. *)
Lemma flood_cut (m : Message) (t : Z) (ms : list (Z * Message)) (w : World)
      (n : nat) :
  Database.find_settings (guild_id m) (database w) = Some st ->
  key_free (author_id m) (guild_id m) (channel_id m)
           (Database.spam_tracking (database w)) = true ->
  ignored cfg m = false ->
  Forall (fun tm => posted_like cfg m (snd tm)) ms ->
  chained (Config.SPAM_TIME_WINDOW cfg) t (map fst ms) ->
  Config.SPAM_THRESHOLD cfg <= Z.of_nat (S n) + 1 ->
  let w_all := post_all cfg P ((t, m) :: ms) w in
  let w_cut := post_all cfg P ((t, m) :: firstn n ms) w in
  sends w_all = sends w_cut /\ logged w_all = logged w_cut
  /\ Database.message_history (database w_all)
     = Database.message_history (database w_cut).
Proof.
  intros F K I Pm Ch T. cbv zeta.
  rewrite <- (firstn_skipn n ms) at 1 3 5.
  change ((t, m) :: firstn n ms ++ skipn n ms)
    with (((t, m) :: firstn n ms) ++ skipn n ms).
  rewrite post_all_app.
  destruct (Nat.le_gt_cases (List.length ms) n) as [Short|Long].
  - rewrite (skipn_all2 ms) by exact Short. simpl. auto.
  - rewrite <- (firstn_skipn n ms) in Pm, Ch.
    apply Forall_app in Pm as [Pm1 Pm2].
    apply chained_app in Ch as [Ch1 Ch2].
    pose proof (counted_first m t w F K I) as C1.
    pose proof (counted_run m (firstn n ms) 1 t _ C1 Pm1 Ch1) as C2.
    rewrite length_firstn, Nat.min_l in C2 by lia.
    cbn [post_all]. fold (at_time w t).
    destruct (blocked_run m (skipn n ms) _ _ _ C2 ltac:(lia) Pm2 Ch2)
      as (S & L & H & _).
    auto.
Qed.

End Flood.

(** X12: a flood is cut off.  On a server with a settings row that has the
    bot enabled and spam protection on, take messages of one sender in one
    channel, none of them ignored, the sender's key new to the tracker and
    each message inside the window of the one before.  Then only the first
    [max(1, SPAM_THRESHOLD - 1)] of them can be relayed: the messages after
    them add no send call, no log record and no row of history, however
    many they are. *)
Theorem flood_is_cut_off (cfg : Config.t) (P : InterServer.Platform)
        (st : Database.server_settings_row) (m : InterServer.Message) (t : Z)
        (ms : list (Z * InterServer.Message)) (w : InterServer.World) :
  Database.find_settings (InterServer.guild_id m) (InterServer.database w)
    = Some st ->
  Database.enabled st = true ->
  Database.spam_protection st = true ->
  key_free (InterServer.author_id m) (InterServer.guild_id m)
           (InterServer.channel_id m)
           (Database.spam_tracking (InterServer.database w)) = true ->
  ignored cfg m = false ->
  Forall (fun tm => posted_like cfg m (snd tm)) ms ->
  chained (Config.SPAM_TIME_WINDOW cfg) t (map fst ms) ->
  let n := Z.to_nat (Z.max 1 (Config.SPAM_THRESHOLD cfg - 1)) in
  let w_all := post_all cfg P ((t, m) :: ms) w in
  let w_cut := post_all cfg P (firstn n ((t, m) :: ms)) w in
  InterServer.sends w_all = InterServer.sends w_cut
  /\ InterServer.logged w_all = InterServer.logged w_cut
  /\ Database.message_history (InterServer.database w_all)
     = Database.message_history (InterServer.database w_cut).
Proof.
  intros F E S K I Pm Ch. cbv zeta.
  destruct (Z.to_nat (Z.max 1 (Config.SPAM_THRESHOLD cfg - 1))) as [|n] eqn:N;
    [lia|].
  cbn [firstn].
  apply (flood_cut cfg P st E S m t ms w n F K I Pm Ch). lia.
Qed.

Lemma flood_is_cut_off_witness :
  let m := post (cp "hello") [] in
  let w := world_of registry_db_with_settings 0 in
  let w_all := post_all Config.default discord
                 [(0, m); (1, m); (2, m); (3, m); (4, m); (5, m); (6, m)] w in
  let w_cut := post_all Config.default discord
                 [(0, m); (1, m); (2, m); (3, m)] w in
  InterServer.sends w_all = InterServer.sends w_cut
  /\ InterServer.logged w_all = InterServer.logged w_cut
  /\ Database.message_history (InterServer.database w_all)
     = Database.message_history (InterServer.database w_cut).
Proof.
  apply (flood_is_cut_off Config.default discord
           (Database.default_settings 0 1) (post (cp "hello") []) 0
           [(1, post (cp "hello") []); (2, post (cp "hello") []);
            (3, post (cp "hello") []); (4, post (cp "hello") []);
            (5, post (cp "hello") []); (6, post (cp "hello") [])]
           (world_of registry_db_with_settings 0)).
  - reflexivity.
  - reflexivity.
  - reflexivity.
  - reflexivity.
  - reflexivity.
  - repeat constructor.
  - simpl. lia.
Defined.

(** X13: the messages the relay does not look at leave no trace.  A
    message from a bot, of a type other than [default], or starting with
    the command prefix leaves the whole world as it is: no settings row,
    no count, no send.  On a server that is disabled, a message changes
    at most [server_settings] (the row is created when missing): it is
    not counted by the tracker and nothing is sent or logged. *)
Theorem unrelayed_messages_leave_no_trace (cfg : Config.t)
        (P : InterServer.Platform) (m : InterServer.Message)
        (w : InterServer.World) :
  (InterServer.author_bot m = true
   \/ InterServer.is_default (InterServer.type m) = false
   \/ startswith (InterServer.content m) (Config.PREFIX cfg) = true ->
   InterServer.on_message cfg P m w = (InterServer.Ok tt, w))
  /\ (ignored cfg m = false ->
      Database.enabled (settings_of m w) = false ->
      exists d,
        InterServer.on_message cfg P m w
        = (InterServer.Ok tt, with_database w d)
        /\ Database.spam_tracking d
           = Database.spam_tracking (InterServer.database w)
        /\ Database.connections d
           = Database.connections (InterServer.database w)
        /\ Database.message_history d
           = Database.message_history (InterServer.database w)).
Proof.
  split.
  - intro H. rewrite on_message_spec.
    replace (ignored cfg m) with true; [reflexivity|].
    unfold ignored. destruct H as [H|[H|H]]; rewrite H; simpl;
      rewrite ?orb_true_r; reflexivity.
  - intros I E. rewrite on_message_spec, I, E. cbn [negb].
    exists (db_after_settings m w). split; [reflexivity|].
    destruct (db_after_settings_keeps m w) as [C H].
    split; [|split; assumption].
    unfold db_after_settings, Database.get_server_settings,
      Database.create_server_settings.
    destruct (Database.find_settings _ _); reflexivity.
Qed.

Lemma unrelayed_messages_witness :
  InterServer.on_message Config.default discord (post (cp "!connect list") [])
                         (world_of registry_db 5)
  = (InterServer.Ok tt, world_of registry_db 5).
Proof.
  apply (proj1 (unrelayed_messages_leave_no_trace Config.default discord
                  (post (cp "!connect list") []) (world_of registry_db 5))).
  right. right. reflexivity.
Defined.

(* ================================================================= *)
(** * Further properties of the commands                               *)
(* ================================================================= *)

Section CommandFacts.
Import InterServer.

Variable cfg : Config.t.

(** [connect create] writes in one case only. *)
Lemma create_connection_cases (now : Z) (ctx : Context) (target : TextChannel)
      (name : text) (d : Database.db) :
  (exists i, create_connection cfg now ctx target name d
             = (fst (Database.create_connection now (ctx_guild_id ctx)
                       (ctx_channel_id ctx) (tc_guild_id target) (tc_id target)
                       name (ctx_author_id ctx)
                       (Some (connection_description ctx target)) d),
                Created i)
             /\ i = snd (Database.create_connection now (ctx_guild_id ctx)
                       (ctx_channel_id ctx) (tc_guild_id target) (tc_id target)
                       name (ctx_author_id ctx)
                       (Some (connection_description ctx target)) d)
             /\ ctx_manage_channels ctx = true
             /\ tc_guild_id target <> ctx_guild_id ctx
             /\ Database.get_server_connection_count (ctx_guild_id ctx) d
                < Config.MAX_CONNECTIONS_PER_SERVER cfg
             /\ forallb (has_perm target) required_perms = true
             /\ find (fun conn =>
                        (Database.channel1_id conn =? tc_id target)
                        || (Database.channel2_id conn =? tc_id target))
                     (Database.get_connections_by_channel (ctx_channel_id ctx) d)
                = None)
  \/ (fst (create_connection cfg now ctx target name d) = d
      /\ forall i, snd (create_connection cfg now ctx target name d)
                   <> Created i).
Proof.
  unfold create_connection.
  destruct (ctx_manage_channels ctx); cbn [negb];
    [|right; split; [reflexivity | intros; discriminate]].
  destruct (Config.MAX_CONNECTIONS_PER_SERVER cfg <=? _) eqn:Q;
    [right; split; [reflexivity | intros; discriminate]|].
  destruct (tc_guild_id target =? ctx_guild_id ctx) eqn:G;
    [right; split; [reflexivity | intros; discriminate]|].
  destruct (filter (fun perm => negb (has_perm target perm)) required_perms)
    eqn:M; [|right; split; [reflexivity | intros; discriminate]].
  destruct (find _ _) eqn:F;
    [right; split; [reflexivity | intros; discriminate]|].
  left. eexists. split; [reflexivity|]. split; [reflexivity|].
  split; [reflexivity|]. split; [now apply Z.eqb_neq|].
  split; [now apply Z.leb_gt|]. split; [|reflexivity].
  unfold required_perms in *. simpl in *.
  destruct (send_messages target), (embed_links target),
    (attach_files target), (read_message_history target);
    simpl in *; try discriminate; reflexivity.
Qed.

Lemma created_row_in_channels (now server1 channel1 server2 channel2 : Z)
      (name : text) (creator : Z) (descr : option text) (d : Database.db) :
  let r := Database.create_connection now server1 channel1 server2 channel2
             name creator descr d in
  let row := Database.mk_connection (snd r) server1 channel1 server2 channel2
               name now creator true descr in
  In row (Database.get_connections_by_channel channel1 (fst r))
  /\ In row (Database.get_connections_by_channel channel2 (fst r)).
Proof.
  cbv zeta. unfold Database.create_connection,
    Database.get_connections_by_channel. cbn [fst snd]. simpl.
  split; rewrite filter_app; apply in_or_app; right; simpl;
    rewrite Z.eqb_refl, ?orb_true_r; simpl; now left.
Qed.

Lemma find_hit {A} (p : A -> bool) (l : list A) (x : A) :
  In x l -> p x = true -> exists y, find p l = Some y.
Proof.
  intros I H. destruct (find p l) eqn:F; eauto.
  now rewrite (find_none _ _ F _ I) in H.
Qed.

End CommandFacts.

Section PairFacts.
Import Database.

Variable cfg : Config.t.

Lemma fop_snoc {A} (R : A -> A -> Prop) (l : list A) (x : A) :
  ForallOrdPairs R l -> Forall (fun y => R y x) l ->
  ForallOrdPairs R (l ++ [x]).
Proof.
  induction 1 as [|a l Ha Hl IH]; intros F; cbn [app].
  - constructor; constructor.
  - inversion F; subst. constructor; [|now apply IH].
    apply Forall_app. split; [exact Ha|]. now constructor.
Qed.

(** Deactivating rows keeps the pairs of the active rows distinct. *)
Lemma one_per_pair_deactivate (p : connection_row -> bool)
      (l : list connection_row) :
  one_per_pair l ->
  one_per_pair (map (fun r => if p r then deactivate r else r) l).
Proof.
  unfold one_per_pair. induction 1 as [|a l Ha Hl IH]; cbn [map].
  - constructor.
  - constructor; [|exact IH].
    apply Forall_map. revert Ha. apply Forall_impl. intros y Hy.
    destruct (p a), (p y); cbn [deactivate is_active channel1_id channel2_id];
      try discriminate; try (intros _; discriminate); exact Hy.
Qed.

(** A row that is active and links the channel of the command with the
    target channel is found by the duplicate check of [connect create]. *)
Lemma linked_is_found (ctx : InterServer.Context)
      (target : InterServer.TextChannel) (r : connection_row) (d : db) :
  In r (connections d) -> is_active r = true ->
  links (InterServer.ctx_channel_id ctx) (InterServer.tc_id target) r = true ->
  find (fun conn =>
          (channel1_id conn =? InterServer.tc_id target)
          || (channel2_id conn =? InterServer.tc_id target))
       (get_connections_by_channel (InterServer.ctx_channel_id ctx) d)
  <> None.
Proof.
  intros I A L F.
  assert (Hit : In r (get_connections_by_channel
                        (InterServer.ctx_channel_id ctx) d)).
  { unfold get_connections_by_channel. apply filter_In. split; [exact I|].
    rewrite A, andb_true_r. unfold links in L.
    apply orb_true_iff in L as [L|L]; apply andb_true_iff in L as [L1 L2];
      rewrite ?L1, ?L2, ?orb_true_r; reflexivity. }
  pose proof (find_none _ _ F _ Hit) as N. cbv beta in N.
  unfold links in L.
  apply orb_true_iff in L as [L|L]; apply andb_true_iff in L as [L1 L2];
    rewrite ?L1, ?L2, ?orb_true_r in N; discriminate.
Qed.

Lemma create_refuses_linked (now : Z) (ctx : InterServer.Context)
      (target : InterServer.TextChannel) (name : text)
      (r : connection_row) (d : db) :
  In r (connections d) -> is_active r = true ->
  links (InterServer.ctx_channel_id ctx) (InterServer.tc_id target) r = true ->
  fst (InterServer.create_connection cfg now ctx target name d) = d
  /\ forall j, snd (InterServer.create_connection cfg now ctx target name d)
               <> InterServer.Created j.
Proof.
  intros I A L.
  destruct (create_connection_cases cfg now ctx target name d)
    as [(i & _ & _ & _ & _ & _ & _ & F) | R]; [|exact R].
  now destruct (linked_is_found ctx target r d I A L).
Qed.

Lemma create_keeps_one_per_pair (now : Z) (ctx : InterServer.Context)
      (target : InterServer.TextChannel) (name : text) (d : db) :
  one_per_pair (connections d) ->
  one_per_pair
    (connections (fst (InterServer.create_connection cfg now ctx target
                         name d))).
Proof.
  intros H.
  destruct (create_connection_cases cfg now ctx target name d)
    as [(i & E & _ & _ & _ & _ & _ & F) | [E _]]; rewrite E; [|exact H].
  cbn [fst]. unfold create_connection. cbn [fst]. simpl.
  apply fop_snoc; [exact H|].
  apply Forall_forall. intros x I Ax _.
  cbn [channel1_id channel2_id].
  destruct (links (channel1_id x) (channel2_id x) _) eqn:L; [|reflexivity].
  exfalso. apply (linked_is_found ctx target x d I Ax); [|exact F].
  unfold links in *. cbn [channel1_id channel2_id] in L.
  apply orb_true_iff in L as [L|L]; apply andb_true_iff in L as [L1 L2];
    apply Z.eqb_eq in L1, L2; rewrite <- L1, <- L2, !Z.eqb_refl;
    rewrite ?orb_true_r; reflexivity.
Qed.

Lemma happen_keeps_one_per_pair (events : list registry_event) : forall d,
  one_per_pair (connections d) ->
  one_per_pair (connections (happen cfg events d)).
Proof.
  induction events as [|[[[[now ctx] target] name]|i|g] events IH];
    intros d H; cbn [happen]; [exact H| | |]; apply IH.
  - now apply create_keeps_one_per_pair.
  - unfold delete_connection. cbn [fst]. simpl.
    now apply one_per_pair_deactivate.
  - unfold Bot.on_guild_remove, deactivate_server_connections. simpl.
    now apply one_per_pair_deactivate.
Qed.

End PairFacts.

(** X14 ([create_connection] of the cog, with [delete_connection] and
    [on_guild_remove]): at most one active connection links two
    channels.  In every state reached from one without doubles by
    [connect create] commands, deletions and guild removals, in any
    order, no two active connections link the same two channels; and in
    such a state a [connect create] between two channels that an active
    connection links, run from either of them and under any name, writes
    nothing.  (Once that connection is deleted the two channels can be
    connected again, under a new id.) *)
Theorem one_active_connection_per_pair (cfg : Config.t)
        (events : list registry_event) (d : Database.db) :
  one_per_pair (Database.connections d) ->
  one_per_pair (Database.connections (happen cfg events d))
  /\ forall now ctx target name r,
       In r (Database.connections (happen cfg events d)) ->
       Database.is_active r = true ->
       links (InterServer.ctx_channel_id ctx) (InterServer.tc_id target) r
       = true ->
       fst (InterServer.create_connection cfg now ctx target name
              (happen cfg events d))
       = happen cfg events d
       /\ forall j,
            snd (InterServer.create_connection cfg now ctx target name
                   (happen cfg events d))
            <> InterServer.Created j.
Proof.
  intros H. split.
  - now apply happen_keeps_one_per_pair.
  - intros now ctx target name r I A L.
    now apply (create_refuses_linked cfg now ctx target name r).
Qed.

Lemma one_active_connection_per_pair_witness :
  one_per_pair
    (Database.connections (happen Config.default bridge_twice Database.init_db)).
Proof.
  apply (one_active_connection_per_pair Config.default bridge_twice
           Database.init_db).
  constructor.
Defined.

(** X14 at work: the second command is refused while the connection is
    active, and after the deletion the third creates connection 2. *)
Example bridge_twice_in_the_registry :
  map (fun r => (Database.id r, Database.channel1_id r,
                 Database.channel2_id r, Database.is_active r))
      (Database.connections
         (happen Config.default bridge_twice Database.init_db))
  = [(1, 10, 20, false); (2, 20, 10, true)].
Proof. vm_compute. reflexivity. Qed.

Section CrossServer.
Import InterServer.

Variable cfg : Config.t.

Lemma create_connection_cross_server (now : Z) (ctx : Context)
      (target : TextChannel) (name : text) (d : Database.db) :
  Forall (fun r => Database.server1_id r <> Database.server2_id r)
         (Database.connections d) ->
  Forall (fun r => Database.server1_id r <> Database.server2_id r)
         (Database.connections
            (fst (create_connection cfg now ctx target name d))).
Proof.
  intro H.
  destruct (create_connection_cases cfg now ctx target name d)
    as [(i & E & _ & _ & G & _) | [E _]]; rewrite E; [|exact H].
  cbn [fst]. unfold Database.create_connection. cbn [fst]. simpl.
  apply Forall_app. split; [exact H|]. repeat constructor. simpl. congruence.
Qed.

End CrossServer.

(** X15: every connection is between two different servers: a sequence of
    [connect create] commands never leaves a row whose two ends are on
    the same server in a table that had none. *)
Theorem connections_are_cross_server (cfg : Config.t)
        (reqs : list InterServer.create_request) (d : Database.db) :
  Forall (fun r => Database.server1_id r <> Database.server2_id r)
         (Database.connections d) ->
  Forall (fun r => Database.server1_id r <> Database.server2_id r)
         (Database.connections (InterServer.create_all cfg reqs d)).
Proof.
  revert d. induction reqs as [|[[[now ctx] target] name] reqs IH];
    intros d H; simpl; auto.
  apply IH. now apply create_connection_cross_server.
Qed.

Lemma connections_are_cross_server_witness :
  Forall (fun r => Database.server1_id r <> Database.server2_id r)
         (Database.connections
            (InterServer.create_all Config.default
               ((12, InterServer.mk_context 100 (cp "hub") 2001 7 true,
                 InterServer.mk_channel 2002 100 (cp "hub") true true true true,
                 cp "loop") :: hub_requests)
               Database.init_db)).
Proof.
  apply (connections_are_cross_server Config.default). constructor.
Defined.

Section RemoveFacts.
Import Database.

Lemma lookup_other_after_delete (connection_id i : Z) (l : list connection_row) :
  i <> connection_id ->
  find (fun r => (id r =? i) && is_active r)
       (map (fun r => if id r =? connection_id then deactivate r else r) l)
  = find (fun r => (id r =? i) && is_active r) l.
Proof.
  intro N. induction l as [|r l IH]; simpl; auto.
  destruct (id r =? connection_id) eqn:E; simpl.
  - apply Z.eqb_eq in E. replace (id r =? i) with false
      by (symmetry; apply Z.eqb_neq; congruence).
    simpl. exact IH.
  - destruct ((id r =? i) && is_active r); auto.
Qed.

Lemma lookup_found (connection_id : Z) (d : db) (r : connection_row) :
  get_connection_by_id connection_id d = Some r ->
  existsb (fun x => id x =? connection_id) (connections d) = true
  /\ id r = connection_id /\ is_active r = true.
Proof.
  unfold get_connection_by_id. intro H. apply find_some in H as [I H].
  apply andb_true_iff in H as [H A]. repeat split; auto.
  - apply existsb_exists. eauto.
  - now apply Z.eqb_eq.
Qed.

End RemoveFacts.

(** X16 ([remove_connection], with [delete_connection]): [connect remove]
    writes only after the check mark, but its answer can miss the write.
    Whatever the invoker, the id and the platform, the database is
    changed only for a member who may manage channels and passes the test
    of the command, on a connection that is active, after the question
    was put and the check mark came; the change is then that of
    [delete_connection]: the connection is no longer found and every
    other lookup is as before.  The answer "removed" is shown only after
    that change, the answer "could not delete" is never shown, and the
    only channel notified is the other end seen from the invoker's
    channel.  The converse fails: when the notification of the other
    channel raises, the connection stays deleted and "removed" is not
    shown, and when what it raises is [asyncio.TimeoutError] the command
    answers "time is up, the connection was not removed". *)
Theorem remove_connection_writes_after_confirmation
        (who : Commands.Invoker) (connection_id : Z)
        (talk : Commands.Dialogue) (d : Database.db) :
  let r := Commands.remove_connection who connection_id talk d in
  (fst r = d
   \/ (InterServer.ctx_manage_channels (Commands.ctx who) = true
       /\ Commands.asked talk = None
       /\ Commands.reacted talk = Commands.Confirm
       /\ (exists c,
             Database.get_connection_by_id connection_id d = Some c
             /\ may_remove who c)
       /\ fst r = fst (Database.delete_connection connection_id d)
       /\ Database.get_connection_by_id connection_id (fst r) = None
       /\ (forall i, i <> connection_id ->
             Database.get_connection_by_id i (fst r)
             = Database.get_connection_by_id i d)))
  /\ (In Commands.SaysRemoved (Commands.shown (snd r)) ->
      Commands.reacted talk = Commands.Confirm
      /\ fst r = fst (Database.delete_connection connection_id d)
      /\ Database.get_connection_by_id connection_id (fst r) = None)
  /\ ~ In Commands.SaysFailed (Commands.shown (snd r))
  /\ (forall channel,
        Commands.notice_to (snd r) = Some channel ->
        exists c,
          Database.get_connection_by_id connection_id d = Some c
          /\ channel
             = (if Database.channel1_id c
                   =? InterServer.ctx_channel_id (Commands.ctx who)
                then Database.channel2_id c else Database.channel1_id c))
  /\ (forall c e,
        InterServer.ctx_manage_channels (Commands.ctx who) = true ->
        Database.get_connection_by_id connection_id d = Some c ->
        may_remove who c ->
        Commands.asked talk = None ->
        Commands.reacted talk = Commands.Confirm ->
        Commands.channel_known talk
          (if Database.channel1_id c
              =? InterServer.ctx_channel_id (Commands.ctx who)
           then Database.channel2_id c else Database.channel1_id c) = true ->
        Commands.notified talk = Some e ->
        Database.get_connection_by_id connection_id (fst r) = None
        /\ ~ In Commands.SaysRemoved (Commands.shown (snd r))
        /\ (e = Commands.Timeout ->
            Commands.edited_late talk = None ->
            Commands.shown (snd r) = [Commands.SaysExpired])).
Proof.
  cbv zeta. unfold Commands.remove_connection.
  destruct (InterServer.ctx_manage_channels (Commands.ctx who)) eqn:M;
    cbn [negb];
    [|cbn; repeat split; try (now left); try tauto; intros; discriminate].
  destruct (Database.get_connection_by_id connection_id d) as [c|] eqn:G;
    [|unfold Commands.reply_with; destruct (Commands.replied talk); cbn;
      (split; [now left|]); (split; [intros H; now repeat destruct H as [H|H]|]);
      (split; [intros H; now repeat destruct H as [H|H]|]);
      (split; intros; discriminate)].
  destruct (negb (Database.created_by c
                  =? InterServer.ctx_author_id (Commands.ctx who))
            && negb (Commands.administrator who)
            && negb ((InterServer.ctx_guild_id (Commands.ctx who)
                      =? Database.server1_id c)
                     || (InterServer.ctx_guild_id (Commands.ctx who)
                         =? Database.server2_id c))) eqn:D.
  { unfold Commands.reply_with; destruct (Commands.replied talk); cbn;
      (split; [now left|]); (split; [intros H; now repeat destruct H as [H|H]|]);
      (split; [intros H; now repeat destruct H as [H|H]|]);
      (split; [intros; discriminate|]);
      intros c0 e _ Hc May; exfalso; inversion Hc; subst c0;
      apply andb_true_iff in D as [D D3]; apply andb_true_iff in D as [D1 D2];
      apply negb_true_iff in D1, D2, D3; apply orb_false_iff in D3 as [D3 D4];
      apply Z.eqb_neq in D1, D3, D4;
      destruct May as [May|[May|[May|May]]]; congruence. }
  assert (May : may_remove who c).
  { unfold may_remove. apply andb_false_iff in D as [D|D].
    - apply andb_false_iff in D as [D|D].
      + left. apply negb_false_iff in D. now apply Z.eqb_eq.
      + right. left. now apply negb_false_iff in D.
    - apply negb_false_iff in D. apply orb_true_iff in D as [D|D];
        apply Z.eqb_eq in D; auto. }
  clear D.
  destruct (Commands.asked talk) as [e0|] eqn:A;
    [cbn; (split; [now left|]); (split; [intros []|]); (split; [intros []|]);
     (split; intros; discriminate)|].
  destruct (lookup_found _ _ _ G) as (X & _ & _).
  destruct (Database.delete_connection connection_id d) as [d' success] eqn:Del.
  assert (S : success = true).
  { pose proof (f_equal snd Del) as H. cbn [snd] in H.
    unfold Database.delete_connection in H. cbn [snd] in H.
    now rewrite delete_connection_rowcount, X in H. }
  subst success.
  pose proof (f_equal fst Del) as Dd. cbn [fst] in Dd.
  assert (Gone : Database.get_connection_by_id connection_id d' = None).
  { rewrite <- Dd.
    unfold Database.delete_connection, Database.get_connection_by_id.
    cbn [fst]. simpl. apply find_active_after_delete. }
  assert (Rest : forall i, i <> connection_id ->
                   Database.get_connection_by_id i d'
                   = Database.get_connection_by_id i d).
  { intros i N. rewrite <- Dd.
    unfold Database.delete_connection, Database.get_connection_by_id.
    cbn [fst]. simpl. now apply lookup_other_after_delete. }
  clear Del X.
  set (other := if Database.channel1_id c
                   =? InterServer.ctx_channel_id (Commands.ctx who)
                then Database.channel2_id c else Database.channel1_id c).
  destruct (Commands.reacted talk) eqn:R; cbv zeta; unfold Commands.show.
  - (* the check mark *)
    destruct (Commands.channel_known talk other) eqn:K;
      destruct (Commands.notified talk) as [[|x]|] eqn:Nt;
      destruct (Commands.edited talk) as [[|x1]|];
      destruct (Commands.cleared talk) as [[|x2]|];
      destruct (Commands.edited_late talk) as [[|x3]|];
      destruct (Commands.cleared_late talk) as [[|x4]|];
      cbn [fst snd app Commands.shown Commands.notice_to];
      (split; [right; repeat split;
               first [assumption | reflexivity
                     | exists c; split; [reflexivity | exact May]]|]);
      (split; [intros _; repeat split; exact Gone|]);
      (split; [intros H; repeat (destruct H as [H|H]; try discriminate);
               exact H|]);
      (split; [intros ch H; inversion H; subst; exists c; split; reflexivity
              |]);
      intros c0 e _ Hc _ _ _ K' N'; inversion Hc; subst c0;
      fold other in K';
      try discriminate; try congruence;
      (split; [exact Gone|]);
      (split; [intros H; repeat (destruct H as [H|H]; try discriminate);
               exact H|]);
      intros E L; try discriminate; try reflexivity; inversion N'; congruence.
  - (* the cross *)
    destruct (Commands.edited talk) as [[|x1]|];
      destruct (Commands.cleared talk) as [[|x2]|];
      destruct (Commands.edited_late talk) as [[|x3]|];
      destruct (Commands.cleared_late talk) as [[|x4]|];
      cbn [fst snd app Commands.shown Commands.notice_to];
      (split; [now left|]);
      (split; [intros H; repeat (destruct H as [H|H]; try discriminate);
               destruct H|]);
      (split; [intros H; repeat (destruct H as [H|H]; try discriminate);
               exact H|]);
      (split; intros; discriminate).
  - (* no reaction in time *)
    destruct (Commands.edited_late talk) as [[|x3]|];
      destruct (Commands.cleared_late talk) as [[|x4]|];
      cbn [fst snd app Commands.shown Commands.notice_to];
      (split; [now left|]);
      (split; [intros H; repeat (destruct H as [H|H]; try discriminate);
               destruct H|]);
      (split; [intros H; repeat (destruct H as [H|H]; try discriminate);
               exact H|]);
      (split; intros; discriminate).
Qed.

(** X16 at work: the member confirms and the other channel refuses the
    notification.  The connection is deleted; with [Forbidden] the
    command ends in the exception and shows no answer, with
    [asyncio.TimeoutError] it answers that the connection was not
    removed. *)
Example remove_connection_answer_misses_the_write :
  let who := Commands.mk_invoker
               (InterServer.mk_context 1 (cp "one") 10 7 true) false in
  let refused := Commands.remove_connection who 1
                   (confirming (Some (Commands.Failure InterServer.Forbidden)))
                   registry_db in
  let late := Commands.remove_connection who 1
                (confirming (Some Commands.Timeout)) registry_db in
  Database.get_connection_by_id 1 registry_db <> None
  /\ Database.get_connection_by_id 1 (fst refused) = None
  /\ snd refused
     = Commands.mk_remove_run [] (Some 20)
         (Commands.Raised (Commands.Failure InterServer.Forbidden))
  /\ Database.get_connection_by_id 1 (fst late) = None
  /\ snd late
     = Commands.mk_remove_run [Commands.SaysExpired] (Some 20)
         Commands.Returned.
Proof. vm_compute. repeat split. discriminate. Qed.

Section Pagination.

Context {A : Type}.

Lemma chunks_concat (k : nat) (t : nat) :
  forall items : list A,
    (List.length items <= t * k)%nat ->
    List.concat (map (fun j => firstn k (skipn (j * k) items)) (seq 0 t)) = items.
Proof.
  induction t as [|t IH]; intros items L.
  - simpl in *. destruct items; [reflexivity | simpl in L; lia].
  - cbn [seq map List.concat]. rewrite <- seq_shift, map_map.
    change (skipn (0 * k) items) with items.
    etransitivity; [|apply (firstn_skipn k items)]. f_equal.
    etransitivity; [|apply (IH (skipn k items))].
    + f_equal. apply map_ext. intro j.
      replace (S j * k)%nat with (k + j * k)%nat by lia.
      now rewrite skipn_skipn, Nat.add_comm.
    + rewrite length_skipn. simpl in L. lia.
Qed.

Lemma total_pages_covers (per_page : Z) (items : list A) :
  0 < per_page ->
  0 <= Commands.total_pages per_page items
  /\ Z.of_nat (List.length items)
     <= Commands.total_pages per_page items * per_page
  /\ (items <> [] -> 1 <= Commands.total_pages per_page items).
Proof.
  intro H. unfold Commands.total_pages.
  set (n := Z.of_nat (List.length items)).
  assert (0 <= n) by (unfold n; lia).
  pose proof (Z.div_mod (n + per_page - 1) per_page ltac:(lia)) as D.
  pose proof (Z.mod_pos_bound (n + per_page - 1) per_page H) as B.
  repeat split.
  - apply Z.div_pos; lia.
  - nia.
  - intro N. assert (1 <= n).
    { unfold n. destruct items; [contradiction | simpl; lia]. }
    apply Z.div_le_lower_bound; lia.
Qed.

Lemma page_items_chunk (per_page : Z) (items : list A) (j : nat) :
  0 < per_page ->
  Z.of_nat (S j) <= Commands.total_pages per_page items ->
  Commands.page_items per_page (Z.of_nat (S j)) items
  = firstn (Z.to_nat per_page) (skipn (j * Z.to_nat per_page) items).
Proof.
  intros H L. unfold Commands.page_items, Commands.shown_page, Commands.slice.
  rewrite Z.min_l, Z.max_r by lia.
  f_equal; [|f_equal]; nia.
Qed.

Lemma chunks_pages (per_page : Z) (items : list A) :
  0 < per_page ->
  List.concat (map (fun p => Commands.page_items per_page (Z.of_nat p) items)
                   (seq 1 (Z.to_nat (Commands.total_pages per_page items))))
  = items.
Proof.
  intro H.
  destruct (total_pages_covers per_page items H) as (T0 & TC & T1).
  rewrite <- seq_shift, map_map.
  rewrite (map_ext_in _
             (fun j => firstn (Z.to_nat per_page)
                         (skipn (j * Z.to_nat per_page) items))).
  - apply chunks_concat. nia.
  - intros j Hj. apply in_seq in Hj. apply page_items_chunk; lia.
Qed.

End Pagination.

(** X17: the pages of [connect list] cut the list into pieces: for a page
    size above 0, every page has at most that many entries, the pages 1 to
    [total_pages] one after the other are the whole list in its order, a
    page number outside that range shows the first or the last page, and
    no page of a list that is not empty is empty. *)
Theorem pages_partition_the_list {A : Type} (per_page : Z) (items : list A) :
  0 < per_page ->
  (forall page,
      (List.length (Commands.page_items per_page page items)
       <= Z.to_nat per_page)%nat)
  /\ List.concat (map (fun p => Commands.page_items per_page (Z.of_nat p) items)
                 (seq 1 (Z.to_nat (Commands.total_pages per_page items))))
     = items
  /\ (forall page,
        page <= 1 ->
        Commands.page_items per_page page items
        = Commands.page_items per_page 1 items)
  /\ (forall page,
        Commands.total_pages per_page items <= page ->
        Commands.page_items per_page page items
        = Commands.page_items per_page
            (Commands.total_pages per_page items) items)
  /\ (items <> [] ->
      forall page, Commands.page_items per_page page items <> []).
Proof.
  intro H.
  destruct (total_pages_covers per_page items H) as (T0 & TC & T1).
  repeat split.
  - intro page. unfold Commands.page_items, Commands.slice.
    rewrite length_firstn. lia.
  - rewrite <- seq_shift, map_map.
    rewrite (map_ext_in _
               (fun j => firstn (Z.to_nat per_page)
                           (skipn (j * Z.to_nat per_page) items))).
    + apply chunks_concat. nia.
    + intros j Hj. apply in_seq in Hj. apply page_items_chunk; lia.
  - intros page L. unfold Commands.page_items, Commands.shown_page.
    f_equal; lia.
  - intros page L. unfold Commands.page_items, Commands.shown_page.
    f_equal; lia.
  - intros N page E. specialize (T1 N).
    unfold Commands.page_items, Commands.slice in E.
    set (p := Commands.shown_page per_page page items) in *.
    assert (1 <= p <= Commands.total_pages per_page items)
      by (unfold p, Commands.shown_page; lia).
    apply (f_equal (@List.length A)) in E.
    rewrite length_firstn, length_skipn in E. simpl in E.
    assert (Z.of_nat (List.length items) > (p - 1) * per_page).
    { unfold Commands.total_pages in *.
      pose proof (Z.div_mod (Z.of_nat (List.length items) + per_page - 1)
                    per_page ltac:(lia)).
      pose proof (Z.mod_pos_bound (Z.of_nat (List.length items) + per_page - 1)
                    per_page H).
      nia. }
    nia.
Qed.

Lemma pages_partition_the_list_witness :
  List.concat (map (fun p => Commands.page_items 5 (Z.of_nat p) hub_requests)
              (seq 1 (Z.to_nat (Commands.total_pages 5 hub_requests))))
  = hub_requests.
Proof.
  apply (proj1 (proj2 (pages_partition_the_list 5 hub_requests ltac:(lia)))).
Defined.

Section OrderBy.
Import Database DatabaseQueries.

Lemma insert_desc_perm (r : connection_row) (l : list connection_row) :
  Permutation (insert_desc r l) (r :: l).
Proof.
  induction l as [|x l IH]; simpl; auto.
  destruct (created_at x <=? created_at r); auto.
  rewrite IH. apply perm_swap.
Qed.

Lemma order_by_perm (l : list connection_row) :
  Permutation (order_by_created_at_desc l) l.
Proof.
  induction l as [|r l IH]; simpl; auto.
  rewrite insert_desc_perm. now constructor.
Qed.

Lemma insert_desc_sorted (r : connection_row) (l : list connection_row) :
  StronglySorted newer_first l -> StronglySorted newer_first (insert_desc r l).
Proof.
  induction 1 as [|x l S IH F]; simpl.
  - repeat constructor.
  - destruct (created_at x <=? created_at r) eqn:E.
    + apply Z.leb_le in E. constructor; [constructor; auto|].
      constructor; [exact E|].
      eapply Forall_impl; [|exact F]. unfold newer_first. simpl. intros. lia.
    + apply Z.leb_gt in E. constructor; auto.
      apply (Permutation_Forall (x := r :: l)).
      * symmetry. apply insert_desc_perm.
      * constructor; auto. unfold newer_first. lia.
Qed.

Lemma order_by_sorted (l : list connection_row) :
  StronglySorted newer_first (order_by_created_at_desc l).
Proof.
  induction l as [|r l IH]; simpl; [constructor|].
  now apply insert_desc_sorted.
Qed.

End OrderBy.

(** X18: [connect list] shows the active connections of the guild, each
    once, the newest first.  [get_all_connections] for a guild returns a
    rearrangement of the rows of [connections] that are active and have
    the guild at one end, ordered by [created_at] from new to old;
    [list_connections] answers "no connections" exactly when there is
    none, and otherwise its pages 1 to [total_pages], one after the other,
    are that list. *)
Theorem list_connections_shows_all (guild : Z) (d : Database.db) :
  guild <> 0 ->
  let all := DatabaseQueries.get_all_connections (Some guild) d in
  Permutation all
    (filter (fun r => touches guild r && Database.is_active r)
            (Database.connections d))
  /\ StronglySorted newer_first all
  /\ (forall page, Commands.list_connections guild page d = None <-> all = [])
  /\ (all <> [] ->
      List.concat
        (map (fun p =>
                match Commands.list_connections guild (Z.of_nat p) d with
                | Some (items, _, _) => items
                | None => []
                end)
             (seq 1 (Z.to_nat (Commands.total_pages 5 all))))
      = all).
Proof.
  intro N. cbv zeta. unfold DatabaseQueries.get_all_connections.
  apply Z.eqb_neq in N. rewrite N.
  split; [apply order_by_perm|]. split; [apply order_by_sorted|].
  unfold Commands.list_connections, DatabaseQueries.get_all_connections.
  rewrite N.
  set (all := DatabaseQueries.order_by_created_at_desc _).
  split.
  - intro page. destruct all; split; auto; discriminate.
  - intro E.
    pose proof (chunks_pages 5 all ltac:(lia)) as H.
    etransitivity; [|exact H]. f_equal. apply map_ext. intro p.
    destruct all; [contradiction | reflexivity].
Qed.

Lemma list_connections_shows_all_witness :
  let all := DatabaseQueries.get_all_connections (Some 100)
               (InterServer.create_all Config.default hub_requests
                                       Database.init_db) in
  Permutation all
    (filter (fun r => touches 100 r && Database.is_active r)
            (Database.connections
               (InterServer.create_all Config.default hub_requests
                                       Database.init_db)))
  /\ StronglySorted newer_first all.
Proof.
  destruct (list_connections_shows_all 100
              (InterServer.create_all Config.default hub_requests
                                      Database.init_db) ltac:(lia))
    as (H1 & H2 & _).
  split; assumption.
Defined.

(* ================================================================= *)
(** * Switching a guild off                                            *)
(* ================================================================= *)

Section SwitchFacts.
Import Database.

Lemma enabled_after_set (now : Z) (v : bool) (row : server_settings_row) :
  enabled (apply_setting now (set_enabled v) row) = v.
Proof. reflexivity. Qed.

End SwitchFacts.

(** X19 ([update_server_setting], then [on_message]): a guild that is
    switched off is not relayed.  After [enabled] has been set to false
    for a guild that has a settings row, a message of that guild leaves
    the world as it is, whatever the message, its channel and the
    connections of the channel: it is not counted by the tracker, nothing
    is sent and nothing is logged. *)
Theorem disabled_guild_is_not_relayed (cfg : Config.t)
        (P : InterServer.Platform) (now guild : Z)
        (row : Database.server_settings_row) (d : Database.db)
        (m : InterServer.Message) (w : InterServer.World) :
  Database.find_settings guild d = Some row ->
  InterServer.database w
  = Database.update_server_setting now guild (Database.set_enabled false) d ->
  InterServer.guild_id m = guild ->
  InterServer.on_message cfg P m w = (InterServer.Ok tt, w).
Proof.
  intros F Dw G.
  pose proof (update_server_setting_lookup now guild
                (Database.set_enabled false) d) as U.
  rewrite F in U.
  assert (S : Database.get_server_settings (InterServer.clock w)
                (InterServer.guild_id m) (InterServer.database w)
              = (InterServer.database w,
                 Database.apply_setting now (Database.set_enabled false) row)).
  { rewrite Dw, G. unfold Database.get_server_settings. now rewrite U. }
  rewrite on_message_spec.
  destruct (ignored cfg m); [reflexivity|].
  unfold settings_of, db_after_settings. rewrite S. cbn [fst snd negb].
  rewrite enabled_after_set. cbn [negb].
  unfold with_database. destruct w; reflexivity.
Qed.

Lemma disabled_guild_is_not_relayed_witness :
  InterServer.on_message Config.default discord (post (cp "hello") [])
    (world_of (Database.update_server_setting 7 1 (Database.set_enabled false)
                 registry_db_with_settings) 8)
  = (InterServer.Ok tt,
     world_of (Database.update_server_setting 7 1 (Database.set_enabled false)
                 registry_db_with_settings) 8).
Proof.
  apply (disabled_guild_is_not_relayed Config.default discord 7 1
           (Database.default_settings 0 1) registry_db_with_settings).
  - vm_compute. reflexivity.
  - reflexivity.
  - reflexivity.
Defined.

(* ================================================================= *)
(** * Properties of the text tools of [ContentFilter]                  *)
(* ================================================================= *)

Section Matcher.

Lemma run_rep ic r' lo hi k s :
  Re.run ic (Re.Rep r' lo hi) k s
  = rep_loop ic r' lo hi k (S (List.length (Re.rest s))) 0 s.
Proof. reflexivity. Qed.

Lemma rep_loop_O ic r' lo hi k n s0 :
  rep_loop ic r' lo hi k O n s0 = if Nat.leb lo n then k s0 else None.
Proof. reflexivity. Qed.

Lemma rep_loop_S ic r' lo hi k fuel n s0 :
  rep_loop ic r' lo hi k (S fuel) n s0
  = if Re.below n hi then
      Re.or_else
        (Re.run ic r'
           (fun s1 =>
              if Nat.ltb (List.length (Re.rest s1)) (List.length (Re.rest s0))
              then rep_loop ic r' lo hi k fuel (S n) s1
              else if Nat.leb lo (S n) then k s1 else None)
           s0)
        (if Nat.leb lo n then k s0 else None)
    else if Nat.leb lo n then k s0 else None.
Proof. reflexivity. Qed.

Lemma advances_refl s : advances s s.
Proof. exists []. reflexivity. Qed.

Lemma advances_trans s1 s2 s3 :
  advances s1 s2 -> advances s2 s3 -> advances s1 s3.
Proof.
  intros [a A] [b B]. exists (a ++ b). rewrite A, B, app_assoc. reflexivity.
Qed.

Lemma advances_step s x t :
  Re.rest s = x :: t -> advances s (Re.step s x t).
Proof. intros E. exists [x]. rewrite E. reflexivity. Qed.

Lemma read_advances ic g : forall s s1,
  Re.read ic g s = Some s1 -> advances s s1.
Proof.
  induction g as [|c g IH]; intros s s1 H; cbn [Re.read] in H.
  - inversion H. apply advances_refl.
  - destruct (Re.rest s) as [|x t] eqn:E; [discriminate|].
    destruct (if ic then _ else _); [|discriminate].
    eapply advances_trans; [apply (advances_step _ _ _ E)|].
    apply IH, H.
Qed.

(** The matcher reads forward: where it ends, the text still to read is
    an end piece of the text it started from. *)
Lemma run_advances ic r : forall k s s1,
  (forall s' s1', k s' = Some s1' -> advances s' s1') ->
  Re.run ic r k s = Some s1 -> advances s s1.
Proof.
  induction r as [|c| |items|r1 IH1 r2 IH2|r1 IH1 r2 IH2|r' IH lo hi|n r' IH|n|];
    intros k s s1 Hk H.
  - apply Hk, H.
  - cbn [Re.run] in H. destruct (Re.rest s) as [|x t] eqn:E; [discriminate|].
    destruct (Re.chr_matches ic c x); [|discriminate].
    eapply advances_trans; [apply (advances_step _ _ _ E)|]. apply Hk, H.
  - cbn [Re.run] in H. destruct (Re.rest s) as [|x t] eqn:E; [discriminate|].
    destruct (N.eqb x 10); [discriminate|].
    eapply advances_trans; [apply (advances_step _ _ _ E)|]. apply Hk, H.
  - cbn [Re.run] in H. destruct (Re.rest s) as [|x t] eqn:E; [discriminate|].
    destruct (Re.set_matches ic items x); [|discriminate].
    eapply advances_trans; [apply (advances_step _ _ _ E)|]. apply Hk, H.
  - cbn [Re.run] in H. apply (IH1 _ _ _ (fun s' s1' => IH2 k s' s1' Hk) H).
  - cbn [Re.run] in H. unfold Re.or_else in H.
    destruct (Re.run ic r1 k s) eqn:E1.
    + inversion H; subst. apply (IH1 _ _ _ Hk E1).
    + apply (IH2 _ _ _ Hk H).
  - rewrite run_rep in H. revert H.
    generalize (S (List.length (Re.rest s))) as fuel. generalize 0%nat as n.
    intros n fuel. revert n s s1.
    induction fuel as [|fuel IHf]; intros n s s1 H.
    + rewrite rep_loop_O in H. destruct (Nat.leb lo n); [|discriminate].
      apply Hk, H.
    + rewrite rep_loop_S in H.
      assert (Stop : (if Nat.leb lo n then k s else None) = Some s1 ->
                     advances s s1).
      { destruct (Nat.leb lo n); [|discriminate]. apply Hk. }
      destruct (Re.below n hi); [|apply Stop, H].
      unfold Re.or_else in H.
      match type of H with
      | match ?e with _ => _ end = _ => destruct e eqn:E1
      end; [|apply Stop, H].
      inversion H; subst. revert E1. apply IH.
      intros s' s1' H'.
      destruct (Nat.ltb _ _); [apply (IHf _ _ _ H')|].
      destruct (Nat.leb lo (S n)); [|discriminate]. apply Hk, H'.
  - cbn [Re.run] in H. revert H. apply IH.
    intros s' s1' H'. apply Hk in H'. exact H'.
  - cbn [Re.run] in H.
    destruct (Re.get_group n (Re.groups s)); [|discriminate].
    destruct (Re.read ic t s) eqn:R; [|discriminate].
    eapply advances_trans; [apply (read_advances _ _ _ _ R)|]. apply Hk, H.
  - cbn [Re.run] in H. destruct (xorb _ _); [|discriminate]. apply Hk, H.
Qed.

Lemma consumed_pre s s1 pre :
  Re.rest s = pre ++ Re.rest s1 -> Re.consumed s s1 = pre.
Proof.
  intros E. unfold Re.consumed. rewrite E, length_app.
  replace (List.length pre + List.length (Re.rest s1)
           - List.length (Re.rest s1))%nat with (List.length pre + 0)%nat
    by lia.
  rewrite firstn_app_2. cbn [firstn]. apply app_nil_r.
Qed.

(** A match is a piece of the text at the position, followed by the text
    after the match. *)
Lemma match_at_split ic r p s f :
  Re.match_at ic r p s = Some f ->
  s = Re.whole f ++ Re.rest (Re.after f).
Proof.
  unfold Re.match_at. intros H.
  destruct (Re.run ic r Some _) as [s1|] eqn:R; [|discriminate].
  inversion H; subst. cbn [Re.whole Re.after].
  apply run_advances in R.
  - destruct R as [pre R]. rewrite (consumed_pre _ _ _ R). exact R.
  - intros s' s1' E. inversion E. apply advances_refl.
Qed.

End Matcher.

Section UrlFacts.

Lemma weave_cons x g gs us :
  weave ((x :: g) :: gs) us = x :: weave (g :: gs) us.
Proof. destruct us; reflexivity. Qed.

(** [findall] and [sub] walk the text alike: the text is the matches of
    [findall] with gaps in between, and [sub] keeps the gaps and puts the
    replacement where the matches were. *)
Lemma findall_sub_weave ic r repl : forall fuel p s,
  (List.length s < fuel)%nat ->
  exists gaps,
    List.length gaps = S (List.length (Re.findall_from fuel ic r p s))
    /\ s = weave gaps (map Re.whole (Re.findall_from fuel ic r p s))
    /\ ReSub.sub_from fuel ic r repl p s
       = weave gaps (map (fun _ => repl) (Re.findall_from fuel ic r p s)).
Proof.
  induction fuel as [|fuel IH]; intros p s L; [lia|].
  cbn [Re.findall_from ReSub.sub_from].
  assert (Step : forall x t, s = x :: t ->
            exists gaps,
              List.length gaps
              = S (List.length (Re.findall_from fuel ic r (Some x) t))
              /\ x :: t
                 = weave gaps
                     (map Re.whole (Re.findall_from fuel ic r (Some x) t))
              /\ x :: ReSub.sub_from fuel ic r repl (Some x) t
                 = weave gaps
                     (map (fun _ => repl)
                          (Re.findall_from fuel ic r (Some x) t))).
  { intros x t E. subst s. cbn [List.length] in L.
    destruct (IH (Some x) t ltac:(lia)) as (gaps & G1 & G2 & G3).
    destruct gaps as [|g gs]; [discriminate|].
    exists ((x :: g) :: gs). rewrite !weave_cons.
    split; [exact G1|]. split; [f_equal; exact G2|f_equal; exact G3]. }
  destruct (Re.match_at ic r p s) as [f|] eqn:M.
  - pose proof (match_at_split _ _ _ _ _ M) as Sp.
    destruct (Re.whole f) as [|u us] eqn:W.
    + destruct s as [|x t].
      * exists [[]; []]. cbn [List.length map weave app]. rewrite W.
        rewrite app_nil_r. repeat split; reflexivity.
      * destruct (Step x t eq_refl) as (gaps & G1 & G2 & G3).
        exists ([] :: gaps). cbn [List.length map weave app].
        rewrite G1, <- G2, <- G3, W. repeat split; reflexivity.
    + assert (L' : (List.length (Re.rest (Re.after f)) < fuel)%nat).
      { rewrite Sp in L. rewrite length_app in L. cbn [List.length] in L.
        lia. }
      destruct (IH (Re.prev (Re.after f)) _ L') as (gaps & G1 & G2 & G3).
      exists ([] :: gaps). cbn [List.length map weave app].
      rewrite G1, <- G2, <- G3, W. split; [reflexivity|].
      split; [exact Sp|reflexivity].
  - destruct s as [|x t].
    + exists [[]]. repeat split; reflexivity.
    + apply (Step x t eq_refl).
Qed.

(** Every match of [findall] was found by [match_at] at a position of the
    text. *)
Lemma findall_from_found ic r f : forall fuel p s,
  In f (Re.findall_from fuel ic r p s) ->
  exists p' a,
    Re.match_at ic r p' (Re.whole f ++ Re.rest (Re.after f)) = Some f
    /\ s = a ++ Re.whole f ++ Re.rest (Re.after f).
Proof.
  induction fuel as [|fuel IH]; intros p s H; [destruct H|].
  cbn [Re.findall_from] in H.
  assert (Step : forall x t, s = x :: t ->
            In f (Re.findall_from fuel ic r (Some x) t) ->
            exists p' a,
              Re.match_at ic r p' (Re.whole f ++ Re.rest (Re.after f))
              = Some f
              /\ s = a ++ Re.whole f ++ Re.rest (Re.after f)).
  { intros x t E H'. destruct (IH _ _ H') as (p' & a & M & S').
    exists p', (x :: a). split; [exact M|]. rewrite E, S'. reflexivity. }
  destruct (Re.match_at ic r p s) as [f0|] eqn:M.
  - pose proof (match_at_split _ _ _ _ _ M) as Sp.
    destruct H as [H|H].
    + subst f0. exists p, []. split; [|exact Sp]. rewrite <- Sp. exact M.
    + destruct (Re.whole f0) as [|u us] eqn:W.
      * destruct s as [|x t]; [destruct H|]. apply (Step x t eq_refl H).
      * destruct (IH _ _ H) as (p' & a & M' & S').
        exists p', ((u :: us) ++ a). split; [exact M'|].
        rewrite Sp at 1. rewrite S', <- app_assoc. reflexivity.
  - destruct s as [|x t]; [destruct H|]. apply (Step x t eq_refl H).
Qed.

Lemma upper_char_not_small l :
  ~ (97 <= upper_char l <= 122)%N.
Proof.
  unfold upper_char, in_range.
  repeat match goal with
         | |- context [N.leb ?a ?b] => destruct (N.leb_spec a b)
         | |- context [N.eqb ?a ?b] => destruct (N.eqb_spec a b)
         end; cbn [andb negb]; lia.
Qed.

(** Under IGNORECASE a small Latin letter other than [i], [k] and [s]
    matches itself and its capital only. *)
Lemma chr_matches_letter c x :
  (97 <= c <= 122)%N -> c <> 105%N -> c <> 107%N -> c <> 115%N ->
  Re.chr_matches true c x = true -> lower_char x = c.
Proof.
  intros R Ni Nk Ns H. unfold Re.chr_matches, Re.variants in H.
  apply existsb_exists in H. destruct H as (v & V & E).
  apply N.eqb_eq in E. subst v.
  apply in_flat_map in V. destruct V as (l & L & U).
  assert (l = c).
  { unfold Re.unlower in U. destruct U as [U|[U|U]]; [exact U| |].
    - pose proof (upper_char_not_small l). lia.
    - destruct (N.eqb l 105); [destruct U as [U|[]]; lia|].
      destruct (N.eqb l 107); [destruct U as [U|[]]; lia|destruct U]. }
  subst l. clear U.
  assert (Re.sre_lower x = c).
  { destruct L as [L|L]; [exact L|]. unfold Re.equivalents in L.
    destruct (N.eqb _ 105); [destruct L as [L|[]]; lia|].
    destruct (N.eqb _ 305); [destruct L as [L|[]]; lia|].
    destruct (N.eqb _ 115); [destruct L as [L|[]]; lia|].
    destruct (N.eqb _ 383); [destruct L as [L|[]]; lia|destruct L]. }
  unfold Re.sre_lower in H.
  destruct (N.eqb x 304); [lia|]. destruct (N.eqb x 8490); [lia|]. exact H.
Qed.

Lemma run_cat ic r1 r2 k s :
  Re.run ic (Re.Cat r1 r2) k s = Re.run ic r1 (Re.run ic r2 k) s.
Proof. reflexivity. Qed.

Lemma run_chr ic c k s s1 :
  Re.run ic (Re.Chr c) k s = Some s1 ->
  exists x t, Re.rest s = x :: t /\ Re.chr_matches ic c x = true
              /\ k (Re.step s x t) = Some s1.
Proof.
  cbn [Re.run]. destruct (Re.rest s) as [|x t]; [discriminate|].
  destruct (Re.chr_matches ic c x) eqn:C; [|discriminate].
  intros H. exists x, t. repeat split; assumption.
Qed.

Lemma url_pattern_shape :
  exists r,
    ContentFilter.url_pattern
    = Re.Cat (Re.Cat (Re.Chr 104)
                (Re.Cat (Re.Chr 116) (Re.Cat (Re.Chr 116) (Re.Chr 112)))) r.
Proof. eexists. reflexivity. Qed.

(** A match of [url_pattern] starts with the letters of [http], in
    small letters or capitals. *)
Lemma url_match_http p s f :
  Re.match_at true ContentFilter.url_pattern p s = Some f ->
  startswith (lower (Re.whole f)) (cp "http") = true.
Proof.
  unfold Re.match_at. destruct url_pattern_shape as [r ->].
  destruct (Re.run _ _ _ _) as [s1|] eqn:R; [|discriminate].
  intros H. inversion H; subst. clear H. cbn [Re.whole].
  rewrite !run_cat in R.
  apply run_chr in R. destruct R as (x1 & t1 & E1 & C1 & R).
  rewrite run_cat in R.
  apply run_chr in R. destruct R as (x2 & t2 & E2 & C2 & R).
  rewrite run_cat in R.
  apply run_chr in R. destruct R as (x3 & t3 & E3 & C3 & R).
  apply run_chr in R. destruct R as (x4 & t4 & E4 & C4 & R).
  apply run_advances in R;
    [|intros s' s1' E; inversion E; apply advances_refl].
  destruct R as [pre R].
  cbn [Re.rest Re.step] in *. subst.
  rewrite (consumed_pre _ s1 (x1 :: x2 :: x3 :: x4 :: pre)) by exact eq_refl.
  apply chr_matches_letter in C1; [|lia..].
  apply chr_matches_letter in C2; [|lia..].
  apply chr_matches_letter in C3; [|lia..].
  apply chr_matches_letter in C4; [|lia..].
  cbn [lower map]. rewrite C1, C2, C3, C4. destruct pre; reflexivity.
Qed.

Lemma startswith_app u p b :
  startswith u p = true -> startswith (u ++ b) p = true.
Proof.
  revert u. induction p as [|y p IH]; intros u H;
    [destruct u, b; reflexivity|].
  destruct u as [|x u]; [discriminate|].
  cbn [startswith app] in *. apply andb_true_iff in H. destruct H as [H1 H2].
  rewrite H1, (IH _ H2). reflexivity.
Qed.

Lemma contains_here s p : startswith s p = true -> contains s p = true.
Proof. intros H. destruct s; cbn [contains]; rewrite H; reflexivity. Qed.

Lemma contains_skip a s p : contains s p = true -> contains (a ++ s) p = true.
Proof.
  intros H. induction a as [|x a IH]; [exact H|].
  cbn [app contains]. rewrite IH. apply orb_true_r.
Qed.

Lemma extract_urls_found t u :
  In u (TextTools.extract_urls t) ->
  startswith (lower u) (cp "http") = true
  /\ exists a b, t = a ++ u ++ b.
Proof.
  unfold TextTools.extract_urls.
  destruct (negb (ContentFilter.nonempty t)); [intros []|].
  intros H. apply in_map_iff in H. destruct H as (f & <- & H).
  apply findall_from_found in H. destruct H as (p' & a & M & S').
  split; [apply (url_match_http _ _ _ M)|]. exists a, (Re.rest (Re.after f)).
  exact S'.
Qed.

End UrlFacts.

(** X20 ([extract_urls], [remove_urls]): the two functions cut a text the
    same way.  Every text is its extracted URLs, in order, with gaps of
    other text before, between and after them, and [remove_urls] returns
    the same gaps with the replacement text in the place of each URL:
    nothing outside the extracted URLs is changed, and no URL is left
    out. *)
Theorem remove_urls_replaces_extracted_urls (t : text) :
  exists gaps,
    List.length gaps = S (List.length (TextTools.extract_urls t))
    /\ t = weave gaps (TextTools.extract_urls t)
    /\ TextTools.remove_urls t
       = weave gaps (map (fun _ => TextTools.link_removed)
                         (TextTools.extract_urls t)).
Proof.
  unfold TextTools.extract_urls, TextTools.remove_urls.
  destruct t as [|x t]; cbn [ContentFilter.nonempty negb].
  - exists [[]]. repeat split; reflexivity.
  - unfold Re.findall, ReSub.sub.
    destruct (findall_sub_weave true ContentFilter.url_pattern
                TextTools.link_removed (S (List.length (x :: t))) None
                (x :: t) ltac:(lia)) as (gaps & G1 & G2 & G3).
    exists gaps. rewrite length_map. split; [exact G1|].
    split; [exact G2|]. rewrite G3, map_map. reflexivity.
Qed.

(** X21 ([extract_urls], [contains_blocked_links]): what the link check
    can see.  Every extracted URL is a piece of the text that starts with
    the letters h, t, t, p in small letters or capitals; the link check
    reports a text exactly when [_is_suspicious_url] reports one of its
    extracted URLs; so a text in which "http" does not occur, whatever
    the case of the letters, is never reported, whatever domains it
    names. *)
Theorem link_check_sees_only_http_urls (cfg : Config.t) (t : text) :
  (forall u, In u (TextTools.extract_urls t) ->
     startswith (lower u) (cp "http") = true
     /\ exists a b, t = a ++ u ++ b)
  /\ (ContentFilter.contains_blocked_links cfg t = true <->
      exists u, In u (TextTools.extract_urls t)
                /\ ContentFilter._is_suspicious_url cfg u = true)
  /\ (contains (lower t) (cp "http") = false ->
      ContentFilter.contains_blocked_links cfg t = false).
Proof.
  assert (Iff : ContentFilter.contains_blocked_links cfg t = true <->
                exists u, In u (TextTools.extract_urls t)
                          /\ ContentFilter._is_suspicious_url cfg u = true).
  { unfold ContentFilter.contains_blocked_links, TextTools.extract_urls.
    destruct (negb (ContentFilter.nonempty t)).
    - split; [discriminate|]. intros (u & [] & _).
    - apply existsb_exists. }
  split; [apply extract_urls_found|]. split; [exact Iff|].
  intros N.
  destruct (ContentFilter.contains_blocked_links cfg t) eqn:B; [|reflexivity].
  destruct (proj1 Iff eq_refl) as (u & U & _).
  apply extract_urls_found in U. destruct U as (P & a & b & E).
  rewrite E in N. unfold lower in N. rewrite !map_app in N.
  rewrite contains_skip in N; [discriminate|].
  apply contains_here, startswith_app, P.
Qed.

Section HostFacts.

Lemma lower_char_cases c :
  lower_char c = c
  \/ (((65 <= c <= 90)%N \/ (192 <= c)%N) /\ (97 <= lower_char c)%N).
Proof.
  unfold lower_char, in_range.
  repeat match goal with
         | |- context [N.leb ?a ?b] => destruct (N.leb_spec a b)
         | |- context [N.eqb ?a ?b] => destruct (N.eqb_spec a b)
         end; cbn [andb negb]; lia.
Qed.

Lemma lower_char_idem c : lower_char (lower_char c) = lower_char c.
Proof.
  assert (Up : forall x, (97 <= x <= 122)%N \/ (224 <= x <= 254)%N
                         \/ (1072 <= x <= 1119)%N -> lower_char x = x).
  { intros x Hx. unfold lower_char, in_range.
    repeat match goal with
           | |- context [N.leb ?a ?b] => destruct (N.leb_spec a b)
           | |- context [N.eqb ?a ?b] => destruct (N.eqb_spec a b)
           end; cbn [andb negb]; lia. }
  assert (C : lower_char c = c
              \/ (97 <= lower_char c <= 122)%N
              \/ (224 <= lower_char c <= 254)%N
              \/ (1072 <= lower_char c <= 1119)%N).
  { unfold lower_char, in_range.
    repeat match goal with
           | |- context [N.leb ?a ?b] => destruct (N.leb_spec a b)
           | |- context [N.eqb ?a ?b] => destruct (N.eqb_spec a b)
           end; cbn [andb negb]; lia. }
  destruct C as [C|C]; [rewrite C; exact C|apply Up, C].
Qed.

Lemma lower_idem s : lower (lower s) = lower s.
Proof.
  unfold lower. rewrite map_map. apply map_ext. apply lower_char_idem.
Qed.

Lemma host_char_small c : host_char c = true -> (c < 128)%N.
Proof.
  unfold host_char. intros H. apply andb_true_iff in H.
  apply N.ltb_lt, H.
Qed.

Lemma host_char_lower c : host_char c = true -> host_char (lower_char c) = true.
Proof.
  intros H. pose proof (host_char_small c H) as Sm.
  destruct (lower_char_cases c) as [E|[R L]]; [rewrite E; exact H|].
  assert (lower_char c = c + 32)%N as ->.
  { unfold lower_char, in_range.
    destruct (N.leb_spec 65 c); [|lia]. destruct (N.leb_spec c 90); [|lia].
    reflexivity. }
  unfold host_char. cbn [existsb].
  rewrite (proj2 (N.ltb_lt _ _)) by lia.
  rewrite !(proj2 (N.eqb_neq _ _)) by lia. reflexivity.
Qed.

Lemma host_lower h :
  forallb host_char h = true -> forallb host_char (lower h) = true.
Proof.
  induction h as [|c h IH]; [reflexivity|]. cbn [forallb lower map].
  intros H. apply andb_true_iff in H. destruct H as [H1 H2].
  rewrite (host_char_lower _ H1). apply IH, H2.
Qed.

Lemma host_has c h :
  In c [9; 10; 13; 35; 47; 63; 91; 93]%N ->
  forallb host_char h = true -> has_char c h = false.
Proof.
  intros Bad. induction h as [|x h IH]; [reflexivity|].
  cbn [forallb has_char existsb]. intros H.
  apply andb_true_iff in H. destruct H as [H1 H2].
  fold (has_char c h). rewrite (IH H2), orb_false_r.
  destruct (N.eqb_spec c x) as [->|]; [|reflexivity].
  unfold host_char in H1. apply andb_true_iff in H1. destruct H1 as [_ H1].
  apply negb_true_iff in H1.
  assert (existsb (N.eqb x) [9; 10; 13; 35; 47; 63; 91; 93]%N = true).
  { apply existsb_exists. exists x. split; [exact Bad|apply N.eqb_refl]. }
  congruence.
Qed.

Lemma host_safe h :
  forallb host_char h = true -> UrlParse.remove_unsafe h = h.
Proof.
  induction h as [|x h IH]; [reflexivity|].
  cbn [forallb]. intros H. apply andb_true_iff in H. destruct H as [H1 H2].
  unfold UrlParse.remove_unsafe in *. cbn [filter].
  rewrite (IH H2).
  unfold host_char in H1. apply andb_true_iff in H1. destruct H1 as [_ H1].
  cbn [existsb] in H1. apply negb_true_iff in H1.
  repeat (apply orb_false_iff in H1; destruct H1 as [? H1]).
  repeat match goal with E : N.eqb _ _ = false |- _ => rewrite E; clear E end.
  reflexivity.
Qed.

Lemma find_char_app c h t :
  has_char c h = false ->
  find_char c (h ++ t)
  = option_map (Nat.add (List.length h)) (find_char c t).
Proof.
  induction h as [|x h IH]; cbn [has_char existsb app find_char List.length].
  - intros _. destruct (find_char c t); reflexivity.
  - intros H. apply orb_false_iff in H. destruct H as [H1 H2].
    rewrite N.eqb_sym, H1. fold (has_char c h) in H2. rewrite (IH H2).
    destruct (find_char c t); reflexivity.
Qed.

Lemma firstn_length_app {A} (h t : list A) :
  firstn (List.length h) (h ++ t) = h.
Proof. induction h; cbn; congruence. Qed.

Lemma skipn_length_app {A} (h t : list A) :
  skipn (List.length h) (h ++ t) = t.
Proof. induction h; cbn; congruence. Qed.

(** The host ends where the path, the query or the fragment starts. *)
Lemma delim_host h t :
  forallb host_char h = true -> ends_host t = true ->
  UrlParse.min_opt
    (UrlParse.min_opt
       (UrlParse.min_opt (List.length (47 :: 47 :: h ++ t)%N)
          (UrlParse.find_from 47 2 (47 :: 47 :: h ++ t)%N))
       (UrlParse.find_from 63 2 (47 :: 47 :: h ++ t)%N))
    (UrlParse.find_from 35 2 (47 :: 47 :: h ++ t)%N)
  = (2 + List.length h)%nat.
Proof.
  intros H E. unfold UrlParse.find_from. cbn [skipn List.length].
  rewrite !find_char_app by (apply host_has; [cbn; tauto|exact H]).
  rewrite length_app.
  destruct t as [|c0 tl]; cbn [find_char ends_host List.length] in *.
  - cbn. lia.
  - destruct (N.eqb c0 47), (N.eqb c0 63), (N.eqb c0 35);
      try discriminate;
      destruct (find_char 47 tl), (find_char 63 tl), (find_char 35 tl);
      cbn [option_map UrlParse.min_opt]; lia.
Qed.

Lemma splitnetloc_host h t :
  forallb host_char h = true -> ends_host t = true ->
  UrlParse.splitnetloc (47 :: 47 :: h ++ t)%N = (h, t).
Proof.
  intros H E. unfold UrlParse.splitnetloc. cbv zeta.
  rewrite (delim_host h t H E).
  replace (2 + List.length h - 2)%nat with (List.length h) by lia.
  cbn [skipn Nat.add]. rewrite firstn_length_app, skipn_length_app.
  reflexivity.
Qed.

Lemma ends_host_safe t :
  ends_host t = true -> ends_host (UrlParse.remove_unsafe t) = true.
Proof.
  destruct t as [|c tl]; [reflexivity|]. cbn [ends_host]. intros H.
  unfold UrlParse.remove_unsafe. cbn [filter].
  destruct (N.eqb_spec c 47) as [->|]; [reflexivity|].
  destruct (N.eqb_spec c 63) as [->|]; [reflexivity|].
  destruct (N.eqb_spec c 35) as [->|]; [reflexivity|discriminate].
Qed.

Lemma ends_host_lower t : ends_host t = true -> ends_host (lower t) = true.
Proof.
  destruct t as [|c tl]; [reflexivity|]. cbn [ends_host lower map]. intros H.
  destruct (N.eqb_spec c 47) as [->|]; [reflexivity|].
  destruct (N.eqb_spec c 63) as [->|]; [reflexivity|].
  destruct (N.eqb_spec c 35) as [->|]; [reflexivity|discriminate].
Qed.

(** [urlparse] of [http://] or [https://], a host and what follows it:
    the netloc is the host. *)
Lemma urlparse_host sch h t :
  sch = cp "http://" \/ sch = cp "https://" ->
  forallb host_char h = true -> ends_host t = true ->
  exists scheme path,
    UrlParse.urlparse (sch ++ h ++ t)
    = Some (UrlParse.mk_parsed scheme h path).
Proof.
  intros S H E. unfold UrlParse.urlparse.
  assert (L : UrlParse.lstrip_c0_space (sch ++ h ++ t) = sch ++ h ++ t)
    by (destruct S; subst sch; reflexivity).
  rewrite L. unfold UrlParse.remove_unsafe at 1. rewrite !filter_app.
  fold (UrlParse.remove_unsafe h). fold (UrlParse.remove_unsafe t).
  rewrite (host_safe h H).
  apply ends_host_safe in E. set (t' := UrlParse.remove_unsafe t) in *.
  assert (Sp : exists scheme,
             UrlParse.split_scheme
               (filter (fun c => negb (N.eqb c 9 || N.eqb c 10 || N.eqb c 13))
                       sch ++ h ++ t')
             = (scheme, (47 :: 47 :: h ++ t')%N))
    by (destruct S; subst sch; eexists; reflexivity).
  destruct Sp as [scheme ->].
  assert (SW : startswith (47 :: 47 :: h ++ t')%N (cp "//") = true)
    by (destruct (h ++ t'); reflexivity).
  rewrite SW, (splitnetloc_host h t' H E).
  rewrite !host_has by (try exact H; cbn; tauto).
  cbn [xorb]. eexists _, _. reflexivity.
Qed.

End HostFacts.

(** X22 ([_is_suspicious_url], with [urlparse]): a link to a listed
    domain is reported whatever else it holds.  For a URL made of the
    scheme [http://] or [https://] in any case of the letters, a host of
    ASCII characters and, after the host, nothing or a path, a query or a
    fragment of any content: when the host in small letters, without a
    leading [www.], is one of [suspicious_domains] or a subdomain of one,
    [_is_suspicious_url] returns true. *)
Theorem listed_hosts_are_reported (cfg : Config.t) (scheme host tail : text) :
  lower scheme = cp "http://" \/ lower scheme = cp "https://" ->
  forallb host_char host = true ->
  ends_host tail = true ->
  listed cfg (strip_www (lower host)) = true ->
  ContentFilter._is_suspicious_url cfg (scheme ++ host ++ tail) = true.
Proof.
  intros S H E Li. unfold ContentFilter._is_suspicious_url.
  unfold lower at 1. rewrite !map_app. fold (lower scheme) (lower host)
    (lower tail).
  destruct (urlparse_host (lower scheme) (lower host) (lower tail) S
              (host_lower _ H) (ends_host_lower _ E))
    as (sc & path & ->).
  cbn [UrlParse.netloc]. rewrite lower_idem.
  cbv zeta.
  change (if startswith (lower host) (cp "www.") then skipn 4 (lower host)
          else lower host) with (strip_www (lower host)).
  unfold listed in Li.
  destruct (text_in (strip_www (lower host))
              (ContentFilter.suspicious_domains cfg)); [reflexivity|].
  cbn [orb] in Li. rewrite Li. reflexivity.
Qed.

Lemma listed_hosts_are_reported_witness :
  ContentFilter._is_suspicious_url Config.default
    (cp "HTTP://WWW.Bit.ly/abc") = true.
Proof.
  apply (listed_hosts_are_reported Config.default (cp "HTTP://")
           (cp "WWW.Bit.ly") (cp "/abc")).
  - left. vm_compute. reflexivity.
  - vm_compute. reflexivity.
  - vm_compute. reflexivity.
  - vm_compute. reflexivity.
Defined.

(** X23 ([is_text_safe], with [filter_message] and the content checks of
    [on_message]): a text is safe exactly when no check it asks for
    reports it: no listed word, no reported link, fewer than three mass
    mentions, no token, and under [strict] no spam pattern.  So a text
    that is safe under [strict] is safe without it, and a message whose
    text is safe is never dropped by the relay for its content, whatever
    the settings of its server. *)
Theorem safe_text_passes_every_check (cfg : Config.t) (t : text)
        (strict : bool) :
  (TextTools.is_text_safe cfg t strict = true <->
   ContentFilter.contains_profanity cfg t = false
   /\ ContentFilter.contains_blocked_links cfg t = false
   /\ (strict = true -> ContentFilter.is_spam_pattern t = false)
   /\ ContentFilter.contains_mass_mentions t 3 = false
   /\ ContentFilter.contains_discord_token t = false)
  /\ (TextTools.is_text_safe cfg t true = true ->
      TextTools.is_text_safe cfg t false = true)
  /\ (TextTools.is_text_safe cfg t strict = true ->
      forall m w, InterServer.content m = t ->
                  content_rejected cfg m w = false).
Proof.
  assert (Iff : forall strict,
            TextTools.is_text_safe cfg t strict = true <->
            ContentFilter.contains_profanity cfg t = false
            /\ ContentFilter.contains_blocked_links cfg t = false
            /\ (strict = true -> ContentFilter.is_spam_pattern t = false)
            /\ ContentFilter.contains_mass_mentions t 3 = false
            /\ ContentFilter.contains_discord_token t = false).
  { intros st. unfold TextTools.is_text_safe, ContentFilter.filter_message.
    destruct t as [|x t'].
    - cbn. split; [|reflexivity]. intros _. repeat split; reflexivity.
    - cbn [ContentFilter.nonempty negb andb fst].
      destruct (ContentFilter.contains_profanity cfg (x :: t')),
        (ContentFilter.contains_blocked_links cfg (x :: t')),
        (ContentFilter.is_spam_pattern (x :: t')),
        (ContentFilter.contains_mass_mentions (x :: t') 3),
        (ContentFilter.contains_discord_token (x :: t')), st;
        cbn; split; intros H; try discriminate; try reflexivity;
        try (repeat split; (reflexivity || discriminate));
        try (destruct H as (? & ? & ? & ? & ?); discriminate);
        try (destruct H as (? & ? & S' & ? & ?);
             discriminate (S' eq_refl)). }
  split; [apply Iff|]. split.
  - intros H. apply Iff in H. apply Iff.
    destruct H as (? & ? & ? & ? & ?). repeat split; try assumption.
    discriminate.
  - intros H m w E. apply Iff in H. destruct H as (P & L & _).
    unfold content_rejected. rewrite E, P, L, andb_false_r. reflexivity.
Qed.

Section CleanFacts.

Let ws : Re.regex := Re.plus (Re.CharSet TextTools.whitespace).

Lemma after_spaces_length : forall s p,
  (List.length (snd (after_spaces p s)) <= List.length s)%nat.
Proof.
  induction s as [|x t IH]; intros p; cbn [after_spaces]; [cbn; lia|].
  destruct (TextTools.isspace x); cbn [snd List.length].
  - specialize (IH (Some x)). lia.
  - lia.
Qed.

(** The loop of [\s+]: it reads the whitespace at the position, all of
    it. *)
Lemma ws_loop : forall fuel n p s gs,
  (List.length s < fuel)%nat ->
  rep_loop false (Re.CharSet TextTools.whitespace) 1 None Some fuel n
           (Re.mk_mstate p s gs)
  = if Nat.leb 1 n || starts_space s
    then Some (Re.mk_mstate (fst (after_spaces p s)) (snd (after_spaces p s))
                            gs)
    else None.
Proof.
  induction fuel as [|fuel IH]; intros n p s gs L; [lia|].
  rewrite rep_loop_S. cbn [Re.below Re.run Re.rest].
  destruct s as [|x t].
  - cbn [Re.or_else starts_space after_spaces fst snd].
    rewrite orb_false_r. reflexivity.
  - change (Re.set_matches false TextTools.whitespace x)
      with (TextTools.isspace x).
    cbn [starts_space after_spaces].
    destruct (TextTools.isspace x).
    + cbn [Re.step Re.rest Re.groups].
      rewrite (proj2 (Nat.ltb_lt _ _)) by (cbn [List.length]; lia).
      cbn [List.length] in L. unfold Re.step. cbn [Re.groups].
      rewrite IH by lia.
      cbn [Nat.leb orb Re.or_else]. rewrite orb_true_r. reflexivity.
    + cbn [Re.or_else]. rewrite orb_false_r. reflexivity.
Qed.

Lemma ws_match p s :
  Re.match_at false ws p s
  = if starts_space s
    then Some (Re.mk_found
                 (firstn (List.length s
                          - List.length (snd (after_spaces p s))) s)
                 []
                 (Re.mk_mstate (fst (after_spaces p s))
                               (snd (after_spaces p s)) []))
    else None.
Proof.
  unfold Re.match_at, ws, Re.plus. rewrite run_rep. cbn [Re.rest].
  rewrite ws_loop by lia. cbn [Nat.leb orb].
  destruct (starts_space s); reflexivity.
Qed.

Lemma squeeze_after : forall t p,
  squeeze true t = squeeze false (snd (after_spaces p t)).
Proof.
  induction t as [|x t IH]; intros p; [reflexivity|].
  cbn [squeeze after_spaces]. destruct (TextTools.isspace x) eqn:E.
  - apply IH.
  - cbn [snd squeeze]. rewrite E. reflexivity.
Qed.

(** [re.sub(r'\s+', ' ', s)] *)
Lemma sub_ws : forall fuel p s,
  (List.length s < fuel)%nat ->
  ReSub.sub_from fuel false ws [32%N] p s = squeeze false s.
Proof.
  induction fuel as [|fuel IH]; intros p s L; [lia|].
  cbn [ReSub.sub_from]. rewrite ws_match.
  destruct s as [|x t]; [reflexivity|].
  cbn [starts_space squeeze]. cbn [List.length] in L.
  destruct (TextTools.isspace x) eqn:E.
  - cbn [Re.whole Re.after Re.prev Re.rest after_spaces]. rewrite E.
    pose proof (after_spaces_length t (Some x)) as Le.
    cbn [List.length].
    destruct (S (List.length t)
              - List.length (snd (after_spaces (Some x) t)))%nat
      as [|k] eqn:K; [lia|].
    cbn [firstn app]. rewrite IH by lia.
    rewrite (squeeze_after t (Some x)). reflexivity.
  - rewrite IH by lia. reflexivity.
Qed.

Lemma clean_text_squeeze s :
  TextTools.clean_text s None = squeeze false (TextTools.strip s).
Proof.
  unfold TextTools.clean_text. destruct s as [|x t]; [reflexivity|].
  cbn [ContentFilter.nonempty negb]. unfold ReSub.sub.
  apply sub_ws. lia.
Qed.

Lemma space_is_space : TextTools.isspace 32 = true.
Proof. reflexivity. Qed.

Lemma visible_squeeze : forall s b, visible (squeeze b s) = visible s.
Proof.
  unfold visible. induction s as [|x t IH]; intros b; [reflexivity|].
  cbn [squeeze filter]. destruct (TextTools.isspace x) eqn:E; cbn [negb].
  - destruct b; [apply IH|]. cbn [filter]. rewrite space_is_space.
    apply IH.
  - cbn [filter]. rewrite E, IH. reflexivity.
Qed.

Lemma visible_lstrip s : visible (TextTools.lstrip s) = visible s.
Proof.
  unfold visible. induction s as [|x t IH]; [reflexivity|].
  cbn [TextTools.lstrip filter]. destruct (TextTools.isspace x) eqn:E.
  - exact IH.
  - cbn [filter]. rewrite E. reflexivity.
Qed.

Lemma visible_rev s : visible (rev s) = rev (visible s).
Proof.
  unfold visible. induction s as [|x t IH]; [reflexivity|].
  cbn [rev filter]. rewrite filter_app, IH. cbn [filter].
  destruct (negb (TextTools.isspace x)); [reflexivity|apply app_nil_r].
Qed.

Lemma visible_strip s : visible (TextTools.strip s) = visible s.
Proof.
  unfold TextTools.strip.
  rewrite visible_rev, visible_lstrip, visible_rev, rev_involutive.
  apply visible_lstrip.
Qed.

Lemma spaces_squeeze : forall s b,
  Forall (fun c => TextTools.isspace c = true -> c = 32%N) (squeeze b s).
Proof.
  induction s as [|x t IH]; intros b; [constructor|].
  cbn [squeeze]. destruct (TextTools.isspace x) eqn:E.
  - destruct b; [apply IH|]. constructor; [reflexivity|apply IH].
  - constructor; [congruence|apply IH].
Qed.

Lemma single_squeeze : forall s b,
  single_spaced (squeeze b s) = true
  /\ (b = true -> starts_space (squeeze b s) = false).
Proof.
  induction s as [|x t IH]; intros b; [split; reflexivity|].
  cbn [squeeze]. destruct (TextTools.isspace x) eqn:E.
  - destruct b; [apply IH|]. split; [|discriminate].
    cbn [single_spaced]. destruct (IH true) as [S1 S2].
    rewrite S1, (S2 eq_refl), andb_false_r. reflexivity.
  - split.
    + cbn [single_spaced]. rewrite E. apply (IH false).
    + intros _. cbn [starts_space]. exact E.
Qed.

Lemma starts_squeeze s : starts_space (squeeze false s) = starts_space s.
Proof.
  destruct s as [|x t]; [reflexivity|]. cbn [squeeze starts_space].
  destruct (TextTools.isspace x) eqn:E; cbn [starts_space]; [|exact E].
  apply space_is_space.
Qed.

Lemma lstrip_starts s : starts_space (TextTools.lstrip s) = false.
Proof.
  induction s as [|x t IH]; [reflexivity|]. cbn [TextTools.lstrip].
  destruct (TextTools.isspace x) eqn:E; [exact IH|exact E].
Qed.

Lemma lstrip_end s : exists a, s = a ++ TextTools.lstrip s.
Proof.
  induction s as [|x t [a IH]]; [exists []; reflexivity|].
  cbn [TextTools.lstrip]. destruct (TextTools.isspace x).
  - exists (x :: a). cbn [app]. rewrite <- IH. reflexivity.
  - exists []. reflexivity.
Qed.

Lemma strip_starts s : starts_space (TextTools.strip s) = false.
Proof.
  unfold TextTools.strip.
  pose proof (lstrip_starts s) as U.
  destruct (lstrip_end (rev (TextTools.lstrip s))) as [a E].
  apply (f_equal (@rev N)) in E. rewrite rev_involutive, rev_app_distr in E.
  destruct (rev (TextTools.lstrip (rev (TextTools.lstrip s)))) as [|y v];
    [reflexivity|].
  rewrite E in U. exact U.
Qed.

Lemma strip_ends s : ends_space (TextTools.strip s) = false.
Proof.
  unfold ends_space, TextTools.strip. rewrite rev_involutive.
  apply lstrip_starts.
Qed.

Lemma squeeze_snoc z : TextTools.isspace z = false -> forall s b,
  squeeze b (s ++ [z]) = squeeze b s ++ [z].
Proof.
  intros Z. induction s as [|x t IH]; intros b.
  - cbn [app squeeze]. rewrite Z. reflexivity.
  - cbn [app squeeze]. destruct (TextTools.isspace x).
    + destruct b; rewrite IH; reflexivity.
    + rewrite IH. reflexivity.
Qed.

Lemma ends_squeeze s :
  ends_space s = false -> ends_space (squeeze false s) = false.
Proof.
  unfold ends_space. intros H.
  destruct (rev s) as [|z v] eqn:R.
  - apply (f_equal (@rev N)) in R. rewrite rev_involutive in R. subst s.
    reflexivity.
  - apply (f_equal (@rev N)) in R. rewrite rev_involutive in R. subst s.
    cbn [starts_space] in H. cbn [rev].
    rewrite (squeeze_snoc z H), rev_app_distr. exact H.
Qed.

Lemma lstrip_fixed s : starts_space s = false -> TextTools.lstrip s = s.
Proof.
  destruct s as [|x t]; [reflexivity|]. cbn [starts_space TextTools.lstrip].
  intros ->. reflexivity.
Qed.

Lemma squeeze_fixed : forall s,
  Forall (fun c => TextTools.isspace c = true -> c = 32%N) s ->
  single_spaced s = true -> squeeze false s = s.
Proof.
  induction s as [|x t IH]; intros F S1; [reflexivity|].
  inversion F as [|? ? Fx Ft]; subst.
  cbn [single_spaced] in S1. apply andb_true_iff in S1.
  destruct S1 as [S1 S2]. cbn [squeeze].
  destruct (TextTools.isspace x) eqn:E.
  - rewrite (Fx eq_refl). f_equal.
    cbn [andb] in S1. apply negb_true_iff in S1.
    rewrite <- (IH Ft S2) at 2.
    destruct t as [|y t']; [reflexivity|]. cbn [starts_space] in S1.
    cbn [squeeze]. rewrite S1. reflexivity.
  - f_equal. apply IH; assumption.
Qed.

End CleanFacts.

(** X24 ([clean_text] without a maximal length): the result is the text
    in a normal form.  It has the characters of the text that are not
    whitespace, all of them and in their order; its only whitespace
    characters are single spaces, none at the start and none at the end;
    and cleaning it again changes nothing. *)
Theorem clean_text_normal_form (s : text) :
  visible (TextTools.clean_text s None) = visible s
  /\ Forall (fun c => TextTools.isspace c = true -> c = 32%N)
            (TextTools.clean_text s None)
  /\ single_spaced (TextTools.clean_text s None) = true
  /\ starts_space (TextTools.clean_text s None) = false
  /\ ends_space (TextTools.clean_text s None) = false
  /\ TextTools.clean_text (TextTools.clean_text s None) None
     = TextTools.clean_text s None.
Proof.
  assert (V : visible (TextTools.clean_text s None) = visible s)
    by (rewrite clean_text_squeeze, visible_squeeze; apply visible_strip).
  assert (F : Forall (fun c => TextTools.isspace c = true -> c = 32%N)
                     (TextTools.clean_text s None))
    by (rewrite clean_text_squeeze; apply spaces_squeeze).
  assert (S1 : single_spaced (TextTools.clean_text s None) = true)
    by (rewrite clean_text_squeeze; apply single_squeeze).
  assert (St : starts_space (TextTools.clean_text s None) = false)
    by (rewrite clean_text_squeeze, starts_squeeze; apply strip_starts).
  assert (En : ends_space (TextTools.clean_text s None) = false)
    by (rewrite clean_text_squeeze; apply ends_squeeze, strip_ends).
  repeat (split; [assumption|]).
  rewrite (clean_text_squeeze (TextTools.clean_text s None)).
  unfold TextTools.strip. rewrite (lstrip_fixed _ St).
  unfold ends_space in En. rewrite (lstrip_fixed _ En), rev_involutive.
  apply squeeze_fixed; assumption.
Qed.

(** X25 ([clean_text] with a maximal length): for a maximal length of 3
    or more the result is never longer than it, and a cleaned text that
    fits is returned whole; a maximal length of 0 does not cut at all;
    and for a maximal length of 1 or 2 a cleaned text that is longer is
    returned LONGER than it was: cut by 3 less the maximum, with three
    dots added. *)
Theorem clean_text_length (s : text) (n : Z) :
  (3 <= n ->
   Z.of_nat (List.length (TextTools.clean_text s (Some n))) <= n
   /\ (Z.of_nat (List.length (TextTools.clean_text s None)) <= n ->
       TextTools.clean_text s (Some n) = TextTools.clean_text s None))
  /\ (n = 0 -> TextTools.clean_text s (Some n) = TextTools.clean_text s None)
  /\ (0 < n < 3 ->
      n < Z.of_nat (List.length (TextTools.clean_text s None)) ->
      Z.of_nat (List.length (TextTools.clean_text s (Some n)))
      = Z.of_nat (List.length (TextTools.clean_text s None)) + n).
Proof.
  unfold TextTools.clean_text. destruct s as [|x t].
  - cbn. repeat split; intros; try reflexivity; lia.
  - cbn [ContentFilter.nonempty negb].
    set (cleaned := ReSub.sub false _ _ _).
    assert (Dots : List.length (cp "...") = 3%nat) by reflexivity.
    split; [|split].
    + intros N3. destruct (n =? 0) eqn:Z0; [lia|]. cbn [negb andb].
      destruct (n <? Z.of_nat (List.length cleaned)) eqn:Lt.
      * apply Z.ltb_lt in Lt. split; [|lia].
        unfold TextTools.slice_to.
        rewrite (proj2 (Z.leb_le 0 (n - 3))) by lia.
        rewrite length_app, length_firstn, Dots. lia.
      * apply Z.ltb_ge in Lt. split; [lia|reflexivity].
    + intros ->. reflexivity.
    + intros N3 Lt. destruct (n =? 0) eqn:Z0; [lia|]. cbn [negb andb].
      rewrite (proj2 (Z.ltb_lt _ _) Lt).
      unfold TextTools.slice_to.
      destruct (0 <=? n - 3) eqn:Le; [apply Z.leb_le in Le; lia|].
      rewrite length_app, length_firstn, Dots. lia.
Qed.

(* ================================================================= *)
(** * Properties of the statistics                                     *)
(* ================================================================= *)

Section StatsFacts.

Lemma nodup_length_le (l : list Z) :
  (List.length (nodup Z.eq_dec l) <= List.length l)%nat.
Proof.
  induction l as [|x l IH]; [cbn; lia|]. cbn [nodup].
  destruct (in_dec Z.eq_dec x l); cbn [List.length]; lia.
Qed.

Lemma count_distinct_bounds (l : list Z) :
  0 <= DatabaseQueries.count_distinct l <= Z.of_nat (List.length l).
Proof.
  unfold DatabaseQueries.count_distinct.
  pose proof (nodup_length_le l). lia.
Qed.

Lemma count_distinct_snoc (l : list Z) (x : Z) :
  DatabaseQueries.count_distinct (l ++ [x])
  <= DatabaseQueries.count_distinct l + 1.
Proof.
  unfold DatabaseQueries.count_distinct.
  induction l as [|y l IH]; [cbn; lia|].
  cbn [app nodup].
  destruct (in_dec Z.eq_dec y (l ++ [x])) as [I|I],
           (in_dec Z.eq_dec y l) as [J|J]; cbn [List.length]; try lia.
  exfalso. apply I, in_or_app. left. exact J.
Qed.

Lemma filter_length_le {A} (p : A -> bool) (l : list A) :
  (List.length (filter p l) <= List.length l)%nat.
Proof.
  induction l as [|x l IH]; [cbn; lia|]. cbn [filter].
  destruct (p x); cbn [List.length]; lia.
Qed.

Lemma filter_length_impl {A} (p q : A -> bool) (l : list A) :
  (forall x, p x = true -> q x = true) ->
  (List.length (filter p l) <= List.length (filter q l))%nat.
Proof.
  intros I. induction l as [|x l IH]; [cbn; lia|]. cbn [filter].
  destruct (p x) eqn:P.
  - rewrite (I x P). cbn [List.length]. lia.
  - destruct (q x); cbn [List.length]; lia.
Qed.

End StatsFacts.

(** X26 ([get_message_stats], [get_database_stats]): the numbers of the
    statistics fit together.  In every state of the database, for every
    connection (or none) and every number of days: the unique users are
    between 0 and the messages counted, and so are the connections
    counted when no connection is asked for; the messages counted are no
    more than the messages counted without a connection and no more than
    the total of [get_database_stats].  For periods inside SQLite's
    calendar a longer period counts no fewer messages.  For a negative
    number of days, and for a period that starts before SQLite's
    calendar, the date of the query is NULL and nothing is counted. *)
Theorem message_stats_bounds (now : Z) (conn : option Z) (days : Z)
        (d : Database.db) :
  0 <= DatabaseQueries.unique_users
         (DatabaseQueries.get_message_stats now conn days d)
    <= DatabaseQueries.total_messages
         (DatabaseQueries.get_message_stats now conn days d)
  /\ (forall a,
        DatabaseQueries.active_connections
          (DatabaseQueries.get_message_stats now conn days d) = Some a ->
        0 <= a <= DatabaseQueries.total_messages
                    (DatabaseQueries.get_message_stats now conn days d))
  /\ DatabaseQueries.total_messages
       (DatabaseQueries.get_message_stats now conn days d)
     <= DatabaseQueries.total_messages
          (DatabaseQueries.get_message_stats now None days d)
  /\ DatabaseQueries.total_messages
       (DatabaseQueries.get_message_stats now conn days d)
     <= DatabaseQueries.stats_total_messages
          (DatabaseQueries.get_database_stats d)
  /\ (forall days',
        0 <= days -> days <= days' ->
        DatabaseQueries.start_of_calendar <= now - days' * 86400 ->
        DatabaseQueries.total_messages
          (DatabaseQueries.get_message_stats now conn days d)
        <= DatabaseQueries.total_messages
             (DatabaseQueries.get_message_stats now conn days' d))
  /\ (days < 0 \/ now - days * 86400 < DatabaseQueries.start_of_calendar ->
      DatabaseQueries.total_messages
        (DatabaseQueries.get_message_stats now conn days d) = 0
      /\ DatabaseQueries.unique_users
           (DatabaseQueries.get_message_stats now conn days d) = 0).
Proof.
  assert (Map : forall (l : list Database.message_history_row)
                       (f : Database.message_history_row -> Z),
            0 <= DatabaseQueries.count_distinct (map f l)
              <= Z.of_nat (List.length l)).
  { intros l f. pose proof (count_distinct_bounds (map f l)) as B.
    rewrite length_map in B. exact B. }
  assert (Later : forall days' r,
            0 <= days -> days <= days' ->
            DatabaseQueries.start_of_calendar <= now - days' * 86400 ->
            match DatabaseQueries.days_ago now days with
            | Some since => since <=? Database.timestamp r
            | None => false
            end = true ->
            match DatabaseQueries.days_ago now days' with
            | Some since => since <=? Database.timestamp r
            | None => false
            end = true).
  { intros days' r D0 Le Cal. unfold DatabaseQueries.days_ago.
    rewrite (proj2 (Z.ltb_ge days' 0)) by lia.
    rewrite (proj2 (Z.ltb_ge (now - days' * 86400) _)) by lia.
    cbn [orb].
    destruct ((days <? 0) || (now - days * 86400 <? _)); [discriminate|].
    intros H. apply Z.leb_le in H. apply Z.leb_le. nia. }
  assert (Null : days < 0
                 \/ now - days * 86400 < DatabaseQueries.start_of_calendar ->
                 DatabaseQueries.days_ago now days = None).
  { intros H. unfold DatabaseQueries.days_ago.
    destruct H as [H|H].
    - now rewrite (proj2 (Z.ltb_lt _ _) H).
    - rewrite (proj2 (Z.ltb_lt _ _) H). now rewrite orb_true_r. }
  assert (Empty : forall (p : Database.message_history_row -> bool)
                         (l : list Database.message_history_row),
            (forall r, p r = false) -> filter p l = []).
  { intros p l H. induction l as [|r l IH]; [reflexivity|].
    cbn [filter]. now rewrite H. }
  unfold DatabaseQueries.get_message_stats, DatabaseQueries.get_database_stats.
  cbn [DatabaseQueries.stats_total_messages].
  destruct conn as [c|]; [destruct (c =? 0)|];
    cbn [DatabaseQueries.unique_users DatabaseQueries.total_messages
         DatabaseQueries.active_connections];
    (split; [apply Map|]);
    (split; [intros a E; inversion E; subst; apply Map|]);
    (split; [apply inj_le, filter_length_impl; intros x H;
             try exact H; apply andb_true_iff in H; apply H|]);
    (split; [apply inj_le, filter_length_le|]);
    (split; [intros days' D0 Le Cal; apply inj_le, filter_length_impl;
             intros x H
            |intros N; apply Null in N; rewrite N;
             rewrite Empty by (intros; rewrite ?andb_false_r; reflexivity);
             split; reflexivity]).
  - now apply (Later days').
  - apply andb_true_iff in H. destruct H as [H1 H2]. rewrite H1.
    now apply (Later days').
  - now apply (Later days').
Qed.

(** X27 ([log_message], then [get_message_stats] and
    [get_database_stats]): a logged message is counted once, for as long
    as the period asked for reaches back to it.  When [log_message]
    succeeds for a connection, then at any time and for any number of
    days that is not negative and whose period starts inside SQLite's
    calendar and holds the time of the message, the count of the
    connection, the count over all connections and the total of the
    database each go up by exactly one, the unique users of the
    connection go up by one at most, and the statistics of every other
    connection are what they were. *)
Theorem logged_message_is_counted (now original forwarded author conn : Z)
        (hash : option string) (later days : Z) (d d' : Database.db) :
  Database.log_message now original forwarded author conn hash d = Some d' ->
  conn <> 0 ->
  0 <= days ->
  DatabaseQueries.start_of_calendar <= later - days * 86400 ->
  later - days * 86400 <= now ->
  DatabaseQueries.total_messages
    (DatabaseQueries.get_message_stats later (Some conn) days d')
  = DatabaseQueries.total_messages
      (DatabaseQueries.get_message_stats later (Some conn) days d) + 1
  /\ DatabaseQueries.total_messages
       (DatabaseQueries.get_message_stats later None days d')
     = DatabaseQueries.total_messages
         (DatabaseQueries.get_message_stats later None days d) + 1
  /\ DatabaseQueries.stats_total_messages
       (DatabaseQueries.get_database_stats d')
     = DatabaseQueries.stats_total_messages
         (DatabaseQueries.get_database_stats d) + 1
  /\ DatabaseQueries.unique_users
       (DatabaseQueries.get_message_stats later (Some conn) days d')
     <= DatabaseQueries.unique_users
          (DatabaseQueries.get_message_stats later (Some conn) days d) + 1
  /\ (forall other, other <> conn -> other <> 0 ->
        DatabaseQueries.get_message_stats later (Some other) days d'
        = DatabaseQueries.get_message_stats later (Some other) days d).
Proof.
  unfold Database.log_message. intros L C D0 Cal D.
  destruct (existsb _ _); [|discriminate]. inversion L; subst d'. clear L.
  assert (Since : DatabaseQueries.days_ago later days
                  = Some (later - days * 86400)).
  { unfold DatabaseQueries.days_ago.
    rewrite (proj2 (Z.ltb_ge days 0)) by lia.
    rewrite (proj2 (Z.ltb_ge (later - days * 86400) _)) by lia.
    reflexivity. }
  assert (Recent : (later - days * 86400 <=? now) = true)
    by (apply Z.leb_le; exact D).
  unfold DatabaseQueries.get_message_stats, DatabaseQueries.get_database_stats.
  rewrite Since.
  cbn [Database.set_message_history Database.message_history
       DatabaseQueries.stats_total_messages].
  rewrite (proj2 (Z.eqb_neq conn 0) C).
  cbn [DatabaseQueries.total_messages DatabaseQueries.unique_users].
  rewrite !filter_app. cbn [filter Database.connection_id Database.timestamp].
  rewrite Z.eqb_refl, Recent. cbn [andb].
  rewrite !length_app, !map_app. cbn [List.length map Database.author_id].
  split; [lia|]. split; [lia|]. split; [lia|].
  split; [apply count_distinct_snoc|].
  intros other O1 O2. rewrite (proj2 (Z.eqb_neq other 0) O2).
  rewrite !filter_app. cbn [filter Database.connection_id].
  rewrite (proj2 (Z.eqb_neq conn other)) by congruence.
  cbn [andb]. rewrite !app_nil_r. reflexivity.
Qed.

Lemma logged_message_is_counted_witness :
  DatabaseQueries.total_messages
    (DatabaseQueries.get_message_stats 3600 (Some 1) 7
       (match Database.log_message 5 1000 2000 42 1 None registry_db with
        | Some d' => d'
        | None => registry_db
        end))
  = DatabaseQueries.total_messages
      (DatabaseQueries.get_message_stats 3600 (Some 1) 7 registry_db) + 1.
Proof.
  refine (proj1 (logged_message_is_counted 5 1000 2000 42 1 None 3600 7
                   registry_db _ _ _ _ _ _)).
  - vm_compute. reflexivity.
  - discriminate.
  - discriminate.
  - discriminate.
  - discriminate.
Defined.

(** X26 and X27 at the edge of the calendar: a message logged now is
    counted over 7 days and over two million days, and not over three
    million days or over minus five. *)
Example message_stats_at_the_edge :
  let d := match Database.log_message 1793750400 1000 2000 42 1 None
                   registry_db with
           | Some d' => d'
           | None => registry_db
           end in
  map (fun days =>
         DatabaseQueries.total_messages
           (DatabaseQueries.get_message_stats 1793750400 None days d))
      [7; 2000000; 3000000; -5]
  = [1; 1; 0; 0].
Proof. vm_compute. reflexivity. Qed.

(* ================================================================= *)
(** * Who sees a connection                                            *)
(* ================================================================= *)

Section InfoFacts.
Import Database.


End InfoFacts.


